(** * Expense tracker: a shallow embedding of [expense_tracker.py]

    The program keeps two module globals, the dictionary [expenses] and the
    integer [expense_counter], persists them as one JSON document and serves
    a console menu.  The embedding follows the source function by function:

    - Python text is [string], read as ASCII text.  A character code above
      127 is taken as an uncased symbol that is neither a digit nor white
      space, where Python knows digits, letters and white space beyond
      ASCII: a property that depends on the class of a character of the
      input is stated for ASCII input ([PyStr.is_ascii]);
    - [int] of the model reads any number of digits, where CPython refuses
      more than 4300 of them with [ValueError]: a property that converts
      digits of the input bounds their number;
    - [%Y] of the model writes four digits.  For the years 1000 to 9999
      every C library does; below 1000 some write the zeros in front and
      some do not: a property that depends on the text of a formatted year
      is stated for the years from 1000 on;
    - a Python [dict] is an association list in insertion order, because the
      source iterates over dictionaries and relies on the stability of
      [sorted] (module [PyDict]);
    - amounts are exact rationals [Q]: the rounding of binary floating point
      is not represented, nor are the non-finite values.  A property
      therefore takes a test on an amount as the source evaluates it (the
      guard [amount <= 0] is [Qle_bool a 0]), and equates no two sums that
      the source adds in different orders;
    - the console, the file and the clock are fields of a [world] record that
      the operations thread through a state and exception monad;
    - [print] appends a [line] to the console transcript; a formatted line is
      a constructor that carries the interpolated values. *)

From Stdlib Require Import List String Ascii Bool ZArith QArith Lia.
From Stdlib Require Import Permutation Sorted.
From Stdlib Require Import DecimalPos DecimalZ.
From Stdlib Require OrderedTypeEx.
Import ListNotations.

Local Open Scope string_scope.
Local Open Scope list_scope.
Local Open Scope Z_scope.

Ltac Zify.zify_post_hook ::= Z.to_euclidean_division_equations.

(** ** Python text primitives *)

Module PyStr.

Definition code (c : ascii) : Z := Z.of_N (N_of_ascii c).

(** [str.isspace] on one ASCII character: TAB..CR, FS..US and SPACE. *)
Definition is_space (c : ascii) : bool :=
  ((9 <=? code c) && (code c <=? 13)) || ((28 <=? code c) && (code c <=? 32)).

Definition is_digit (c : ascii) : bool := (48 <=? code c) && (code c <=? 57).
Definition is_upper (c : ascii) : bool := (65 <=? code c) && (code c <=? 90).
Definition is_lower (c : ascii) : bool := (97 <=? code c) && (code c <=? 122).
Definition is_cased (c : ascii) : bool := is_upper c || is_lower c.

Definition digit_val (c : ascii) : Z := code c - 48.

Definition chr (z : Z) : ascii := ascii_of_N (Z.to_N z).

Definition to_lower (c : ascii) : ascii := if is_upper c then chr (code c + 32) else c.
Definition to_upper (c : ascii) : ascii := if is_lower c then chr (code c - 32) else c.

(** [s.lstrip()], [s.rstrip()] and [s.strip()]. *)
Fixpoint lstrip (s : string) : string :=
  match s with
  | String c r => if is_space c then lstrip r else s
  | EmptyString => EmptyString
  end.

Fixpoint rstrip (s : string) : string :=
  match s with
  | String c r =>
      match rstrip r with
      | EmptyString => if is_space c then EmptyString else String c EmptyString
      | r' => String c r'
      end
  | EmptyString => EmptyString
  end.

Definition strip (s : string) : string := rstrip (lstrip s).

(** [s.lower()]. *)
Fixpoint lower (s : string) : string :=
  match s with
  | String c r => String (to_lower c) (lower r)
  | EmptyString => EmptyString
  end.

(** [s.title()] on ASCII text: a cased character is upper-cased when the
    character before it is not cased and lower-cased otherwise. *)
Fixpoint title_from (previous_is_cased : bool) (s : string) : string :=
  match s with
  | String c r =>
      String (if previous_is_cased then to_lower c else to_upper c)
             (title_from (is_cased c) r)
  | EmptyString => EmptyString
  end.

Definition title (s : string) : string := title_from false s.

(** [s.isdigit()] on ASCII text: at least one character and every
    character one of 0 to 9. *)
Fixpoint all_digits (s : string) : bool :=
  match s with
  | String c r => is_digit c && all_digits r
  | EmptyString => true
  end.

Definition isdigit (s : string) : bool :=
  match s with
  | EmptyString => false
  | _ => all_digits s
  end.

(** The white space that [int] skips around the literal of an ASCII
    string: TAB..CR and SPACE.  [str.strip] removes FS..US as well, [int]
    does not. *)
Definition is_c_space (c : ascii) : bool :=
  ((9 <=? code c) && (code c <=? 13)) || (code c =? 32).

Fixpoint lskip (s : string) : string :=
  match s with
  | String c r => if is_c_space c then lskip r else s
  | EmptyString => EmptyString
  end.

Fixpoint rskip (s : string) : string :=
  match s with
  | String c r =>
      match rskip r with
      | EmptyString => if is_c_space c then EmptyString else String c EmptyString
      | r' => String c r'
      end
  | EmptyString => EmptyString
  end.

(** [int(s)] for a string argument, base ten: white space around the
    literal is skipped, one sign may lead, and the digits may be grouped by
    single underscores.  [None] stands for [ValueError].  The interpreter's
    cap on the number of digits (4300 unless configured otherwise, above
    which [int] raises [ValueError] and so does [str]) is not represented:
    what is proved of [int] on digits that a user types is stated for at
    most that many. *)
Fixpoint int_digits (acc : Z) (digit_needed : bool) (s : string) : option Z :=
  match s with
  | String c r =>
      if is_digit c then int_digits (acc * 10 + digit_val c) false r
      else if (code c =? 95) && negb digit_needed then int_digits acc true r
      else None
  | EmptyString => if digit_needed then None else Some acc
  end.

Definition int_literal (s : string) : option Z :=
  match s with
  | String c r =>
      if code c =? 45 then option_map Z.opp (int_digits 0 true r)
      else if code c =? 43 then int_digits 0 true r
      else int_digits 0 true s
  | EmptyString => None
  end.

Definition int (s : string) : option Z := int_literal (rskip (lskip s)).

(** Text that is ASCII: every character code is below 128.  The primitives
    of this module are those of Python on such text. *)
Fixpoint is_ascii (s : string) : bool :=
  match s with
  | String c r => (code c <? 128) && is_ascii r
  | EmptyString => true
  end.

(** [str(n)] for an integer, which is also how [json.dump] writes an
    integer dictionary key. *)
Fixpoint digits_of_uint (u : Decimal.uint) : string :=
  match u with
  | Decimal.Nil => EmptyString
  | Decimal.D0 r => String "0" (digits_of_uint r)
  | Decimal.D1 r => String "1" (digits_of_uint r)
  | Decimal.D2 r => String "2" (digits_of_uint r)
  | Decimal.D3 r => String "3" (digits_of_uint r)
  | Decimal.D4 r => String "4" (digits_of_uint r)
  | Decimal.D5 r => String "5" (digits_of_uint r)
  | Decimal.D6 r => String "6" (digits_of_uint r)
  | Decimal.D7 r => String "7" (digits_of_uint r)
  | Decimal.D8 r => String "8" (digits_of_uint r)
  | Decimal.D9 r => String "9" (digits_of_uint r)
  end.

Definition str (n : Z) : string :=
  match n with
  | Z0 => "0"
  | Zpos p => digits_of_uint (Pos.to_uint p)
  | Zneg p => String "-" (digits_of_uint (Pos.to_uint p))
  end.

(** A number below 100 (below 10000) written with two (four) digits, as
    [%m], [%d], [%U] (and [%Y]) do. *)
Definition digit_char (d : Z) : ascii := chr (48 + d).

Definition pad2 (n : Z) : string :=
  String (digit_char (n / 10 mod 10)) (String (digit_char (n mod 10)) EmptyString).

Definition pad4 (n : Z) : string :=
  String (digit_char (n / 1000 mod 10))
    (String (digit_char (n / 100 mod 10)) (pad2 n)).

End PyStr.

(** ** Python dictionaries and [sorted] *)

Module PyDict.
Section Dict.
Context {K V : Type} (eqb : K -> K -> bool).

(** The items of a dictionary, oldest insertion first. *)
Definition dict : Type := list (K * V).

Fixpoint get (k : K) (d : dict) : option V :=
  match d with
  | (k', v) :: r => if eqb k k' then Some v else get k r
  | [] => None
  end.

(** [k in d]. *)
Definition mem (k : K) (d : dict) : bool :=
  match get k d with Some _ => true | None => false end.

(** [d[k] = v]: an existing key keeps its place, a new key goes last. *)
Fixpoint set (k : K) (v : V) (d : dict) : dict :=
  match d with
  | (k', v') :: r => if eqb k k' then (k', v) :: r else (k', v') :: set k v r
  | [] => [(k, v)]
  end.

(** [del d[k]], for a key the caller has found in [d]: the item of that
    key goes, the others keep their order. *)
Fixpoint del (k : K) (d : dict) : dict :=
  match d with
  | (k', v') :: r => if eqb k k' then del k r else (k', v') :: del k r
  | [] => []
  end.

Definition keys (d : dict) : list K := map fst d.
Definition values (d : dict) : list V := map snd d.

(** [d[k] = f(d[k])] on a [defaultdict] whose factory returns [dflt]. *)
Definition update (dflt : V) (k : K) (f : V -> V) (d : dict) : dict :=
  match get k d with
  | Some v => set k (f v) d
  | None => set k (f dflt) d
  end.

(** [{k2(k): v for k, v in items}]: the comprehension inserts in order. *)
Definition of_items (items : list (K * V)) : dict :=
  fold_left (fun d kv => set (fst kv) (snd kv) d) items [].

End Dict.

Section Sorting.
Context {A : Type} (before : A -> A -> bool).

(** [sorted] is stable.  [before y x] says that [y] sorts strictly before
    [x]; an element is put behind exactly the elements that sort strictly
    before it, so equal elements keep the order they arrived in. *)
Fixpoint insert (x : A) (l : list A) : list A :=
  match l with
  | y :: r => if before y x then y :: insert x r else x :: y :: r
  | [] => [x]
  end.

Definition sorted (l : list A) : list A := fold_right insert [] l.

End Sorting.

(** [set(xs)] followed by [sorted]: duplicates are dropped first. *)
Fixpoint dedup (xs : list string) : list string :=
  match xs with
  | x :: r => if existsb (String.eqb x) r then dedup r else x :: dedup r
  | [] => []
  end.

End PyDict.

(** ** The calendar of [datetime] *)

Module Calendar.

Record date : Type := mkdate { year : Z; month : Z; day : Z }.

Definition is_leap (y : Z) : bool :=
  (y mod 4 =? 0) && (negb (y mod 100 =? 0) || (y mod 400 =? 0)).

Definition days_in_month (y m : Z) : Z :=
  if m =? 2 then (if is_leap y then 29 else 28)
  else if (m =? 4) || (m =? 6) || (m =? 9) || (m =? 11) then 30
  else 31.

Definition days_before_year (y : Z) : Z :=
  let p := y - 1 in p * 365 + p / 4 - p / 100 + p / 400.

(** Days of the year that lie before the first day of month [m]. *)
Definition days_before_month (y m : Z) : Z :=
  fold_right Z.add 0
    (map (days_in_month y) (map Z.of_nat (seq 1 (Z.to_nat (m - 1))))).

(** [date.toordinal()]: 0001-01-01 is day 1. *)
Definition toordinal (d : date) : Z :=
  days_before_year (year d) + days_before_month (year d) (month d) + day d.

(** [date.weekday()]: Monday is 0. *)
Definition weekday (d : date) : Z := (toordinal d + 6) mod 7.

(** The constructor of [datetime.date] accepts exactly these. *)
Definition valid (d : date) : bool :=
  (1 <=? year d) && (year d <=? 9999) &&
  (1 <=? month d) && (month d <=? 12) &&
  (1 <=? day d) && (day d <=? days_in_month (year d) (month d)).

Definition prev_day (d : date) : date :=
  if 1 <? day d then mkdate (year d) (month d) (day d - 1)
  else if 1 <? month d
       then mkdate (year d) (month d - 1) (days_in_month (year d) (month d - 1))
       else mkdate (year d - 1) 12 31.

(** [d - timedelta(days=n)]. *)
Definition minus_days (d : date) (n : Z) : date :=
  Nat.iter (Z.to_nat n) prev_day d.

(** [%U]: the week of the year, weeks starting on Sunday, days before the
    first Sunday in week 0. *)
Definition week_U (d : date) : Z :=
  let yday := days_before_month (year d) (month d) + day d - 1 in
  let wday := (weekday d + 1) mod 7 in
  (yday + 7 - wday) / 7.

Definition month_name (m : Z) : string :=
  nth (Z.to_nat (m - 1))
    ["January"; "February"; "March"; "April"; "May"; "June"; "July";
     "August"; "September"; "October"; "November"; "December"] "".

Definition month_abbr (m : Z) : string :=
  nth (Z.to_nat (m - 1))
    ["Jan"; "Feb"; "Mar"; "Apr"; "May"; "Jun"; "Jul";
     "Aug"; "Sep"; "Oct"; "Nov"; "Dec"] "".

(** The directives of [strftime] the program uses.  [%Y] writes four
    digits, which is what every platform writes from the year 1000 on. *)
Definition fmt_Y (d : date) : string := PyStr.pad4 (year d).
Definition fmt_m (d : date) : string := PyStr.pad2 (month d).
Definition fmt_d (d : date) : string := PyStr.pad2 (day d).
Definition fmt_U (d : date) : string := PyStr.pad2 (week_U d).

(** [d.strftime('%Y-%m-%d')]. *)
Definition isoformat (d : date) : string :=
  (fmt_Y d ++ "-" ++ fmt_m d ++ "-" ++ fmt_d d)%string.

(** The regular expressions [_strptime] compiles for the directives:
    [%Y] is [\d\d\d\d], [%m] is [1[0-2]|0[1-9]|[1-9]] and [%d] is
    [3[0-1]|[1-2]\d|0[1-9]|[1-9]| [1-9]].  Each function returns the number
    read and the rest of the text. *)
Definition read_Y (s : string) : option (Z * string) :=
  match s with
  | String a (String b (String c (String d r))) =>
      if PyStr.is_digit a && PyStr.is_digit b && PyStr.is_digit c && PyStr.is_digit d
      then Some (PyStr.digit_val a * 1000 + PyStr.digit_val b * 100
                 + PyStr.digit_val c * 10 + PyStr.digit_val d, r)
      else None
  | _ => None
  end.

Definition nonzero_digit (c : ascii) : bool := (49 <=? PyStr.code c) && (PyStr.code c <=? 57).

Definition read_1_9 (s : string) : option (Z * string) :=
  match s with
  | String a r => if nonzero_digit a then Some (PyStr.digit_val a, r) else None
  | EmptyString => None
  end.

Definition read_m (s : string) : option (Z * string) :=
  match s with
  | String a (String b r) =>
      if (PyStr.code a =? 49) && (48 <=? PyStr.code b) && (PyStr.code b <=? 50)
      then Some (10 + PyStr.digit_val b, r)
      else if (PyStr.code a =? 48) && nonzero_digit b
      then Some (PyStr.digit_val b, r)
      else read_1_9 s
  | _ => read_1_9 s
  end.

Definition read_d (s : string) : option (Z * string) :=
  match s with
  | String a (String b r) =>
      if (PyStr.code a =? 51) && (48 <=? PyStr.code b) && (PyStr.code b <=? 49)
      then Some (30 + PyStr.digit_val b, r)
      else if (49 <=? PyStr.code a) && (PyStr.code a <=? 50) && PyStr.is_digit b
      then Some (PyStr.digit_val a * 10 + PyStr.digit_val b, r)
      else if (PyStr.code a =? 48) && nonzero_digit b
      then Some (PyStr.digit_val b, r)
      else if nonzero_digit a then Some (PyStr.digit_val a, String b r)
      else if (PyStr.code a =? 32) && nonzero_digit b
      then Some (PyStr.digit_val b, r)
      else None
  | _ => read_1_9 s
  end.

Definition read_dash (s : string) : option string :=
  match s with
  | String a r => if PyStr.code a =? 45 then Some r else None
  | EmptyString => None
  end.

(** [datetime.strptime(s, '%Y-%m-%d')]: the whole text has to match, and
    the numbers have to name a day of the calendar.  [None] stands for
    [ValueError]. *)
Definition strptime (s : string) : option date :=
  match read_Y s with
  | Some (y, s1) =>
      match read_dash s1 with
      | Some s2 =>
          match read_m s2 with
          | Some (m, s3) =>
              match read_dash s3 with
              | Some s4 =>
                  match read_d s4 with
                  | Some (d, EmptyString) =>
                      if valid (mkdate y m d) then Some (mkdate y m d) else None
                  | _ => None
                  end
              | None => None
              end
          | None => None
          end
      | None => None
      end
  | None => None
  end.

End Calendar.

(** ** The persisted document *)

(** What [json.load] returns: the value of a JSON text.  The items of an
    object are the items of the [dict] that [json.load] builds, so their keys
    are pairwise distinct in every value read from a file. *)
Local Unset Elimination Schemes.
Inductive json : Type :=
| JNull
| JBool (b : bool)
| JInt (n : Z)
| JFloat (x : Q)
| JStr (s : string)
| JArr (elements : list json)
| JObj (items : list (string * json)).
Local Set Elimination Schemes.

(** The content of [EXPENSE_FILE]: a JSON text ([JsonDoc]); text that
    [json.load] rejects with [JSONDecodeError] ([NotJson]); bytes that are
    not text in the encoding of the file, on which reading raises
    [UnicodeDecodeError] ([NotText]); or a JSON text nested deeper than the
    interpreter recurses, on which [json.load] raises [RecursionError]
    ([TooDeep]). *)
Inductive file_content : Type :=
| NotJson
| JsonDoc (data : json)
| NotText
| TooDeep.

(** One expense, of the structure the source declares for the values of
    [expenses]: category, amount, date and description. *)
Record expense : Type := mkexpense {
  category : string;
  amount : Q;
  date : string;
  description : string
}.

Definition json_of_expense (e : expense) : json :=
  JObj [("category", JStr (category e)); ("amount", JFloat (amount e));
        ("date", JStr (date e)); ("description", JStr (description e))].

(** The values of the declared structure, as [add_expense] builds them and
    [json.dump] writes them.  Any other value is not an [expense]. *)
Definition expense_of_json (v : json) : option expense :=
  match v with
  | JObj [(k1, JStr c); (k2, JFloat a); (k3, JStr d); (k4, JStr t)] =>
      if (k1 =? "category")%string && (k2 =? "amount")%string
         && (k3 =? "date")%string && (k4 =? "description")%string
      then Some (mkexpense c a d t) else None
  | _ => None
  end.

(** ** The world and the monad of the operations *)

(** The exceptions that the program meets.  [UnicodeDecodeError] is a
    subclass of [ValueError]; none of the others is a subclass of another or
    of [IOError]. *)
Inductive exn : Type :=
| ValueError
| AttributeError
| ZeroDivisionError
| EOFError
| UnicodeDecodeError
| RecursionError.

(** A line of the console transcript.  [Text] is a literal line; the other
    constructors are the formatted lines, with the values they show.  Blank
    lines, the check mark and the prompts of [input] are left out. *)
Inductive line : Type :=
| Text (s : string)
| Loaded_from_file (n : nat)
| Load_warning
| Saved
| Save_error
| Added (id : Z)
| View_row (id : Z) (d c : string) (a : Q) (t : string)
| View_count (n : nat)
| Category_option (idx : nat) (c : string)
| No_match (c : string)
| In_category (c : string)
| Filter_row (id : Z) (d : string) (a : Q) (t : string)
| Filter_total (c : string) (a : Q)
| Breakdown_row (c : string) (a pct : Q)
| Grand_total (a : Q)
| Expense_count (n : nat)
| Average_expense (a : Q)
| Not_found (id : Z)
| Detail_date (d : string)
| Detail_category (c : string)
| Detail_amount (a : Q)
| Detail_description (t : string)
| Deleted
| Period_label (l : string)
| Total_spent (a : Q)
| Number_of_expenses (n : Z)
| Top_row (c : string) (a pct : Q)
| Chart (kind : string) (series : list (string * Q))
| Chart_displayed (kind : string)
| Chart_error.

Record world : Type := mkworld {
  expenses : PyDict.dict (K := Z) (V := expense);  (* the global [expenses] *)
  expense_counter : Z;                             (* the global [expense_counter] *)
  file : option file_content;   (* [EXPENSE_FILE]; [None] when it does not exist *)
  readable : bool;              (* whether [open(EXPENSE_FILE, 'r')] succeeds *)
  writable : bool;              (* whether [open(EXPENSE_FILE, 'w')] succeeds *)
  plotting : bool;              (* whether the calls into matplotlib succeed *)
  today : Calendar.date;        (* the day [datetime.now()] reports *)
  stdin : list string;          (* the lines [input] has still to read *)
  stdout : list line            (* the lines printed so far, oldest first *)
}.

(** How a call ends.  [Untyped] is not an outcome of the program: it marks a
    run in which the interpreter goes on with loaded values that are not of
    the declared structure, which the embedding does not follow. *)
Inductive outcome (A : Type) : Type :=
| Return (a : A)
| Raise (e : exn)
| Untyped.
Arguments Return {A} a.
Arguments Raise {A} e.
Arguments Untyped {A}.

Definition M (A : Type) : Type := world -> outcome A * world.

Definition ret {A} (a : A) : M A := fun w => (Return a, w).
Definition raise {A} (e : exn) : M A := fun w => (Raise e, w).

Definition bind {A B} (m : M A) (k : A -> M B) : M B :=
  fun w =>
    match m w with
    | (Return a, w') => k a w'
    | (Raise e, w') => (Raise e, w')
    | (Untyped, w') => (Untyped, w')
    end.

Notation "x <- m ;; k" := (bind m (fun x => k))
  (at level 61, m at next level, right associativity).
Notation "m ;;; k" := (bind m (fun _ => k))
  (at level 61, right associativity).

(** [try: m except e: handler]. *)
Definition try_except {A} (m : M A) (catches : exn -> bool) (handler : M A) : M A :=
  fun w =>
    match m w with
    | (Raise e, w') => if catches e then handler w' else (Raise e, w')
    | r => r
    end.

Definition print (l : line) : M unit :=
  fun w => (Return tt,
            mkworld (expenses w) (expense_counter w) (file w) (readable w)
                    (writable w) (plotting w) (today w) (stdin w) (stdout w ++ [l])).

(** [input(prompt)]: the next line of the console, [EOFError] at its end. *)
Definition input : M string :=
  fun w =>
    match stdin w with
    | l :: rest =>
        (Return l,
         mkworld (expenses w) (expense_counter w) (file w) (readable w)
                 (writable w) (plotting w) (today w) rest (stdout w))
    | [] => (Raise EOFError, w)
    end.

Definition set_globals (d : PyDict.dict) (c : Z) : M unit :=
  fun w => (Return tt,
            mkworld d c (file w) (readable w) (writable w) (plotting w)
                    (today w) (stdin w) (stdout w)).

Definition write_file (f : file_content) : M unit :=
  fun w => (Return tt,
            mkworld (expenses w) (expense_counter w) (Some f) (readable w)
                    (writable w) (plotting w) (today w) (stdin w) (stdout w)).

Definition ask {A} (f : world -> A) : M A := fun w => (Return (f w), w).

(** [for x in xs: body]. *)
Fixpoint for_each {A} (xs : list A) (body : A -> M unit) : M unit :=
  match xs with
  | x :: r => body x ;;; for_each r body
  | [] => ret tt
  end.

Definition rule (n : nat) : string := string_of_list_ascii (repeat "="%char n).
Definition dashes (n : nat) : string := string_of_list_ascii (repeat "-"%char n).

(** ** The operations of the program *)

(** [sum(xs)], and a loop [total += x] over [xs] from [total = 0], start
    from 0 and add from the left. *)
Definition sum (xs : list Q) : Q := fold_left Qplus xs 0%Q.

(** [sorted(items, key=lambda x: x[1]['date'], reverse=True)]. *)
Definition by_date_desc (items : list (Z * expense)) : list (Z * expense) :=
  PyDict.sorted (fun y x => String.ltb (date (snd x)) (date (snd y))) items.

(** [sorted(strings)]. *)
Definition sorted_strings (xs : list string) : list string :=
  PyDict.sorted (fun y x => String.ltb y x) xs.

(** [sorted(strings, reverse=True)]. *)
Definition sorted_strings_desc (xs : list string) : list string :=
  PyDict.sorted (fun y x => String.ltb x y) xs.

Definition Qlt_bool (x y : Q) : bool := negb (Qle_bool y x).

(** [sorted(d.items(), key=lambda x: x[1], reverse=True)]. *)
Definition by_amount_desc (items : list (string * Q)) : list (string * Q) :=
  PyDict.sorted (fun y x => Qlt_bool (snd x) (snd y)) items.

(** The dictionary [category_totals] that [calculate_total_expenses] and
    [visualize_expenses] fill: a [defaultdict(float)]. *)
Definition add_amount (key : string) (a : Q) (d : PyDict.dict) : PyDict.dict :=
  PyDict.update String.eqb 0%Q key (fun t => (t + a)%Q) d.

Definition category_totals (es : list expense) : PyDict.dict :=
  fold_left (fun d e => add_amount (category e) (amount e) d) es [].

Definition date_totals (es : list expense) : PyDict.dict :=
  fold_left (fun d e => add_amount (date e) (amount e) d) es [].

(** One entry of [summaries] in [generate_expense_summary]. *)
Record summary : Type := mksummary {
  label : string;
  total : Q;
  count : Z;
  categories : PyDict.dict (K := string) (V := Q)
}.

(** The grouping key and the label of the period a day falls in. *)
Definition period (choice : string) (d : Calendar.date) : string * string :=
  if (choice =? "1")%string then
    let week_start := Calendar.minus_days d (Calendar.weekday d) in
    ((Calendar.fmt_Y week_start ++ "-W" ++ Calendar.fmt_U week_start)%string,
     (Calendar.fmt_Y week_start ++ " Week " ++ Calendar.fmt_U week_start
      ++ " (starting " ++ Calendar.month_abbr (Calendar.month week_start)
      ++ " " ++ Calendar.fmt_d week_start ++ ")")%string)
  else if (choice =? "2")%string then
    ((Calendar.fmt_Y d ++ "-" ++ Calendar.fmt_m d)%string,
     (Calendar.fmt_Y d ++ " " ++ Calendar.month_name (Calendar.month d))%string)
  else (Calendar.fmt_Y d, Calendar.fmt_Y d).

(** The four updates of [summaries[key]] for one expense. *)
Definition add_to_summary (key lbl : string) (e : expense) (s : summary) : summary :=
  mksummary lbl (total s + amount e)%Q (count s + 1)
            (add_amount (category e) (amount e) (categories s)).

Definition empty_summary : summary := mksummary "" 0%Q 0 [].

(** The grouping loop; [None] when [strptime] raises [ValueError]. *)
Fixpoint group (choice : string) (es : list expense) (summaries : PyDict.dict)
  : option (PyDict.dict (K := string) (V := summary)) :=
  match es with
  | e :: r =>
      match Calendar.strptime (date e) with
      | Some d =>
          let (key, lbl) := period choice d in
          group choice r
                (PyDict.update String.eqb empty_summary key (add_to_summary key lbl e) summaries)
      | None => None
      end
  | [] => Some summaries
  end.

(** The periods in the order they are shown:
    [sorted(summaries.keys(), reverse=True)]. *)
Definition display_order (summaries : PyDict.dict (K := string) (V := summary))
  : list (string * summary) :=
  flat_map (fun key => match PyDict.get String.eqb key summaries with
                       | Some s => [(key, s)]
                       | None => []
                       end)
           (sorted_strings_desc (PyDict.keys summaries)).

(** [x / y], which raises [ZeroDivisionError] when [y] is zero. *)
Definition divide (x y : Q) : M Q :=
  if Qeq_bool y 0 then raise ZeroDivisionError else ret (x / y)%Q.

Definition show_period (s : summary) : M unit :=
  print (Period_label (label s)) ;;;
  print (Text (dashes 40)) ;;;
  print (Total_spent (total s)) ;;;
  print (Number_of_expenses (count s)) ;;;
  avg <- divide (total s) (inject_Z (count s)) ;;
  print (Average_expense avg) ;;;
  if (1 <? Z.of_nat (List.length (categories s)))
  then
    print (Text "Top categories:") ;;;
    for_each (firstn 3 (by_amount_desc (categories s)))
             (fun ca => q <- divide (snd ca) (total s) ;;
                        print (Top_row (fst ca) (snd ca) (q * 100)%Q))
  else ret tt.

Definition validate_date (date_string : string) : bool :=
  match Calendar.strptime date_string with
  | Some _ => true
  | None => false
  end.

(** The shape of a file whose values are of the declared structure. *)
Fixpoint expenses_of_json (items : list (Z * json)) : option (list (Z * expense)) :=
  match items with
  | (k, v) :: r =>
      match expense_of_json v, expenses_of_json r with
      | Some e, Some r' => Some ((k, e) :: r')
      | _, _ => None
      end
  | [] => Some []
  end.

(** [int(k)] for every key, in the order of the items; [None] when one of
    them raises [ValueError]. *)
Fixpoint int_keys (items : list (string * json)) : option (list (Z * json)) :=
  match items with
  | (k, v) :: r =>
      match PyStr.int k with
      | Some n => option_map (cons (n, v)) (int_keys r)
      | None => None
      end
  | [] => Some []
  end.

(** [data.get(key, default)] on a loaded object. *)
Definition get_default (key : string) (default : json) (items : list (string * json)) : json :=
  match PyDict.get String.eqb key items with
  | Some v => v
  | None => default
  end.

(** The body of the [with] block of [load_expenses].  A value without the
    method [get] or [items] raises [AttributeError], a key that [int]
    rejects raises [ValueError]; neither is a [JSONDecodeError] or an
    [IOError], so neither is caught. *)
Definition read_document (data : json) : M unit :=
  match data with
  | JObj fields =>
      match get_default "expenses" (JObj []) fields with
      | JObj items =>
          match int_keys items with
          | Some entries =>
              match expenses_of_json (PyDict.of_items Z.eqb entries),
                    get_default "counter" (JInt 1) fields with
              | Some d, JInt c =>
                  set_globals d c ;;;
                  print (Loaded_from_file (List.length d))
              | _, _ => fun w => (Untyped, w)
              end
          | None => raise ValueError
          end
      | _ => raise AttributeError
      end
  | _ => raise AttributeError
  end.

Definition load_expenses : M unit :=
  fun w =>
    match file w with
    | Some content =>
        if readable w then
          match content with
          | JsonDoc data => read_document data w
          | NotJson =>
              (print Load_warning ;;; set_globals [] 1) w
          | NotText => raise UnicodeDecodeError w
          | TooDeep => raise RecursionError w
          end
        else (print Load_warning ;;; set_globals [] 1) w
    | None => print (Text "No saved expenses found. Starting fresh.") w
    end.

(** What [json.dump] writes for the two globals. *)
Definition document (d : PyDict.dict) (c : Z) : json :=
  JObj [("expenses", JObj (map (fun ke => (PyStr.str (fst ke), json_of_expense (snd ke))) d));
        ("counter", JInt c)].

Definition save_expenses : M unit :=
  fun w =>
    if writable w
    then (write_file (JsonDoc (document (expenses w) (expense_counter w))) ;;;
          print Saved) w
    else print Save_error w.

Definition input_stripped : M string := s <- input ;; ret (PyStr.strip s).

Definition is_empty {A} (l : list A) : bool :=
  match l with [] => true | _ => false end.

(** [enumerate(xs, start)]. *)
Fixpoint enumerate {A} (start : nat) (xs : list A) : list (nat * A) :=
  match xs with
  | x :: r => (start, x) :: enumerate (S start) r
  | [] => []
  end.

Definition view_all_expenses : M unit :=
  d <- ask expenses ;;
  if is_empty d then print (Text "No expenses recorded yet.")
  else
    print (Text (rule 80)) ;;;
    print (Text "ID    Date         Category            Amount Description                   ") ;;;
    print (Text (rule 80)) ;;;
    for_each (by_date_desc d)
             (fun ke => print (View_row (fst ke) (date (snd ke)) (category (snd ke))
                                        (amount (snd ke)) (description (snd ke)))) ;;;
    print (Text (rule 80)) ;;;
    print (View_count (List.length d)).

(** The categories on offer: [sorted(set(...))]. *)
Definition sorted_categories (d : PyDict.dict (K := Z) (V := expense)) : list string :=
  sorted_strings (PyDict.dedup (map category (PyDict.values d))).

(** The [if choice.isdigit()] statement of [filter_expenses_by_category]:
    the category the choice stands for, [None] after the error message. *)
Definition select_category (sorted_cats : list string) (choice : string) : M (option string) :=
  if PyStr.isdigit choice then
    match PyStr.int choice with
    | Some choice_num =>
        if (1 <=? choice_num) && (choice_num <=? Z.of_nat (List.length sorted_cats))
        then ret (Some (nth (Z.to_nat (choice_num - 1)) sorted_cats ""))
        else print (Text "Error: Invalid category number.") ;;; ret None
    | None => raise ValueError
    end
  else ret (Some (PyStr.title choice)).

Definition in_category (c : string) (d : PyDict.dict (K := Z) (V := expense)) :=
  filter (fun ke => String.eqb (category (snd ke)) c) d.

Definition filter_expenses_by_category : M unit :=
  d <- ask expenses ;;
  if is_empty d then print (Text "No expenses to filter.")
  else
    print (Text "=== Filter by Category ===") ;;;
    print (Text "Available categories:") ;;;
    for_each (enumerate 1 (sorted_categories d))
             (fun ic => print (Category_option (fst ic) (snd ic))) ;;;
    choice <- input_stripped ;;
    selected <- select_category (sorted_categories d) choice ;;
    match selected with
    | Some c =>
        let filtered := in_category c d in
        if is_empty filtered then print (No_match c)
        else
          print (In_category c) ;;;
          print (Text (rule 80)) ;;;
          print (Text "ID    Date             Amount Description                   ") ;;;
          print (Text (rule 80)) ;;;
          for_each (by_date_desc filtered)
                   (fun ke => print (Filter_row (fst ke) (date (snd ke))
                                                (amount (snd ke)) (description (snd ke)))) ;;;
          print (Text (rule 80)) ;;;
          print (Filter_total c (sum (map (fun ke => amount (snd ke)) (by_date_desc filtered))))
    | None => ret tt
    end.

Definition calculate_total_expenses : M unit :=
  d <- ask expenses ;;
  if is_empty d then print (Text "No expenses to calculate.")
  else
    print (Text "=== Total Expenses Summary ===") ;;;
    let total := sum (map amount (PyDict.values d)) in
    let totals := category_totals (PyDict.values d) in
    print (Text "Breakdown by Category:") ;;;
    print (Text (dashes 40)) ;;;
    for_each (sorted_strings (PyDict.keys totals))
             (fun c =>
                let a := match PyDict.get String.eqb c totals with
                         | Some a => a
                         | None => 0%Q
                         end in
                q <- divide a total ;;
                print (Breakdown_row c a (q * 100)%Q)) ;;;
    print (Text (dashes 40)) ;;;
    print (Grand_total total) ;;;
    print (Expense_count (List.length d)) ;;;
    avg <- divide total (inject_Z (Z.of_nat (List.length d))) ;;
    print (Average_expense avg).

Definition generate_expense_summary : M unit :=
  d <- ask expenses ;;
  if is_empty d then print (Text "No expenses to summarize.")
  else
    print (Text "=== Expense Summary ===") ;;;
    print (Text "1. Weekly summary") ;;;
    print (Text "2. Monthly summary") ;;;
    print (Text "3. Yearly summary") ;;;
    choice <- input_stripped ;;
    if negb ((choice =? "1")%string || (choice =? "2")%string || (choice =? "3")%string)
    then print (Text "Error: Invalid choice.")
    else
      match group choice (PyDict.values d) [] with
      | Some summaries =>
          print (Text (rule 80)) ;;;
          for_each (display_order summaries) (fun ks => show_period (snd ks)) ;;;
          print (Text (rule 80))
      | None => raise ValueError
      end.

(** The body of the [try] statement of [visualize_expenses]; what goes wrong
    in it is caught and reported. *)
Definition chart (kind : string) (series : list (string * Q)) : M unit :=
  ok <- ask plotting ;;
  if ok then print (Chart kind series) ;;; print (Chart_displayed kind)
  else
    print Chart_error ;;;
    print (Text "Make sure matplotlib is installed: pip install matplotlib").

Definition visualize_expenses : M unit :=
  d <- ask expenses ;;
  if is_empty d then print (Text "No expenses to visualize.")
  else
    print (Text "=== Expense Visualization ===") ;;;
    print (Text "1. Spending by category (pie chart)") ;;;
    print (Text "2. Spending over time (line chart)") ;;;
    print (Text "3. Category comparison (bar chart)") ;;;
    choice <- input_stripped ;;
    if (choice =? "1")%string then chart "pie" (category_totals (PyDict.values d))
    else if (choice =? "2")%string then
      let sorted_dates :=
        PyDict.sorted (fun y x => String.ltb (fst y) (fst x)) (date_totals (PyDict.values d)) in
      if forallb (fun da => validate_date (fst da)) sorted_dates
      then chart "line" sorted_dates
      else
        print Chart_error ;;;
        print (Text "Make sure matplotlib is installed: pip install matplotlib")
    else if (choice =? "3")%string then chart "bar" (category_totals (PyDict.values d))
    else print (Text "Error: Invalid choice.").

Definition display_menu : M unit :=
  print (Text (rule 50)) ;;;
  print (Text "           EXPENSE TRACKER") ;;;
  print (Text (rule 50)) ;;;
  print (Text "1. Add new expense") ;;;
  print (Text "2. View all expenses") ;;;
  print (Text "3. Filter expenses by category") ;;;
  print (Text "4. Calculate total expenses") ;;;
  print (Text "5. Delete expense") ;;;
  print (Text "6. Generate expense summary (Week/Month/Year)") ;;;
  print (Text "7. Visualize expenses") ;;;
  print (Text "8. Save and exit") ;;;
  print (Text (rule 50)).

(** [except ValueError] catches the class and its subclasses. *)
Definition is_value_error (e : exn) : bool :=
  match e with ValueError | UnicodeDecodeError => true | _ => false end.

Definition delete_expense : M unit :=
  d <- ask expenses ;;
  if is_empty d then print (Text "No expenses to delete.")
  else
    print (Text "=== Delete Expense ===") ;;;
    view_all_expenses ;;;
    try_except
      (id_text <- input_stripped ;;
       match PyStr.int id_text with
       | Some exp_id =>
           match PyDict.get Z.eqb exp_id d with
           | Some e =>
               print (Text "Expense to delete:") ;;;
               print (Detail_date (date e)) ;;;
               print (Detail_category (category e)) ;;;
               print (Detail_amount (amount e)) ;;;
               print (Detail_description (description e)) ;;;
               answer <- input_stripped ;;
               let confirm := PyStr.lower answer in
               if (confirm =? "yes")%string || (confirm =? "y")%string
               then
                 c <- ask expense_counter ;;
                 set_globals (PyDict.del Z.eqb exp_id d) c ;;;
                 print Deleted ;;;
                 save_expenses
               else print (Text "Deletion cancelled.")
           | None => print (Not_found exp_id)
           end
       | None => raise ValueError
       end)
      is_value_error
      (print (Text "Error: Please enter a valid expense ID (number).")).

(** The first two statements of [main]. *)
Definition startup : M unit :=
  print (Text "Welcome to the Expense Tracker!") ;;;
  load_expenses.

Section Tracker.

(** The builtin [float] on a string: the number it denotes, [None] for
    [ValueError].  The values [nan] and [inf] that Python's [float] also
    yields are no values of [Q]; of these, [nan] passes the guard of
    [validate_amount], since [nan <= 0] is false. *)
Variable float : string -> option Q.

Definition validate_amount (amount_string : string) : bool * Q :=
  match float amount_string with
  | Some a => if Qle_bool a 0 then (false, 0%Q) else (true, a)
  | None => (false, 0%Q)
  end.

Definition add_expense : M unit :=
  print (Text "=== Add New Expense ===") ;;;
  cat <- input_stripped ;;
  if (cat =? "")%string then print (Text "Error: Category cannot be empty.")
  else
    amount_input <- input_stripped ;;
    let (is_valid, a) := validate_amount amount_input in
    if negb is_valid then print (Text "Error: Amount must be a positive number.")
    else
      date_input <- input_stripped ;;
      now <- ask today ;;
      if negb (date_input =? "")%string && negb (validate_date date_input)
      then print (Text "Error: Invalid date format. Use YYYY-MM-DD.")
      else
        let date_input := if (date_input =? "")%string
                          then Calendar.isoformat now else date_input in
        descr <- input_stripped ;;
        d <- ask expenses ;;
        c <- ask expense_counter ;;
        set_globals (PyDict.set Z.eqb c (mkexpense (PyStr.title cat) a date_input descr) d) c ;;;
        print (Added c) ;;;
        set_globals (PyDict.set Z.eqb c (mkexpense (PyStr.title cat) a date_input descr) d) (c + 1) ;;;
        save_expenses.

(** One turn of the [while True] loop of [main]; the result says whether
    the loop goes on. *)
Definition menu_turn : M bool :=
  display_menu ;;;
  choice <- input_stripped ;;
  if (choice =? "8")%string then
    save_expenses ;;;
    print (Text "Thank you for using Expense Tracker! Goodbye!") ;;;
    ret false
  else
    (if (choice =? "1")%string then add_expense
     else if (choice =? "2")%string then view_all_expenses
     else if (choice =? "3")%string then filter_expenses_by_category
     else if (choice =? "4")%string then calculate_total_expenses
     else if (choice =? "5")%string then delete_expense
     else if (choice =? "6")%string then generate_expense_summary
     else if (choice =? "7")%string then visualize_expenses
     else print (Text "Error: Invalid choice. Please enter a number between 1 and 8.")) ;;;
    input ;;;
    ret true.

(** The loop of [main].  Every turn reads a line or ends the run, so the
    number of lines still to read bounds the turns. *)
Fixpoint main_loop (turns : nat) : M unit :=
  match turns with
  | S n => go_on <- menu_turn ;; if go_on then main_loop n else ret tt
  | O => raise EOFError
  end.

Definition main : M unit :=
  startup ;;;
  lines <- ask stdin ;;
  main_loop (S (List.length lines)).

End Tracker.

(** The state of a process that has just started: the module has bound
    [expenses = {}] and [expense_counter = 1]. *)
Definition start (f : option file_content) (r wr pl : bool) (now : Calendar.date)
                 (lines : list string) : world :=
  mkworld [] 1 f r wr pl now lines [].

(** The builtin [float] on plain decimal literals: an optional sign, digits
    and at most one point.  It is used to run the program on examples. *)
Fixpoint decimal_digits (acc : Z) (scale : positive) (seen_point seen_digit : bool)
                        (s : string) : option Q :=
  match s with
  | String c r =>
      if PyStr.is_digit c
      then decimal_digits (acc * 10 + PyStr.digit_val c)
                          (if seen_point then scale * 10 else scale)%positive
                          seen_point true r
      else if (PyStr.code c =? 46) && negb seen_point
      then decimal_digits acc scale true seen_digit r
      else None
  | EmptyString => if seen_digit then Some (acc # scale) else None
  end.

Definition decimal_float (s : string) : option Q :=
  match PyStr.strip s with
  | String c r =>
      if PyStr.code c =? 45 then option_map Qopp (decimal_digits 0 1 false false r)
      else if PyStr.code c =? 43 then decimal_digits 0 1 false false r
      else decimal_digits 0 1 false false (String c r)
  | EmptyString => None
  end.

(** ** Notions the properties are stated with *)

(** The world after more lines have been printed. *)
Definition emit (ls : list line) (w : world) : world :=
  mkworld (expenses w) (expense_counter w) (file w) (readable w) (writable w)
          (plotting w) (today w) (stdin w) (stdout w ++ ls).

(** The periods a transcript shows, in the order they are shown: label,
    total, count and average of each. *)
Fixpoint periods_shown (ls : list line) : list (string * Q * Z * Q) :=
  match ls with
  | Period_label l :: r =>
      match r with
      | _ :: Total_spent t :: Number_of_expenses n :: Average_expense a :: _ =>
          (l, t, n, a) :: periods_shown r
      | _ => periods_shown r
      end
  | _ :: r => periods_shown r
  | [] => []
  end.

Definition period_labels (ls : list line) : list string :=
  flat_map (fun l => match l with Period_label a => [a] | _ => [] end) ls.

(** In a transcript, the period labelled [a] is listed before the one
    labelled [b]. *)
Definition listed_before (a b : string) (ls : list line) : Prop :=
  exists l1 l2 l3, ls = l1 ++ Period_label a :: l2 ++ Period_label b :: l3.

(** The ledger of the worked example of the specification: 10 on
    2024-01-05, 20 on 2024-01-20 and 5 on 2024-02-01. *)
Definition example_ledger (k1 k2 k3 : Z) (c1 c2 c3 t1 t2 t3 : string)
  : PyDict.dict (K := Z) (V := expense) :=
  [(k1, mkexpense c1 10 "2024-01-05" t1);
   (k2, mkexpense c2 20 "2024-01-20" t2);
   (k3, mkexpense c3 5 "2024-02-01" t3)].

Definition example_world (d : PyDict.dict) (c : Z) (lines : list string) : world :=
  mkworld d c None true true true (Calendar.mkdate 2024 3 1) lines [].

(** The world after one line of the console has been read. *)
Definition consume (w : world) : world :=
  mkworld (expenses w) (expense_counter w) (file w) (readable w) (writable w)
          (plotting w) (today w) (tl (stdin w)) (stdout w).

(** What [filter_expenses_by_category] prints once the category is chosen. *)
Definition category_lines (c : string) (d : PyDict.dict (K := Z) (V := expense)) : list line :=
  if is_empty (in_category c d) then [No_match c]
  else
    [In_category c; Text (rule 80);
     Text "ID    Date             Amount Description                   ";
     Text (rule 80)]
    ++ map (fun ke => Filter_row (fst ke) (date (snd ke)) (amount (snd ke)) (description (snd ke)))
           (by_date_desc (in_category c d))
    ++ [Text (rule 80);
        Filter_total c (sum (map (fun ke => amount (snd ke)) (by_date_desc (in_category c d))))].

(** What it prints before it reads the choice. *)
Definition category_menu (d : PyDict.dict (K := Z) (V := expense)) : list line :=
  [Text "=== Filter by Category ==="; Text "Available categories:"]
  ++ map (fun ic => Category_option (fst ic) (snd ic)) (enumerate 1 (sorted_categories d)).

(** A ledger whose only category has a name made of digits. *)
Definition digit_ledger : PyDict.dict (K := Z) (V := expense) :=
  [(1, mkexpense "1" 10 "2024-01-05" "bus line 1")].

(** What [view_all_expenses] prints. *)
Definition view_lines (d : PyDict.dict (K := Z) (V := expense)) : list line :=
  if is_empty d then [Text "No expenses recorded yet."]
  else
    [Text (rule 80);
     Text "ID    Date         Category            Amount Description                   ";
     Text (rule 80)]
    ++ map (fun ke => View_row (fst ke) (date (snd ke)) (category (snd ke))
                               (amount (snd ke)) (description (snd ke)))
           (by_date_desc d)
    ++ [Text (rule 80); View_count (List.length d)].

(** What [delete_expense] prints before it asks for the ID, and the details
    it prints before it asks for the confirmation. *)
Definition delete_menu (d : PyDict.dict (K := Z) (V := expense)) : list line :=
  Text "=== Delete Expense ===" :: view_lines d.

Definition details (e : expense) : list line :=
  [Text "Expense to delete:"; Detail_date (date e); Detail_category (category e);
   Detail_amount (amount e); Detail_description (description e)].

(** The world with other values of the two globals. *)
Definition with_ledger (d : PyDict.dict) (c : Z) (w : world) : world :=
  mkworld d c (file w) (readable w) (writable w) (plotting w) (today w)
          (stdin w) (stdout w).

(** [save_expenses] always prints one of two lines, so a transcript tells
    whether a save took place. *)
Definition save_line (l : line) : bool :=
  match l with
  | Saved | Save_error => true
  | _ => false
  end.

Definition no_save (out : list line) : Prop :=
  forallb (fun l => negb (save_line l)) out = true.

(** The IDs a transcript hands out: [add_expense] prints the ID of every
    expense it stores. *)
Definition added (out : list line) : list Z :=
  flat_map (fun l => match l with Added id => [id] | _ => [] end) out.

Definition added_line (l : line) : bool :=
  match l with Added _ => true | _ => false end.

(** The lines of a report: no save and no ID handed out. *)
Definition report_line (l : line) : bool := negb (save_line l) && negb (added_line l).

(** A computation that leaves the two globals and the file as they are and
    prints only lines that satisfy [ok], however it ends. *)
Definition leaves_ledger (ok : line -> bool) {A} (m : M A) : Prop :=
  forall w,
    expenses (snd (m w)) = expenses w /\
    expense_counter (snd (m w)) = expense_counter w /\
    file (snd (m w)) = file w /\
    exists out, stdout (snd (m w)) = stdout w ++ out /\ forallb ok out = true.

(** The counter is above every ID of the ledger. *)
Definition counter_above (w : world) : Prop :=
  forall k, In k (PyDict.keys (expenses w)) -> k < expense_counter w.

(** The IDs that are in the ledger of [w] and no longer in that of [w']. *)
Definition removed (w w' : world) : list Z :=
  filter (fun k => negb (PyDict.mem Z.eqb k (expenses w'))) (PyDict.keys (expenses w)).

(** The states of a session: [w1] is the state after [startup], and every
    turn of the menu loop that lets the loop go on leads to the next state.
    The list collects the IDs deleted on the way. *)
Inductive session (float : string -> option Q) (w1 : world) : list Z -> world -> Prop :=
| session_start : session float w1 [] w1
| session_turn (deleted : list Z) (w w' : world) :
    session float w1 deleted w ->
    menu_turn float w = (Return true, w') ->
    session float w1 (deleted ++ removed w w') w'.

(** A file of the documented form: an object with the two fields, the first
    an object from integer literals to expense records, the second an
    integer. *)
Definition well_formed_file (f : file_content) : bool :=
  match f with
  | JsonDoc (JObj [(k1, JObj items); (k2, JInt _)]) =>
      (k1 =? "expenses")%string && (k2 =? "counter")%string &&
      forallb (fun kv => match PyStr.int (fst kv), expense_of_json (snd kv) with
                         | Some _, Some _ => true
                         | _, _ => false
                         end) items
  | _ => false
  end.

(** What one call may do to the ledger: nothing, or store one expense under
    the counter, print its ID and step the counter, or delete one ID.  [out]
    is what the call prints. *)
Definition turn_effect (w w' : world) : Prop :=
  exists out, stdout w' = stdout w ++ out /\
    ((expenses w' = expenses w /\ expense_counter w' = expense_counter w /\ added out = [])
     \/ (exists e, expenses w' = PyDict.set Z.eqb (expense_counter w) e (expenses w) /\
                   expense_counter w' = expense_counter w + 1 /\
                   added out = [expense_counter w])
     \/ (exists id, expenses w' = PyDict.del Z.eqb id (expenses w) /\
                    expense_counter w' = expense_counter w /\ added out = [])).

(** A step that leaves the two globals alone and hands out no ID. *)
Definition quiet (w w' : world) : Prop :=
  expenses w' = expenses w /\ expense_counter w' = expense_counter w /\
  exists out, stdout w' = stdout w ++ out /\ added out = [].

(** A file in which the counter does not exceed a stored ID. *)
Definition stale_counter_file : file_content :=
  JsonDoc (document [(1, mkexpense "Food" 10 "2024-01-05" "lunch")] 1).

Definition quiet_step {A} (m : M A) : Prop := forall w, quiet w (snd (m w)).

(** A computation that, run on the ledger [d], does what one call may do. *)
Definition effect_step (d : PyDict.dict (K := Z) (V := expense)) {A} (m : M A) : Prop :=
  forall w, expenses w = d -> turn_effect w (snd (m w)).

(** The counter is above every ID that is in the ledger, that has been
    handed out in the transcript, or that has been deleted. *)
Definition ids_below (w : world) (deleted : list Z) : Prop :=
  counter_above w /\
  (forall k, In k (added (stdout w)) -> k < expense_counter w) /\
  (forall k, In k deleted -> k < expense_counter w).

(** A session that adds one expense after the file [f] has been loaded. *)
Definition add_after_load (f : option file_content) : world :=
  start f true true true (Calendar.mkdate 2024 3 1)
        ["1"; "Food"; "12.5"; "2024-02-01"; "dinner"; ""].

(** The sum of a list of amounts, as mathematics writes it. *)
Definition total_of (xs : list Q) : Q := fold_right Qplus 0%Q xs.

(** The key of the period an expense falls in; [None] when its date does
    not parse. *)
Definition period_key (choice : string) (e : expense) : option string :=
  option_map (fun d => fst (period choice d)) (Calendar.strptime (date e)).

(** The day of an expense, as the number of the day in the calendar. *)
Definition day_number (e : expense) : Z :=
  match Calendar.strptime (date e) with
  | Some d => Calendar.toordinal d
  | None => 0
  end.

(** The year of an expense; 0 when its date does not parse. *)
Definition year_number (e : expense) : Z :=
  match Calendar.strptime (date e) with
  | Some d => Calendar.year d
  | None => 0
  end.

(** The expenses of a period, in the order of the ledger. *)
Definition members (choice key : string) (es : list expense) : list expense :=
  filter (fun e => match period_key choice e with
                   | Some k => String.eqb k key
                   | None => false
                   end) es.

(** What [show_period] prints for a summary whose divisions succeed. *)
Definition period_lines (s : summary) : list line :=
  [Period_label (label s); Text (dashes 40); Total_spent (total s);
   Number_of_expenses (count s);
   Average_expense (total s / inject_Z (count s))%Q]
  ++ (if 1 <? Z.of_nat (List.length (categories s))
      then Text "Top categories:"
           :: map (fun ca => Top_row (fst ca) (snd ca) (snd ca / total s * 100)%Q)
                  (firstn 3 (by_amount_desc (categories s)))
      else []).

(** What [generate_expense_summary] prints for the summaries [sums]. *)
Definition summary_lines (sums : PyDict.dict (K := string) (V := summary)) : list line :=
  [Text "=== Expense Summary ==="; Text "1. Weekly summary";
   Text "2. Monthly summary"; Text "3. Yearly summary"; Text (rule 80)]
  ++ flat_map (fun ks => period_lines (snd ks)) (display_order sums)
  ++ [Text (rule 80)].

(** In the order of display, the period [k1] comes before the period [k2]. *)
Definition shown_before (sums : PyDict.dict (K := string) (V := summary))
    (k1 k2 : string) : Prop :=
  exists l1 l2 l3 s1 s2, display_order sums = l1 ++ (k1, s1) :: l2 ++ (k2, s2) :: l3.

Definition is_label (l : line) : bool :=
  match l with Period_label _ => true | _ => false end.

(** The summaries that the grouping loop builds for the worked example. *)
Definition example_summaries (c1 c2 c3 : string) : PyDict.dict (K := string) (V := summary) :=
  [("2024-01", mksummary "2024 January" (0 + 10 + 20) (0 + 1 + 1)
                         (add_amount c2 20 (add_amount c1 10 [])));
   ("2024-02", mksummary "2024 February" (0 + 5) (0 + 1) (add_amount c3 5 []))].

(** An expense as [add_expense] lets it in: a category that is not empty,
    an amount that has passed the guard of [validate_amount] ([amount <= 0]
    is false of it) and a date that [validate_date] accepts. *)
Definition checked_expense (e : expense) : Prop :=
  category e <> "" /\ Qle_bool (amount e) 0 = false /\ validate_date (date e) = true.

(** A ledger whose keys are pairwise distinct and whose expenses are all
    checked, on a day of the calendar whose year has four digits. *)
Definition checked_ledger (w : world) : Prop :=
  Calendar.valid (today w) = true /\ 1000 <= Calendar.year (today w) /\
  NoDup (PyDict.keys (expenses w)) /\
  Forall checked_expense (PyDict.values (expenses w)).

(** A computation that leaves the ledger and the clock as they are. *)
Definition inert {A} (m : M A) : Prop :=
  forall w, expenses (snd (m w)) = expenses w /\ today (snd (m w)) = today w.

(** What a call may make of the ledger [d]: leave it, delete one ID, or
    store one checked expense. *)
Definition checked_change (d d' : PyDict.dict (K := Z) (V := expense)) : Prop :=
  d' = d \/ (exists id, d' = PyDict.del Z.eqb id d)
  \/ (exists k e, checked_expense e /\ d' = PyDict.set Z.eqb k e d).

Definition checked_step (t : Calendar.date) (d : PyDict.dict (K := Z) (V := expense))
    {A} (m : M A) : Prop :=
  forall w, expenses w = d -> today w = t ->
    checked_change d (expenses (snd (m w))) /\ today (snd (m w)) = t.

(** A computation that leaves the two globals and the file as they are,
    and whether the file can be written. *)
Definition steady {A} (m : M A) : Prop :=
  forall w,
    expenses (snd (m w)) = expenses w /\
    expense_counter (snd (m w)) = expense_counter w /\
    file (snd (m w)) = file w /\
    writable (snd (m w)) = writable w.

(** The file is in step with the two globals: it can be written, and it
    holds what [save_expenses] writes for them; or there is no file yet and
    the globals are as the module binds them. *)
Definition in_step (w : world) : Prop :=
  writable w = true /\
  ((file w = None /\ expenses w = [] /\ expense_counter w = 1) \/
   file w = Some (JsonDoc (document (expenses w) (expense_counter w)))).

Definition keeps_in_step {A} (m : M A) : Prop :=
  forall w, in_step w -> in_step (snd (m w)).

(** * Part II: properties *)

Example strip_ex : PyStr.strip "  Food and drink " = "Food and drink".
Proof. reflexivity. Qed.

Example title_ex : PyStr.title "fast food-it's" = "Fast Food-It'S".
Proof. reflexivity. Qed.

Example int_ex :
  PyStr.int " -1_000 " = Some (-1000) /\ PyStr.int "1__0" = None /\
  PyStr.int "+" = None /\ PyStr.int "007" = Some 7 /\ PyStr.int "1.5" = None.
Proof. repeat split. Qed.

Example str_ex : PyStr.str 2024 = "2024" /\ PyStr.str (-15) = "-15" /\ PyStr.pad4 987 = "0987".
Proof. repeat split. Qed.

Example strptime_ex :
  Calendar.strptime "2024-02-29" = Some (Calendar.mkdate 2024 2 29) /\
  Calendar.strptime "2023-02-29" = None /\
  Calendar.strptime "2024-1-5" = Some (Calendar.mkdate 2024 1 5) /\
  Calendar.strptime "2024-01- 5" = Some (Calendar.mkdate 2024 1 5) /\
  Calendar.strptime "2024-01-05 " = None /\
  Calendar.strptime "0000-01-01" = None /\
  Calendar.strptime "24-01-05" = None.
Proof. repeat split. Qed.

Example weekday_ex :
  Calendar.weekday (Calendar.mkdate 2024 1 5) = 4 /\
  Calendar.weekday (Calendar.mkdate 1 1 1) = 0 /\
  Calendar.minus_days (Calendar.mkdate 2023 1 1) 6 = Calendar.mkdate 2022 12 26 /\
  Calendar.week_U (Calendar.mkdate 2022 12 26) = 52 /\
  Calendar.week_U (Calendar.mkdate 2024 1 1) = 0 /\
  Calendar.toordinal (Calendar.mkdate 2024 1 5) = 738890.
Proof. repeat split. Qed.


(** ** Persistence: what [load_expenses] does with a damaged file *)

(** Text that is not JSON, or a file that cannot be opened, is handled: the
    ledger is emptied and the counter is 1 again. *)
Lemma load_not_json (w : world) :
  file w = Some NotJson \/ (file w <> None /\ readable w = false) ->
  exists w', load_expenses w = (Return tt, w') /\
             expenses w' = [] /\ expense_counter w' = 1.
Proof.
  unfold load_expenses. intros [H | [H1 H2]].
  - rewrite H. destruct (readable w); eexists; (split; [reflexivity | split; reflexivity]).
  - destruct (file w) as [c |]; [| congruence]. rewrite H2.
    eexists; (split; [reflexivity | split; reflexivity]).
Qed.

(** C2, at the failing inputs.  A file that holds JSON of another shape is
    not handled: a top-level array makes [load_expenses] raise
    [AttributeError], an expense key that is no integer literal makes it
    raise [ValueError], and both leave the function. *)
Theorem load_wrong_shape_escapes (now : Calendar.date) (lines : list string) (e : expense) :
  fst (load_expenses (start (Some (JsonDoc (JArr []))) true true true now lines))
  = Raise AttributeError /\
  fst (load_expenses
         (start (Some (JsonDoc (JObj [("expenses", JObj [("one", json_of_expense e)]);
                                      ("counter", JInt 2)])))
                true true true now lines))
  = Raise ValueError.
Proof. split; reflexivity. Qed.

(** ** Dates *)

(** C8, at the failing inputs.  [validate_date] accepts a month and a day of
    one digit, and a day written with a leading blank, none of which is of
    the form YYYY-MM-DD; a month 13 is refused. *)
Theorem validate_date_accepts_unpadded :
  validate_date "2024-1-5" = true /\
  validate_date "2024-01- 5" = true /\
  validate_date "2024-13-01" = false.
Proof. repeat split. Qed.

(** ** The worked example of the monthly summary *)


(** ** The monad and the transcript *)

Lemma emit_nil (w : world) : emit [] w = w.
Proof. destruct w; unfold emit; simpl. now rewrite app_nil_r. Qed.

Lemma emit_emit (a b : list line) (w : world) : emit b (emit a w) = emit (a ++ b) w.
Proof. unfold emit; simpl. now rewrite app_assoc. Qed.

Lemma print_emit (l : line) (w : world) : print l w = (Return tt, emit [l] w).
Proof. reflexivity. Qed.

Lemma for_each_print {A} (f : A -> line) (xs : list A) (w : world) :
  for_each xs (fun x => print (f x)) w = (Return tt, emit (map f xs) w).
Proof.
  revert w. induction xs as [| x r IH]; intro w; simpl.
  - now rewrite emit_nil.
  - unfold bind. rewrite print_emit, IH, emit_emit. reflexivity.
Qed.

Lemma consume_emit (ls : list line) (w : world) : consume (emit ls w) = emit ls (consume w).
Proof. reflexivity. Qed.

Lemma input_stripped_cons (w : world) (l : string) (rest : list string) :
  stdin w = l :: rest -> input_stripped w = (Return (PyStr.strip l), consume w).
Proof.
  intro H. unfold input_stripped, bind, input, consume. rewrite H. reflexivity.
Qed.

(** ** Text: digits, white space and [int] *)

Lemma digit_not_space (c : ascii) : PyStr.is_digit c = true -> PyStr.is_space c = false.
Proof. unfold PyStr.is_digit, PyStr.is_space. lia. Qed.

Lemma lstrip_digits (s : string) : PyStr.all_digits s = true -> PyStr.lstrip s = s.
Proof.
  destruct s as [| c r]; simpl; [reflexivity |].
  intro H. apply andb_prop in H as [H _]. now rewrite (digit_not_space _ H).
Qed.

Lemma rstrip_digits (s : string) : PyStr.all_digits s = true -> PyStr.rstrip s = s.
Proof.
  induction s as [| c r IH]; simpl; [reflexivity |].
  intro H. apply andb_prop in H as [Hc Hr]. rewrite (IH Hr).
  destruct r; [now rewrite (digit_not_space _ Hc) | reflexivity].
Qed.

Lemma strip_digits (s : string) : PyStr.all_digits s = true -> PyStr.strip s = s.
Proof.
  intro H. unfold PyStr.strip. rewrite (lstrip_digits _ H). now apply rstrip_digits.
Qed.

Lemma digit_not_c_space (c : ascii) : PyStr.is_digit c = true -> PyStr.is_c_space c = false.
Proof. unfold PyStr.is_digit, PyStr.is_c_space. lia. Qed.

Lemma lskip_digits (s : string) : PyStr.all_digits s = true -> PyStr.lskip s = s.
Proof.
  destruct s as [| c r]; simpl; [reflexivity |].
  intro H. apply andb_prop in H as [H _]. now rewrite (digit_not_c_space _ H).
Qed.

Lemma rskip_digits (s : string) : PyStr.all_digits s = true -> PyStr.rskip s = s.
Proof.
  induction s as [| c r IH]; simpl; [reflexivity |].
  intro H. apply andb_prop in H as [Hc Hr]. rewrite (IH Hr).
  destruct r; [now rewrite (digit_not_c_space _ Hc) | reflexivity].
Qed.

Lemma skip_digits (s : string) :
  PyStr.all_digits s = true -> PyStr.rskip (PyStr.lskip s) = s.
Proof. intro H. rewrite (lskip_digits _ H). now apply rskip_digits. Qed.

Lemma int_digits_all_digits (s : string) (acc : Z) :
  PyStr.all_digits s = true -> 0 <= acc ->
  exists n, PyStr.int_digits acc false s = Some n /\ 0 <= n.
Proof.
  revert acc. induction s as [| c r IH]; simpl; intros acc H Hacc.
  - now exists acc.
  - apply andb_prop in H as [Hc Hr]. rewrite Hc.
    apply IH; [assumption |]. unfold PyStr.is_digit, PyStr.digit_val in *. lia.
Qed.

(** On a text of digits [int] never raises, and its value is not negative. *)
Lemma int_of_digits (s : string) :
  PyStr.isdigit s = true -> exists n, PyStr.int s = Some n /\ 0 <= n.
Proof.
  destruct s as [| c r]; [discriminate |]. unfold PyStr.isdigit. intro H.
  unfold PyStr.int. rewrite (skip_digits _ H). simpl in H.
  apply andb_prop in H as [Hc Hr]. unfold PyStr.int_literal.
  replace (PyStr.code c =? 45) with false by (unfold PyStr.is_digit in Hc; lia).
  replace (PyStr.code c =? 43) with false by (unfold PyStr.is_digit in Hc; lia).
  simpl. rewrite Hc.
  apply int_digits_all_digits; [assumption |].
  unfold PyStr.is_digit, PyStr.digit_val in *. lia.
Qed.

(** ** Filtering by category *)

(** C10, as amended.  A choice in ASCII text that is made of the digits 0
    to 9, at most 4300 of them, is read as a position in the sorted list of
    categories, counted from 1: a position in range selects the category
    that stands there, any other prints the error and selects nothing.  The
    choice is never taken as a name, so typing a name made of digits selects
    that category exactly when it stands at that position.  (On such text
    [str.isdigit] holds of these digits alone and [int] reads every one of
    them; other digits of Unicode, and longer runs of digits, are left
    out.) *)
Theorem digits_select_by_position (w : world) (l : string) (rest : list string) :
  expenses w <> [] ->
  stdin w = l :: rest ->
  PyStr.is_ascii l = true ->
  PyStr.isdigit (PyStr.strip l) = true ->
  (String.length (PyStr.strip l) <= 4300)%nat ->
  let cats := sorted_categories (expenses w) in
  exists n,
    PyStr.int (PyStr.strip l) = Some n /\ 0 <= n /\
    select_category cats (PyStr.strip l) (consume w) =
      (if (1 <=? n) && (n <=? Z.of_nat (List.length cats))
       then (Return (Some (nth (Z.to_nat (n - 1)) cats "")), consume w)
       else (Return None, emit [Text "Error: Invalid category number."] (consume w))) /\
    filter_expenses_by_category w =
      (Return tt,
       emit (category_menu (expenses w)
             ++ (if (1 <=? n) && (n <=? Z.of_nat (List.length cats))
                 then category_lines (nth (Z.to_nat (n - 1)) cats "") (expenses w)
                 else [Text "Error: Invalid category number."]))
            (consume w)) /\
    (fst (select_category cats (PyStr.strip l) (consume w)) = Return (Some (PyStr.strip l))
     <-> 1 <= n <= Z.of_nat (List.length cats)
         /\ nth (Z.to_nat (n - 1)) cats "" = PyStr.strip l).
Proof.
  intros Hne Hin _ Hdig _ cats.
  destruct (int_of_digits _ Hdig) as [n [Hint Hn]].
  exists n. split; [assumption |]. split; [assumption |].
  assert (Hsel : select_category cats (PyStr.strip l) (consume w) =
      (if (1 <=? n) && (n <=? Z.of_nat (List.length cats))
       then (Return (Some (nth (Z.to_nat (n - 1)) cats "")), consume w)
       else (Return None, emit [Text "Error: Invalid category number."] (consume w)))).
  { unfold select_category. rewrite Hdig, Hint.
    destruct ((1 <=? n) && (n <=? Z.of_nat (List.length cats))); reflexivity. }
  split; [exact Hsel |]. split.
  - unfold filter_expenses_by_category, bind at 1, ask.
    assert (Hemp : is_empty (expenses w) = false)
      by (destruct (expenses w); [congruence | reflexivity]).
    rewrite Hemp.
    unfold bind at 1. rewrite print_emit.
    unfold bind at 1. rewrite print_emit.
    unfold bind at 1. rewrite for_each_print.
    unfold bind at 1. rewrite (input_stripped_cons _ l rest) by exact Hin.
    unfold bind at 1.
    replace (consume (emit _ (emit _ (emit _ w)))) with
      (emit (category_menu (expenses w)) (consume w))
      by (unfold consume, emit, category_menu; simpl; rewrite <- !app_assoc; reflexivity).
    assert (Hsel' : forall o, select_category cats (PyStr.strip l) (emit o (consume w)) =
      (if (1 <=? n) && (n <=? Z.of_nat (List.length cats))
       then (Return (Some (nth (Z.to_nat (n - 1)) cats "")), emit o (consume w))
       else (Return None, emit [Text "Error: Invalid category number."] (emit o (consume w))))).
    { intro o. unfold select_category. rewrite Hdig, Hint.
      destruct ((1 <=? n) && (n <=? Z.of_nat (List.length cats))); reflexivity. }
    fold cats. rewrite Hsel'.
    destruct ((1 <=? n) && (n <=? Z.of_nat (List.length cats))).
    + unfold category_lines.
      destruct (is_empty (in_category _ _)).
      * rewrite print_emit, emit_emit. reflexivity.
      * repeat (unfold bind at 1; rewrite print_emit).
        unfold bind at 1. rewrite for_each_print.
        unfold bind at 1. rewrite print_emit. rewrite print_emit.
        rewrite !emit_emit. rewrite <- ?app_assoc. reflexivity.
    + unfold ret. rewrite emit_emit. reflexivity.
  - rewrite Hsel.
    destruct ((1 <=? n) && (n <=? Z.of_nat (List.length cats))) eqn:Hr; simpl.
    + split.
      * intro H. injection H as H. split; [lia | assumption].
      * intros [_ H]. now rewrite H.
    + split; [discriminate | lia].
Qed.

(** C10, as stated, fails.  In a ledger whose only category is named 1, the
    choice 1 is read as the position 1, where that very category stands: the
    category is selected by typing its name. *)
Lemma digit_name_selects_category :
  ~ (forall (w : world) (l : string) (rest : list string),
       stdin w = l :: rest ->
       In (PyStr.strip l) (sorted_categories (expenses w)) ->
       PyStr.isdigit (PyStr.strip l) = true ->
       ~ In (In_category (PyStr.strip l)) (stdout (snd (filter_expenses_by_category w)))).
Proof.
  intro H.
  apply (H (example_world digit_ledger 2 ["1"]) "1" []).
  - reflexivity.
  - simpl. now left.
  - reflexivity.
  - vm_compute. right. right. right. now left.
Qed.

Lemma digits_select_by_position_witness :
  example_ledger 1 2 3 "Food" "Transport" "Food" "" "" "" <> [] /\
  PyStr.is_ascii " 2 " = true /\
  PyStr.isdigit (PyStr.strip " 2 ") = true /\
  (String.length (PyStr.strip " 2 ") <= 4300)%nat /\
  exists n, PyStr.int (PyStr.strip " 2 ") = Some n /\ 0 <= n.
Proof.
  split; [discriminate |]. split; [reflexivity |]. split; [reflexivity |].
  assert (Hlen : (String.length (PyStr.strip " 2 ") <= 4300)%nat) by (simpl; lia).
  split; [exact Hlen |].
  destruct (digits_select_by_position
              (example_world (example_ledger 1 2 3 "Food" "Transport" "Food" "" "" "") 4 [" 2 "])
              " 2 " []) as [n [Hn [Hp _]]];
    [discriminate | reflexivity | reflexivity | reflexivity | exact Hlen |].
  exists n. split; assumption.
Defined.

(** ** Viewing and deleting *)

Lemma view_all_expenses_lines (w : world) :
  view_all_expenses w = (Return tt, emit (view_lines (expenses w)) w).
Proof.
  unfold view_all_expenses, view_lines, bind at 1, ask.
  destruct (is_empty (expenses w)); [apply print_emit |].
  repeat (unfold bind at 1; rewrite print_emit).
  unfold bind at 1. rewrite for_each_print.
  unfold bind at 1. rewrite print_emit. rewrite print_emit.
  rewrite !emit_emit. rewrite <- ?app_assoc. reflexivity.
Qed.

Lemma get_del_same {V} (k : Z) (d : PyDict.dict (K := Z) (V := V)) :
  PyDict.get Z.eqb k (PyDict.del Z.eqb k d) = None.
Proof.
  induction d as [| [k' v] r IH]; simpl; [reflexivity |].
  destruct (k =? k') eqn:E; [exact IH |]. simpl. now rewrite E.
Qed.

Lemma keys_del_subset {V} (k k0 : Z) (d : PyDict.dict (K := Z) (V := V)) :
  In k0 (PyDict.keys (PyDict.del Z.eqb k d)) -> In k0 (PyDict.keys d) /\ k0 <> k.
Proof.
  induction d as [| [k' v] r IH]; simpl; [tauto |].
  destruct (k =? k') eqn:E.
  - intro H. destruct (IH H). tauto.
  - simpl. intros [H | H]; [subst; split; [now left | ] | destruct (IH H); tauto].
    intro; subst. now rewrite Z.eqb_refl in E.
Qed.

Lemma del_absent {V} (k : Z) (d : PyDict.dict (K := Z) (V := V)) :
  ~ In k (PyDict.keys d) -> PyDict.del Z.eqb k d = d.
Proof.
  induction d as [| [k' v] r IH]; simpl; [reflexivity |].
  intro H. destruct (Z.eqb_spec k k') as [E | E]; [subst; tauto |].
  f_equal. apply IH. tauto.
Qed.

Lemma no_save_app (a b : list line) : no_save a -> no_save b -> no_save (a ++ b).
Proof. unfold no_save. rewrite forallb_app. intros -> ->. reflexivity. Qed.

Lemma no_save_map {A} (f : A -> line) (xs : list A) :
  (forall x, save_line (f x) = false) -> no_save (map f xs).
Proof.
  intro H. unfold no_save. induction xs as [| x r IH]; simpl; [reflexivity |].
  now rewrite H, IH.
Qed.

Lemma no_save_view_lines (d : PyDict.dict) : no_save (view_lines d).
Proof.
  unfold view_lines. destruct (is_empty d); [reflexivity |].
  apply no_save_app; [reflexivity |].
  apply no_save_app; [| reflexivity].
  apply no_save_map. reflexivity.
Qed.

Section SortedFacts.
Context {A : Type} (before : A -> A -> bool).

Lemma insert_perm (x : A) (l : list A) : Permutation (PyDict.insert before x l) (x :: l).
Proof.
  induction l as [| y r IH]; simpl; [reflexivity |].
  destruct (before y x); [| reflexivity].
  rewrite IH. apply perm_swap.
Qed.

Lemma sorted_perm (l : list A) : Permutation (PyDict.sorted before l) l.
Proof.
  induction l as [| x r IH]; simpl; [reflexivity |].
  rewrite insert_perm. now constructor.
Qed.

Lemma sorted_in (x : A) (l : list A) : In x (PyDict.sorted before l) <-> In x l.
Proof.
  split; apply Permutation_in; [apply sorted_perm | symmetry; apply sorted_perm].
Qed.

Lemma sorted_length (l : list A) : List.length (PyDict.sorted before l) = List.length l.
Proof. apply Permutation_length, sorted_perm. Qed.
End SortedFacts.

Lemma mem_keys {V} (k : Z) (d : PyDict.dict (K := Z) (V := V)) :
  PyDict.mem Z.eqb k d = true <-> In k (PyDict.keys d).
Proof.
  unfold PyDict.mem. induction d as [| [k' v] r IH]; simpl; [split; [discriminate | tauto] |].
  destruct (Z.eqb_spec k k') as [E | E].
  - split; [intro; now left | reflexivity].
  - rewrite IH. split; [tauto | intros [H | H]; [congruence | assumption]].
Qed.

Lemma view_lines_ids (id : Z) (dt c : string) (a : Q) (t : string) (d : PyDict.dict) :
  In (View_row id dt c a t) (view_lines d) -> In id (PyDict.keys d).
Proof.
  unfold view_lines. destruct (is_empty d).
  - simpl. intros [H | []]. discriminate.
  - rewrite !in_app_iff. intros [H | [H | H]].
    + simpl in H. intuition discriminate.
    + apply in_map_iff in H as [[k e] [Hrow Hin]]. simpl in Hrow.
      injection Hrow as E _ _ _ _. subst k.
      apply sorted_in in Hin. unfold PyDict.keys. apply in_map_iff.
      now exists (id, e).
    + simpl in H. intuition discriminate.
Qed.

(** C6.  [delete_expense] on a ledger without entries says so.  Otherwise
    it shows the ledger and reads an ID.  An ID that is not in the ledger is
    reported as not found: the ledger, the counter and the file stay as they
    are and no save takes place.  For an ID of the ledger it reads the
    confirmation, compared after [strip] and [lower]: on yes or y the entry
    is removed, the rest of the run is that of [save_expenses], and the ID
    is in no row that [view_all_expenses] prints afterwards; on any other
    answer the ledger, the counter and the file stay as they are. *)
Theorem delete_semantics (w : world) :
  (expenses w = [] ->
   delete_expense w = (Return tt, emit [Text "No expenses to delete."] w)) /\
  (forall (l : string) (rest : list string) (id : Z),
     expenses w <> [] ->
     stdin w = l :: rest ->
     PyStr.int (PyStr.strip l) = Some id ->
     let d := expenses w in
     (PyDict.mem Z.eqb id d = false ->
      let w' := snd (delete_expense w) in
      delete_expense w = (Return tt, emit (delete_menu d ++ [Not_found id]) (consume w)) /\
      expenses w' = d /\ expense_counter w' = expense_counter w /\ file w' = file w /\
      no_save (delete_menu d ++ [Not_found id])) /\
     (forall (e : expense) (answer : string) (rest' : list string),
        PyDict.get Z.eqb id d = Some e ->
        rest = answer :: rest' ->
        let confirm := PyStr.lower (PyStr.strip answer) in
        let asked := emit (delete_menu d ++ details e) (consume (consume w)) in
        (confirm = "yes" \/ confirm = "y" ->
         let removed := with_ledger (PyDict.del Z.eqb id d) (expense_counter w) asked in
         delete_expense w = save_expenses (emit [Deleted] removed) /\
         expenses (snd (delete_expense w)) = PyDict.del Z.eqb id d /\
         expense_counter (snd (delete_expense w)) = expense_counter w /\
         PyDict.mem Z.eqb id (PyDict.del Z.eqb id d) = false /\
         (forall dt c a t,
            ~ In (View_row id dt c a t) (view_lines (PyDict.del Z.eqb id d))))
        /\
        (confirm <> "yes" -> confirm <> "y" ->
         let w' := snd (delete_expense w) in
         delete_expense w = (Return tt, emit [Text "Deletion cancelled."] asked) /\
         expenses w' = d /\ expense_counter w' = expense_counter w /\ file w' = file w /\
         no_save (delete_menu d ++ details e ++ [Text "Deletion cancelled."])))).
Proof.
  split.
  - intro H. unfold delete_expense, bind at 1, ask. rewrite H. reflexivity.
  - intros l rest id Hne Hin Hid d.
    assert (Hemp : is_empty (expenses w) = false)
      by (destruct (expenses w); [congruence | reflexivity]).
    assert (Hstart :
              delete_expense w =
              try_except
                (id_text <- input_stripped ;;
                 match PyStr.int id_text with
                 | Some exp_id =>
                     match PyDict.get Z.eqb exp_id d with
                     | Some e =>
                         print (Text "Expense to delete:") ;;;
                         print (Detail_date (date e)) ;;;
                         print (Detail_category (category e)) ;;;
                         print (Detail_amount (amount e)) ;;;
                         print (Detail_description (description e)) ;;;
                         answer <- input_stripped ;;
                         let confirm := PyStr.lower answer in
                         if (confirm =? "yes")%string || (confirm =? "y")%string
                         then
                           c <- ask expense_counter ;;
                           set_globals (PyDict.del Z.eqb exp_id d) c ;;;
                           print Deleted ;;;
                           save_expenses
                         else print (Text "Deletion cancelled.")
                     | None => print (Not_found exp_id)
                     end
                 | None => raise ValueError
                 end)
                is_value_error
                (print (Text "Error: Please enter a valid expense ID (number)."))
                (emit (delete_menu d) w)).
    { unfold delete_expense, bind at 1, ask. rewrite Hemp.
      unfold bind at 1. rewrite print_emit.
      unfold bind at 1. rewrite view_all_expenses_lines, emit_emit. reflexivity. }
    assert (Hread : input_stripped (emit (delete_menu d) w)
                    = (Return (PyStr.strip l), emit (delete_menu d) (consume w))).
    { rewrite (input_stripped_cons _ l rest) by exact Hin. reflexivity. }
    split.
    + intros Hmem w'. 
      assert (Hrun : delete_expense w =
                     (Return tt, emit (delete_menu d ++ [Not_found id]) (consume w))).
      { rewrite Hstart. unfold try_except, bind at 1. rewrite Hread, Hid.
        unfold PyDict.mem in Hmem. destruct (PyDict.get Z.eqb id d); [discriminate |].
        rewrite print_emit, emit_emit. reflexivity. }
      subst w'. rewrite Hrun. repeat split.
      change (no_save (view_lines d ++ [Not_found id])).
      apply no_save_app; [apply no_save_view_lines | reflexivity].
    + intros e answer rest' Hget Hrest confirm asked.
      assert (Hask : forall b : bool,
                (if b
                 then (c <- ask expense_counter ;;
                       set_globals (PyDict.del Z.eqb id d) c ;;;
                       print Deleted ;;; save_expenses)
                 else print (Text "Deletion cancelled.")) asked
                = if b
                  then save_expenses
                         (emit [Deleted]
                               (with_ledger (PyDict.del Z.eqb id d) (expense_counter w) asked))
                  else (Return tt, emit [Text "Deletion cancelled."] asked)).
      { intros [|]; reflexivity. }
      assert (Hrun : delete_expense w =
                if (confirm =? "yes")%string || (confirm =? "y")%string
                then save_expenses
                       (emit [Deleted]
                             (with_ledger (PyDict.del Z.eqb id d) (expense_counter w) asked))
                else (Return tt, emit [Text "Deletion cancelled."] asked)).
      { rewrite Hstart. unfold try_except, bind at 1. rewrite Hread, Hid, Hget.
        repeat (unfold bind at 1; rewrite print_emit).
        unfold bind at 1.
        rewrite (input_stripped_cons _ answer rest')
          by (simpl; rewrite Hin; simpl; exact Hrest).
        cbv zeta. fold confirm.
        rewrite !emit_emit, consume_emit.
        change (emit _ (consume (consume w))) with asked.
        rewrite Hask.
        destruct ((confirm =? "yes")%string || (confirm =? "y")%string); [| reflexivity].
        unfold save_expenses. destruct (writable _); reflexivity. }
      split.
      * intros Hyes removed.
        assert (Hb : (confirm =? "yes")%string || (confirm =? "y")%string = true)
          by (destruct Hyes as [-> | ->]; reflexivity).
        rewrite Hb in Hrun. rewrite Hrun.
        split; [reflexivity |].
        split; [unfold save_expenses; destruct (writable _); reflexivity |].
        split; [unfold save_expenses; destruct (writable _); reflexivity |].
        split; [unfold PyDict.mem; now rewrite get_del_same |].
        intros dt c a t Hrow. apply view_lines_ids in Hrow.
        apply keys_del_subset in Hrow. tauto.
      * intros Hn1 Hn2 w'.
        assert (Hb : (confirm =? "yes")%string || (confirm =? "y")%string = false).
        { apply orb_false_intro; now apply String.eqb_neq. }
        rewrite Hb in Hrun. subst w'. rewrite Hrun. repeat split.
        change (no_save (view_lines d ++ details e ++ [Text "Deletion cancelled."])).
        apply no_save_app; [apply no_save_view_lines | reflexivity].
Qed.

Lemma delete_semantics_witness :
  let w := example_world (example_ledger 1 2 3 "Food" "Transport" "Food" "" "" "") 4
                         [" 2"; " Yes "] in
  expenses w <> [] /\
  PyStr.int (PyStr.strip " 2") = Some 2 /\
  PyStr.lower (PyStr.strip " Yes ") = "yes" /\
  PyDict.keys (expenses (snd (delete_expense w))) = [1; 3].
Proof.
  intro w. split; [discriminate |]. split; [reflexivity |]. split; [reflexivity |].
  destruct (proj2 (delete_semantics w) " 2" [" Yes "] 2) as [_ H];
    [discriminate | reflexivity | reflexivity |].
  destruct (H (mkexpense "Transport" 20 "2024-01-20" "") " Yes " [] eq_refl eq_refl)
    as [Hyes _].
  destruct (Hyes (or_introl eq_refl)) as [_ [Hd _]].
  rewrite Hd. reflexivity.
Defined.

(** ** Operations that only report *)

Section Frame.
Variable ok : line -> bool.

Lemma leaves_ret {A} (a : A) : leaves_ledger ok (ret a).
Proof. intro w. simpl. repeat split. exists []. now rewrite app_nil_r. Qed.

Lemma leaves_raise {A} (e : exn) : leaves_ledger ok (@raise A e).
Proof. intro w. simpl. repeat split. exists []. now rewrite app_nil_r. Qed.

Lemma leaves_ask {A} (f : world -> A) : leaves_ledger ok (ask f).
Proof. intro w. simpl. repeat split. exists []. now rewrite app_nil_r. Qed.

Lemma leaves_print (l : line) : ok l = true -> leaves_ledger ok (print l).
Proof. intros H w. simpl. repeat split. exists [l]. simpl. now rewrite H. Qed.

Lemma leaves_input : leaves_ledger ok input.
Proof.
  intro w. unfold input. destruct (stdin w); simpl; repeat split;
    exists []; now rewrite app_nil_r.
Qed.

Lemma leaves_bind {A B} (m : M A) (k : A -> M B) :
  leaves_ledger ok m -> (forall a, leaves_ledger ok (k a)) -> leaves_ledger ok (bind m k).
Proof.
  intros Hm Hk w. unfold bind.
  destruct (m w) as [[a | e |] w1] eqn:E; specialize (Hm w); rewrite E in Hm; simpl in Hm;
    try exact Hm.
  destruct Hm as [H1 [H2 [H3 [o1 [H4 H5]]]]].
  destruct (Hk a w1) as [K1 [K2 [K3 [o2 [K4 K5]]]]].
  rewrite K1, K2, K3, K4, H1, H2, H3, H4. repeat split.
  exists (o1 ++ o2). rewrite app_assoc, forallb_app, H5, K5. now split.
Qed.

Lemma leaves_for_each {A} (xs : list A) (body : A -> M unit) :
  (forall x, leaves_ledger ok (body x)) -> leaves_ledger ok (for_each xs body).
Proof.
  intro H. induction xs as [| x r IH]; simpl.
  - apply leaves_ret.
  - apply leaves_bind; [apply H | intros _; exact IH].
Qed.

Lemma leaves_divide (x y : Q) : leaves_ledger ok (divide x y).
Proof. unfold divide. destruct (Qeq_bool y 0); [apply leaves_raise | apply leaves_ret]. Qed.

Lemma leaves_input_stripped : leaves_ledger ok input_stripped.
Proof. apply leaves_bind; [apply leaves_input | intro; apply leaves_ret]. Qed.

End Frame.

Lemma leaves_weaken (ok ok' : line -> bool) {A} (m : M A) :
  (forall l, ok l = true -> ok' l = true) -> leaves_ledger ok m -> leaves_ledger ok' m.
Proof.
  intros Himp H w. destruct (H w) as [H1 [H2 [H3 [out [H4 H5]]]]]. repeat split; try assumption.
  exists out. split; [assumption |]. rewrite forallb_forall in *. auto.
Qed.

(** Walks through a computation built from the combinators.  The cases are
    told apart by the shape of the term, so that no computation is unfolded
    on the way. *)
Ltac frame :=
  repeat lazymatch goal with
    | |- leaves_ledger _ (bind _ _) => apply leaves_bind; [| intro]
    | |- leaves_ledger _ (ret _) => apply leaves_ret
    | |- leaves_ledger _ (raise _) => apply leaves_raise
    | |- leaves_ledger _ (ask _) => apply leaves_ask
    | |- leaves_ledger _ input_stripped => apply leaves_input_stripped
    | |- leaves_ledger _ input => apply leaves_input
    | |- leaves_ledger _ (divide _ _) => apply leaves_divide
    | |- leaves_ledger _ (print _) => apply leaves_print; reflexivity
    | |- leaves_ledger _ (for_each _ _) => apply leaves_for_each; intro
    | |- leaves_ledger _ (if ?b then _ else _) => destruct b
    | |- leaves_ledger _ (match ?x with _ => _ end) => destruct x
    end.

Lemma show_period_leaves (s : summary) : leaves_ledger report_line (show_period s).
Proof. unfold show_period. frame. Qed.

Lemma view_all_expenses_leaves : leaves_ledger report_line view_all_expenses.
Proof. unfold view_all_expenses. frame. Qed.

Lemma filter_expenses_by_category_leaves :
  leaves_ledger report_line filter_expenses_by_category.
Proof. unfold filter_expenses_by_category, select_category. frame. Qed.

Lemma calculate_total_expenses_leaves : leaves_ledger report_line calculate_total_expenses.
Proof. unfold calculate_total_expenses. frame. Qed.

Lemma generate_expense_summary_leaves : leaves_ledger report_line generate_expense_summary.
Proof.
  unfold generate_expense_summary. frame. apply show_period_leaves.
Qed.

Lemma visualize_expenses_leaves : leaves_ledger report_line visualize_expenses.
Proof. unfold visualize_expenses, chart. frame. Qed.

Lemma report_line_no_save (l : line) : report_line l = true -> negb (save_line l) = true.
Proof. unfold report_line. now intros [H _]%andb_prop. Qed.

(** C9.  Viewing, filtering, the total and the periodic summary leave the
    ledger, the counter and the file as they were, and none of them prints
    a line of [save_expenses]: whatever the state and the input, and
    however the call ends. *)
Theorem reports_leave_ledger :
  let no_save_line := fun l => negb (save_line l) in
  leaves_ledger no_save_line view_all_expenses /\
  leaves_ledger no_save_line filter_expenses_by_category /\
  leaves_ledger no_save_line calculate_total_expenses /\
  leaves_ledger no_save_line generate_expense_summary.
Proof.
  intro no_save_line.
  split; [| split; [| split]];
    (apply (leaves_weaken report_line); [exact report_line_no_save |]).
  - apply view_all_expenses_leaves.
  - apply filter_expenses_by_category_leaves.
  - apply calculate_total_expenses_leaves.
  - apply generate_expense_summary_leaves.
Qed.

(** ** Persistence: saving and loading again *)

Lemma all_digits_uint (u : Decimal.uint) : PyStr.all_digits (PyStr.digits_of_uint u) = true.
Proof. induction u; simpl; auto. Qed.

Lemma int_digits_step (acc : Z) (c : ascii) (r : string) (b : bool) :
  PyStr.is_digit c = true ->
  PyStr.int_digits acc b (String c r) = PyStr.int_digits (acc * 10 + PyStr.digit_val c) false r.
Proof. intro H. simpl. now rewrite H. Qed.

Lemma int_digits_pos (u : Decimal.uint) (p : positive) :
  PyStr.int_digits (Z.pos p) false (PyStr.digits_of_uint u)
  = Some (Z.pos (Pos.of_uint_acc u p)).
Proof.
  revert p. induction u; intro p;
    cbn [PyStr.digits_of_uint Pos.of_uint_acc]; [reflexivity | ..];
    rewrite int_digits_step by reflexivity; rewrite <- IHu; f_equal;
    match goal with |- context [PyStr.digit_val ?c] =>
      let v := eval vm_compute in (PyStr.digit_val c) in
      change (PyStr.digit_val c) with v
    end; lia.
Qed.

Lemma int_digits_zero (u : Decimal.uint) (b : bool) :
  u <> Decimal.Nil \/ b = false ->
  PyStr.int_digits 0 b (PyStr.digits_of_uint u) = Some (Z.of_N (Pos.of_uint u)).
Proof.
  revert b. induction u; intros b H;
    cbn [PyStr.digits_of_uint Pos.of_uint].
  - destruct H as [H | ->]; [congruence | reflexivity].
  - rewrite int_digits_step by reflexivity. apply IHu. now right.
  - rewrite int_digits_step by reflexivity. apply int_digits_pos.
  - rewrite int_digits_step by reflexivity. apply int_digits_pos.
  - rewrite int_digits_step by reflexivity. apply int_digits_pos.
  - rewrite int_digits_step by reflexivity. apply int_digits_pos.
  - rewrite int_digits_step by reflexivity. apply int_digits_pos.
  - rewrite int_digits_step by reflexivity. apply int_digits_pos.
  - rewrite int_digits_step by reflexivity. apply int_digits_pos.
  - rewrite int_digits_step by reflexivity. apply int_digits_pos.
  - rewrite int_digits_step by reflexivity. apply int_digits_pos.
Qed.

Lemma to_uint_not_nil (p : positive) : Pos.to_uint p <> Decimal.Nil.
Proof.
  intro H. pose proof (DecimalPos.Unsigned.of_to p) as E. rewrite H in E. discriminate.
Qed.

Lemma int_digits_to_uint (p : positive) :
  PyStr.int_digits 0 true (PyStr.digits_of_uint (Pos.to_uint p)) = Some (Z.pos p).
Proof.
  rewrite int_digits_zero by (left; apply to_uint_not_nil).
  now rewrite DecimalPos.Unsigned.of_to.
Qed.

Lemma rstrip_keep (c : ascii) (r : string) :
  PyStr.is_space c = false -> PyStr.rstrip r = r -> PyStr.rstrip (String c r) = String c r.
Proof. intros Hc Hr. simpl. rewrite Hr, Hc. now destruct r. Qed.

Lemma rskip_keep (c : ascii) (r : string) :
  PyStr.is_c_space c = false -> PyStr.rskip r = r -> PyStr.rskip (String c r) = String c r.
Proof. intros Hc Hr. simpl. rewrite Hr, Hc. now destruct r. Qed.

(** [int(str(k))] is [k]: the key that [json.dump] writes is read back. *)
Lemma int_str (k : Z) : PyStr.int (PyStr.str k) = Some k.
Proof.
  destruct k as [| p | p]; [reflexivity | |].
  - unfold PyStr.int. simpl PyStr.str.
    rewrite skip_digits by apply all_digits_uint.
    pose proof (int_digits_to_uint p) as H.
    pose proof (to_uint_not_nil p) as Hn.
    destruct (Pos.to_uint p); try congruence; exact H.
  - unfold PyStr.int. simpl PyStr.str. simpl PyStr.lskip.
    rewrite rskip_keep;
      [| reflexivity | apply rskip_digits, all_digits_uint].
    simpl. now rewrite int_digits_to_uint.
Qed.

Lemma expense_of_json_of_expense (e : expense) : expense_of_json (json_of_expense e) = Some e.
Proof. destruct e. reflexivity. Qed.

Lemma int_keys_document (d : PyDict.dict (K := Z) (V := expense)) :
  int_keys (map (fun ke => (PyStr.str (fst ke), json_of_expense (snd ke))) d)
  = Some (map (fun ke => (fst ke, json_of_expense (snd ke))) d).
Proof.
  induction d as [| [k e] r IH]; simpl; [reflexivity |].
  now rewrite int_str, IH.
Qed.

Lemma set_new {V} (k : Z) (v : V) (d : PyDict.dict (K := Z) (V := V)) :
  ~ In k (PyDict.keys d) -> PyDict.set Z.eqb k v d = d ++ [(k, v)].
Proof.
  induction d as [| [k' v'] r IH]; simpl; [reflexivity |].
  intro H. destruct (Z.eqb_spec k k') as [E | E]; [subst; tauto |].
  f_equal. apply IH. tauto.
Qed.

Lemma of_items_from {V} (items acc : list (Z * V)) :
  NoDup (PyDict.keys (acc ++ items)) ->
  fold_left (fun d kv => PyDict.set Z.eqb (fst kv) (snd kv) d) items acc = acc ++ items.
Proof.
  revert acc. induction items as [| [k v] r IH]; intros acc H; simpl.
  - now rewrite app_nil_r.
  - rewrite set_new.
    + rewrite IH; rewrite <- app_assoc; [reflexivity | exact H].
    + unfold PyDict.keys in *. rewrite map_app in H. simpl in H.
      apply NoDup_remove_2 in H. intro Hin. apply H. apply in_or_app. now left.
Qed.

Lemma of_items_nodup {V} (items : list (Z * V)) :
  NoDup (PyDict.keys items) -> PyDict.of_items Z.eqb items = items.
Proof. intro H. unfold PyDict.of_items. now rewrite of_items_from. Qed.

Lemma expenses_of_json_document (d : PyDict.dict (K := Z) (V := expense)) :
  expenses_of_json (map (fun ke => (fst ke, json_of_expense (snd ke))) d) = Some d.
Proof.
  induction d as [| [k e] r IH]; [reflexivity |].
  simpl map. cbv beta iota delta [expenses_of_json]. fold expenses_of_json.
  simpl fst. simpl snd. rewrite expense_of_json_of_expense, IH. reflexivity.
Qed.

Lemma read_document_of_saved (d : PyDict.dict (K := Z) (V := expense)) (c : Z) (w : world) :
  NoDup (PyDict.keys d) ->
  read_document (document d c) w
  = (Return tt, emit [Loaded_from_file (List.length d)] (with_ledger d c w)).
Proof.
  intro H. unfold read_document, document.
  change (get_default "expenses" (JObj []) _)
    with (JObj (map (fun ke => (PyStr.str (fst ke), json_of_expense (snd ke))) d)).
  cbv beta iota. rewrite int_keys_document.
  rewrite of_items_nodup
    by (unfold PyDict.keys in *; rewrite map_map; simpl; exact H).
  rewrite expenses_of_json_document.
  change (get_default "counter" (JInt 1) _) with (JInt c).
  reflexivity.
Qed.



(** ** The session: which IDs are handed out *)

Lemma added_app (a b : list line) : added (a ++ b) = added a ++ added b.
Proof. unfold added. apply flat_map_app. Qed.

Lemma added_report (out : list line) : forallb report_line out = true -> added out = [].
Proof.
  induction out as [| l r IH]; simpl; [reflexivity |].
  intros [Hl Hr]%andb_prop. rewrite (IH Hr).
  destruct l; try reflexivity. discriminate.
Qed.

Lemma quiet_refl (w : world) : quiet w w.
Proof. repeat split. exists []. now rewrite app_nil_r. Qed.

Lemma quiet_trans (w1 w2 w3 : world) : quiet w1 w2 -> quiet w2 w3 -> quiet w1 w3.
Proof.
  intros [H1 [H2 [o1 [H3 H4]]]] [K1 [K2 [o2 [K3 K4]]]].
  split; [congruence |]. split; [congruence |].
  exists (o1 ++ o2). rewrite K3, H3, app_assoc, added_app, H4, K4. now split.
Qed.

Lemma quiet_is_effect (w w' : world) : quiet w w' -> turn_effect w w'.
Proof. intros [H1 [H2 [o [H3 H4]]]]. exists o. split; [assumption |]. left. auto. Qed.

Lemma quiet_effect (w w1 w2 : world) : quiet w w1 -> turn_effect w1 w2 -> turn_effect w w2.
Proof.
  intros [H1 [H2 [o1 [H3 H4]]]] [o2 [K3 K]].
  exists (o1 ++ o2). split; [rewrite K3, H3; now rewrite app_assoc |].
  rewrite added_app, H4. simpl. rewrite H1, H2 in K. exact K.
Qed.

Lemma effect_quiet (w w1 w2 : world) : turn_effect w w1 -> quiet w1 w2 -> turn_effect w w2.
Proof.
  intros [o1 [H3 H]] [K1 [K2 [o2 [K3 K4]]]].
  exists (o1 ++ o2). split; [rewrite K3, H3; now rewrite app_assoc |].
  rewrite added_app, K4, app_nil_r, K1, K2. exact H.
Qed.

Lemma leaves_quiet {A} (m : M A) : leaves_ledger report_line m -> quiet_step m.
Proof.
  intros H w. destruct (H w) as [H1 [H2 [_ [out [H3 H4]]]]].
  split; [assumption |]. split; [assumption |].
  exists out. split; [assumption | now apply added_report].
Qed.

Lemma quiet_bind {A B} (m : M A) (k : A -> M B) :
  quiet_step m -> (forall a, quiet_step (k a)) -> quiet_step (bind m k).
Proof.
  intros Hm Hk w. unfold bind. specialize (Hm w).
  destruct (m w) as [[a | e |] w1]; simpl in *; try exact Hm.
  eapply quiet_trans; [exact Hm | apply Hk].
Qed.

Lemma quiet_save : quiet_step save_expenses.
Proof.
  intro w. unfold save_expenses. destruct (writable w); simpl; repeat split;
    eexists; (split; [reflexivity | reflexivity]).
Qed.

Lemma effect_of_quiet (d : PyDict.dict) {A} (m : M A) : quiet_step m -> effect_step d m.
Proof. intros H w _. apply quiet_is_effect, H. Qed.

Lemma effect_bind_quiet (d : PyDict.dict) {A B} (m : M A) (k : A -> M B) :
  quiet_step m -> (forall a, effect_step d (k a)) -> effect_step d (bind m k).
Proof.
  intros Hm Hk w Hd. unfold bind. specialize (Hm w).
  destruct (m w) as [[a | e |] w1]; simpl in *; try (now apply quiet_is_effect).
  eapply quiet_effect; [exact Hm |]. apply Hk. destruct Hm as [H _]. congruence.
Qed.

Lemma effect_then_quiet (d : PyDict.dict) {A B} (m : M A) (k : A -> M B) :
  effect_step d m -> (forall a, quiet_step (k a)) -> effect_step d (bind m k).
Proof.
  intros Hm Hk w Hd. unfold bind. specialize (Hm w Hd).
  destruct (m w) as [[a | e |] w1]; simpl in *; try exact Hm.
  eapply effect_quiet; [exact Hm | apply Hk].
Qed.

Lemma effect_try (d : PyDict.dict) {A} (m handler : M A) (catches : exn -> bool) :
  effect_step d m -> quiet_step handler -> effect_step d (try_except m catches handler).
Proof.
  intros Hm Hh w Hd. unfold try_except. specialize (Hm w Hd).
  destruct (m w) as [[a | e |] w1]; simpl in *; try exact Hm.
  destruct (catches e); [| exact Hm].
  eapply effect_quiet; [exact Hm | apply Hh].
Qed.

(** The statements of [add_expense] that store the expense. *)
Lemma store_effect (d : PyDict.dict) (mk : Z -> expense) :
  effect_step d
    (d0 <- ask expenses ;;
     c <- ask expense_counter ;;
     set_globals (PyDict.set Z.eqb c (mk c) d0) c ;;;
     print (Added c) ;;;
     set_globals (PyDict.set Z.eqb c (mk c) d0) (c + 1) ;;;
     save_expenses).
Proof.
  intros w _. unfold bind, ask, set_globals, print, save_expenses. simpl.
  destruct (writable w); simpl.
  - exists [Added (expense_counter w); Saved]. split; [now rewrite <- app_assoc |].
    right. left. exists (mk (expense_counter w)). auto.
  - exists [Added (expense_counter w); Save_error]. split; [now rewrite <- app_assoc |].
    right. left. exists (mk (expense_counter w)). auto.
Qed.

(** The statements of [delete_expense] that remove the expense. *)
Lemma remove_effect (d : PyDict.dict) (id : Z) :
  effect_step d
    (c <- ask expense_counter ;;
     set_globals (PyDict.del Z.eqb id d) c ;;;
     print Deleted ;;;
     save_expenses).
Proof.
  intros w Hd. unfold bind, ask, set_globals, print, save_expenses. simpl.
  destruct (writable w); simpl.
  - exists [Deleted; Saved]. split; [now rewrite <- app_assoc |].
    right. right. exists id. rewrite Hd. auto.
  - exists [Deleted; Save_error]. split; [now rewrite <- app_assoc |].
    right. right. exists id. rewrite Hd. auto.
Qed.

Ltac quiet_auto := apply leaves_quiet; frame.

Lemma add_expense_effect (float : string -> option Q) (d : PyDict.dict) :
  effect_step d (add_expense float).
Proof.
  unfold add_expense.
  apply effect_bind_quiet; [quiet_auto | intros _].
  apply effect_bind_quiet; [quiet_auto | intro cat].
  destruct (cat =? "")%string; [apply effect_of_quiet; quiet_auto |].
  apply effect_bind_quiet; [quiet_auto | intro amount_input].
  destruct (validate_amount float amount_input) as [is_valid a].
  destruct (negb is_valid); [apply effect_of_quiet; quiet_auto |].
  apply effect_bind_quiet; [quiet_auto | intro date_input].
  apply effect_bind_quiet; [quiet_auto | intro now].
  destruct (negb (date_input =? "")%string && negb (validate_date date_input));
    [apply effect_of_quiet; quiet_auto |].
  apply effect_bind_quiet; [quiet_auto | intro descr].
  apply (store_effect d
           (fun _ => mkexpense (PyStr.title cat) a
                       (if (date_input =? "")%string then Calendar.isoformat now else date_input)
                       descr)).
Qed.

Lemma delete_expense_effect (w : world) : turn_effect w (snd (delete_expense w)).
Proof.
  enough (H : forall d, effect_step d
    (if is_empty d then print (Text "No expenses to delete.")
     else
       print (Text "=== Delete Expense ===") ;;;
       view_all_expenses ;;;
       try_except
         (id_text <- input_stripped ;;
          match PyStr.int id_text with
          | Some exp_id =>
              match PyDict.get Z.eqb exp_id d with
              | Some e =>
                  print (Text "Expense to delete:") ;;;
                  print (Detail_date (date e)) ;;;
                  print (Detail_category (category e)) ;;;
                  print (Detail_amount (amount e)) ;;;
                  print (Detail_description (description e)) ;;;
                  answer <- input_stripped ;;
                  let confirm := PyStr.lower answer in
                  if (confirm =? "yes")%string || (confirm =? "y")%string
                  then
                    c <- ask expense_counter ;;
                    set_globals (PyDict.del Z.eqb exp_id d) c ;;;
                    print Deleted ;;;
                    save_expenses
                  else print (Text "Deletion cancelled.")
              | None => print (Not_found exp_id)
              end
          | None => raise ValueError
          end)
         is_value_error
         (print (Text "Error: Please enter a valid expense ID (number)."))))
    by exact (H (expenses w) w eq_refl).
  intro d.
  destruct (is_empty d); [apply effect_of_quiet; quiet_auto |].
  apply effect_bind_quiet; [quiet_auto | intros _].
  apply effect_bind_quiet; [apply leaves_quiet, view_all_expenses_leaves | intros _].
  apply effect_try; [| quiet_auto].
  apply effect_bind_quiet; [quiet_auto | intro id_text].
  destruct (PyStr.int id_text) as [exp_id |]; [| apply effect_of_quiet; quiet_auto].
  destruct (PyDict.get Z.eqb exp_id d) as [e |]; [| apply effect_of_quiet; quiet_auto].
  do 5 (apply effect_bind_quiet; [quiet_auto | intros _]).
  apply effect_bind_quiet; [quiet_auto | intro answer].
  cbv zeta.
  destruct ((PyStr.lower answer =? "yes")%string || (PyStr.lower answer =? "y")%string).
  - apply remove_effect.
  - apply effect_of_quiet; quiet_auto.
Qed.

Lemma menu_turn_effect (float : string -> option Q) (w : world) :
  turn_effect w (snd (menu_turn float w)).
Proof.
  enough (H : effect_step (expenses w) (menu_turn float)) by exact (H w eq_refl).
  unfold menu_turn.
  apply effect_bind_quiet; [unfold display_menu; quiet_auto | intros _].
  apply effect_bind_quiet; [quiet_auto | intro choice].
  destruct (choice =? "8")%string.
  - apply effect_of_quiet.
    apply quiet_bind; [apply quiet_save | intros _]. quiet_auto.
  - apply effect_then_quiet; [| intros _; quiet_auto].
    destruct (choice =? "1")%string; [apply add_expense_effect |].
    destruct (choice =? "2")%string;
      [apply effect_of_quiet, leaves_quiet, view_all_expenses_leaves |].
    destruct (choice =? "3")%string;
      [apply effect_of_quiet, leaves_quiet, filter_expenses_by_category_leaves |].
    destruct (choice =? "4")%string;
      [apply effect_of_quiet, leaves_quiet, calculate_total_expenses_leaves |].
    destruct (choice =? "5")%string; [intros w0 _; apply delete_expense_effect |].
    destruct (choice =? "6")%string;
      [apply effect_of_quiet, leaves_quiet, generate_expense_summary_leaves |].
    destruct (choice =? "7")%string;
      [apply effect_of_quiet, leaves_quiet, visualize_expenses_leaves |].
    apply effect_of_quiet. quiet_auto.
Qed.

Lemma keys_set {V} (k k0 : Z) (v : V) (d : PyDict.dict (K := Z) (V := V)) :
  In k0 (PyDict.keys (PyDict.set Z.eqb k v d)) <-> In k0 (PyDict.keys d) \/ k0 = k.
Proof.
  induction d as [| [k' v'] r IH]; simpl.
  - intuition.
  - destruct (Z.eqb_spec k k') as [E | E]; simpl.
    + subst. intuition.
    + rewrite IH. intuition.
Qed.

Lemma removed_in (w w' : world) (k : Z) :
  In k (removed w w') -> In k (PyDict.keys (expenses w)).
Proof. unfold removed. rewrite filter_In. tauto. Qed.

Lemma effect_keeps_ids (w w' : world) (deleted : list Z) :
  turn_effect w w' -> ids_below w deleted ->
  ids_below w' (deleted ++ removed w w') /\ expense_counter w <= expense_counter w'.
Proof.
  intros [out [Hout H]] [Hk [Ha Hd]].
  assert (Hr : forall k, In k (removed w w') -> k < expense_counter w)
    by (intros k Hin; apply Hk, (removed_in _ _ _ Hin)).
  unfold ids_below, counter_above. rewrite Hout, added_app.
  destruct H as [[E1 [E2 E3]] | [[e [E1 [E2 E3]]] | [id [E1 [E2 E3]]]]];
    rewrite E1, E2, E3; (split; [split; [| split] |]); try lia.
  - exact Hk.
  - intros k Hin. rewrite app_nil_r in Hin. auto.
  - intros k [Hin | Hin]%in_app_or; auto.
  - intros k [Hin | ->]%keys_set; [specialize (Hk k Hin) |]; lia.
  - intros k [Hin | Hin]%in_app_or; [specialize (Ha k Hin); lia |].
    simpl in Hin. destruct Hin as [<- | []]. lia.
  - intros k [Hin | Hin]%in_app_or; [specialize (Hd k Hin) | specialize (Hr k Hin)]; lia.
  - intros k Hin. apply keys_del_subset in Hin. apply Hk. tauto.
  - intros k Hin. rewrite app_nil_r in Hin. auto.
  - intros k [Hin | Hin]%in_app_or; auto.
Qed.

Lemma session_ids (float : string -> option Q) (w1 w : world) (deleted : list Z) :
  session float w1 deleted w -> ids_below w1 [] ->
  ids_below w deleted /\ expense_counter w1 <= expense_counter w.
Proof.
  intros Hs H1. induction Hs as [| deleted w w' Hs [IH1 IH2] Hturn].
  - split; [exact H1 | lia].
  - pose proof (menu_turn_effect float w) as He. rewrite Hturn in He. simpl in He.
    destruct (effect_keeps_ids _ _ _ He IH1) as [H2 H3]. split; [exact H2 | lia].
Qed.

Lemma read_document_prints (data : json) (w : world) :
  exists out, stdout (snd (read_document data w)) = stdout w ++ out /\ added out = [].
Proof.
  unfold read_document.
  repeat match goal with
         | |- context [match ?x with _ => _ end] => destruct x
         end;
    try (exists []; simpl; now rewrite app_nil_r).
  eexists [_]. split; reflexivity.
Qed.

Lemma load_expenses_prints (w : world) :
  exists out, stdout (snd (load_expenses w)) = stdout w ++ out /\ added out = [].
Proof.
  unfold load_expenses.
  destruct (file w) as [[| data | |] |]; try destruct (readable w);
    try (eexists [_]; split; reflexivity);
    try (exists []; split; [symmetry; apply app_nil_r | reflexivity]).
  apply read_document_prints.
Qed.

Lemma startup_hands_out_nothing (f : option file_content) (r wr pl : bool)
    (now : Calendar.date) (lines : list string) :
  added (stdout (snd (startup (start f r wr pl now lines)))) = [].
Proof.
  unfold startup, bind. rewrite print_emit.
  destruct (load_expenses_prints (emit [Text "Welcome to the Expense Tracker!"]
                                       (start f r wr pl now lines))) as [out [H1 H2]].
  rewrite H1. simpl. exact H2.
Qed.

(** After [startup] the counter is above every loaded ID when there is no
    file, when the file is not JSON or cannot be read, and when the file is
    a document whose counter is above its IDs, as [save_expenses] writes it
    in a session that began so. *)
Lemma startup_counter_above (f : option file_content) (r wr pl : bool)
    (now : Calendar.date) (lines : list string) (w1 : world) :
  startup (start f r wr pl now lines) = (Return tt, w1) ->
  f = None \/ f = Some NotJson \/ r = false \/
  (exists d c, f = Some (JsonDoc (document d c)) /\ NoDup (PyDict.keys d) /\
               forall k, In k (PyDict.keys d) -> k < c) ->
  counter_above w1.
Proof.
  unfold startup, bind. rewrite print_emit. unfold load_expenses, start, emit. simpl.
  intros Hrun H.
  assert (Hempty : forall w, expenses w = [] -> counter_above w)
    by (intros w E k Hin; rewrite E in Hin; destruct Hin).
  destruct H as [-> | [-> | [-> | [d [c [-> [Hd Hc]]]]]]].
  - injection Hrun as <-. now apply Hempty.
  - destruct r; injection Hrun as <-; now apply Hempty.
  - destruct f as [[| data | |] |]; injection Hrun as <-; now apply Hempty.
  - destruct r; [| injection Hrun as <-; now apply Hempty].
    rewrite read_document_of_saved in Hrun by exact Hd.
    injection Hrun as <-. exact Hc.
Qed.

(** C1, as amended.  Let the session start with a load after which the
    counter is above every loaded ID.  Then in every state of the session
    the counter has not gone down and is above every ID of the ledger, and
    a turn of the menu does not lower it; an ID that the turn hands out is
    the counter before the turn, the counter after the turn is one more, the
    new expense is stored under it, and the ID is above every ID handed out
    before, is not in the ledger before the turn and has not been deleted
    before. *)
Theorem ids_fresh_and_increasing (float : string -> option Q)
    (f : option file_content) (r wr pl : bool) (now : Calendar.date)
    (lines : list string) (w1 : world) :
  startup (start f r wr pl now lines) = (Return tt, w1) ->
  counter_above w1 ->
  forall deleted w, session float w1 deleted w ->
    expense_counter w1 <= expense_counter w /\
    counter_above w /\
    forall res w' out,
      menu_turn float w = (res, w') ->
      stdout w' = stdout w ++ out ->
      expense_counter w <= expense_counter w' /\
      forall id, In id (added out) ->
        id = expense_counter w /\
        expense_counter w' = id + 1 /\
        In id (PyDict.keys (expenses w')) /\
        (forall k, In k (added (stdout w)) -> k < id) /\
        ~ In id (PyDict.keys (expenses w)) /\
        ~ In id deleted.
Proof.
  intros Hstart Habove deleted w Hs.
  assert (H1 : ids_below w1 []).
  { split; [exact Habove |]. split; [| intros k []].
    pose proof (startup_hands_out_nothing f r wr pl now lines) as E.
    rewrite Hstart in E. simpl in E. rewrite E. intros k []. }
  destruct (session_ids _ _ _ _ Hs H1) as [[Hk [Ha Hd]] Hle].
  split; [exact Hle |]. split; [exact Hk |].
  intros res w' out Hturn Hout.
  pose proof (menu_turn_effect float w) as He. rewrite Hturn in He. simpl in He.
  destruct He as [out' [Hout' He]].
  assert (out' = out) by (apply (app_inv_head (stdout w)); congruence). subst out'.
  destruct He as [[E1 [E2 E3]] | [[e [E1 [E2 E3]]] | [id' [E1 [E2 E3]]]]];
    rewrite E2, E3; (split; [lia |]); intros id Hin; try destruct Hin.
  - subst id. repeat split.
    + rewrite E1. apply keys_set. now right.
    + exact Ha.
    + intro Hin. specialize (Hk _ Hin). lia.
    + intro Hin. specialize (Hd _ Hin). lia.
  - contradiction.
Qed.

(** C1, as stated, fails.  A file of the documented form may hold a counter
    that is not above its IDs; after loading it, the next expense is stored
    under an ID that is already in the ledger. *)
Lemma stale_counter_reissues_id :
  ~ (forall (float : string -> option Q) (f : file_content) (now : Calendar.date)
            (lines : list string) (w1 : world),
       well_formed_file f = true ->
       startup (start (Some f) true true true now lines) = (Return tt, w1) ->
       forall res w' out,
         menu_turn float w1 = (res, w') ->
         stdout w' = stdout w1 ++ out ->
         forall id, In id (added out) -> ~ In id (PyDict.keys (expenses w1))).
Proof.
  intro H.
  pose (w1 := snd (startup (add_after_load (Some stale_counter_file)))).
  pose (r := menu_turn decimal_float w1).
  assert (Hwf : well_formed_file stale_counter_file = true) by (vm_compute; reflexivity).
  assert (Hstart : startup (add_after_load (Some stale_counter_file)) = (Return tt, w1))
    by (vm_compute; reflexivity).
  assert (Hout : stdout (snd r) = stdout w1 ++ skipn 2 (stdout (snd r)))
    by (vm_compute; reflexivity).
  assert (Hid : In 1 (added (skipn 2 (stdout (snd r))))) by (vm_compute; tauto).
  assert (Hkey : In 1 (PyDict.keys (expenses w1))) by (vm_compute; tauto).
  exact (H decimal_float stale_counter_file (Calendar.mkdate 2024 3 1)
           ["1"; "Food"; "12.5"; "2024-02-01"; "dinner"; ""] w1
           Hwf Hstart (fst r) (snd r) (skipn 2 (stdout (snd r)))
           (surjective_pairing r) Hout 1 Hid Hkey).
Qed.

Lemma ids_fresh_and_increasing_witness :
  let w1 := snd (startup (add_after_load None)) in
  let r := menu_turn decimal_float w1 in
  startup (add_after_load None) = (Return tt, w1) /\
  counter_above w1 /\
  (forall id, In id (added (skipn 2 (stdout (snd r)))) ->
     id = expense_counter w1 /\ ~ In id (PyDict.keys (expenses w1))).
Proof.
  intros w1 r.
  assert (Hstart : startup (add_after_load None) = (Return tt, w1))
    by (vm_compute; reflexivity).
  assert (Habove : counter_above w1) by (intros k []).
  assert (Hout : stdout (snd r) = stdout w1 ++ skipn 2 (stdout (snd r)))
    by (vm_compute; reflexivity).
  split; [exact Hstart |]. split; [exact Habove |].
  intros id Hin.
  destruct (ids_fresh_and_increasing decimal_float None true true true
              (Calendar.mkdate 2024 3 1)
              ["1"; "Food"; "12.5"; "2024-02-01"; "dinner"; ""] w1
              Hstart Habove [] w1 (session_start _ _)) as [_ [_ Hturn]].
  destruct (Hturn (fst r) (snd r) (skipn 2 (stdout (snd r)))
                  (surjective_pairing r) Hout) as [_ Hid].
  destruct (Hid id Hin) as [E [_ [_ [_ [Hnot _]]]]].
  split; [exact E | exact Hnot].
Defined.

(** ** Dictionaries *)

Section DictFacts.
Context {K V : Type} (eqb : K -> K -> bool).
Hypothesis eqb_spec : forall x y, reflect (x = y) (eqb x y).

Lemma get_set_same (k : K) (v : V) (d : PyDict.dict) :
  PyDict.get eqb k (PyDict.set eqb k v d) = Some v.
Proof.
  induction d as [| [k' v'] r IH]; simpl.
  - destruct (eqb_spec k k); [reflexivity | congruence].
  - destruct (eqb_spec k k') as [E | E]; simpl.
    + destruct (eqb_spec k k'); [reflexivity | congruence].
    + destruct (eqb_spec k k'); [congruence | exact IH].
Qed.

Lemma get_set_other (k k0 : K) (v : V) (d : PyDict.dict) :
  k0 <> k -> PyDict.get eqb k0 (PyDict.set eqb k v d) = PyDict.get eqb k0 d.
Proof.
  intro Hne. induction d as [| [k' v'] r IH]; simpl.
  - destruct (eqb_spec k0 k); [congruence | reflexivity].
  - destruct (eqb_spec k k') as [E | E]; simpl.
    + subst. destruct (eqb_spec k0 k'); [congruence | reflexivity].
    + destruct (eqb_spec k0 k'); [reflexivity | exact IH].
Qed.

Lemma get_in_keys (k : K) (d : PyDict.dict (K := K) (V := V)) :
  In k (PyDict.keys d) <-> PyDict.get eqb k d <> None.
Proof.
  induction d as [| [k' v'] r IH]; simpl; [intuition |].
  destruct (eqb_spec k k') as [E | E].
  - subst. split; [discriminate | now left].
  - rewrite <- IH. split; [intros [H | H]; [congruence | exact H] | now right].
Qed.

Lemma keys_set_cases (k : K) (v : V) (d : PyDict.dict) :
  PyDict.keys (PyDict.set eqb k v d)
  = if PyDict.mem eqb k d then PyDict.keys d else PyDict.keys d ++ [k].
Proof.
  unfold PyDict.mem. induction d as [| [k' v'] r IH]; simpl; [reflexivity |].
  destruct (eqb_spec k k') as [E | E]; simpl; [reflexivity |].
  rewrite IH. now destruct (PyDict.get eqb k r).
Qed.

Lemma nodup_set (k : K) (v : V) (d : PyDict.dict) :
  NoDup (PyDict.keys d) -> NoDup (PyDict.keys (PyDict.set eqb k v d)).
Proof.
  intro H. rewrite keys_set_cases. unfold PyDict.mem.
  destruct (PyDict.get eqb k d) eqn:E; [exact H |].
  apply NoDup_app; [exact H | repeat constructor; intros [] | ].
  intros x Hx [<- | []]. apply get_in_keys in Hx. congruence.
Qed.

Lemma nodup_update (dflt : V) (k : K) (f : V -> V) (d : PyDict.dict) :
  NoDup (PyDict.keys d) -> NoDup (PyDict.keys (PyDict.update eqb dflt k f d)).
Proof. intro H. unfold PyDict.update. destruct (PyDict.get eqb k d); now apply nodup_set. Qed.

Lemma get_update (dflt : V) (k k0 : K) (f : V -> V) (d : PyDict.dict) :
  PyDict.get eqb k0 (PyDict.update eqb dflt k f d)
  = if eqb k0 k
    then Some (f (match PyDict.get eqb k d with Some v => v | None => dflt end))
    else PyDict.get eqb k0 d.
Proof.
  unfold PyDict.update. destruct (eqb_spec k0 k) as [E | E].
  - subst. destruct (PyDict.get eqb k d); apply get_set_same.
  - destruct (PyDict.get eqb k d); now apply get_set_other.
Qed.

Lemma keys_update (dflt : V) (k k0 : K) (f : V -> V) (d : PyDict.dict) :
  In k0 (PyDict.keys (PyDict.update eqb dflt k f d)) <-> In k0 (PyDict.keys d) \/ k0 = k.
Proof.
  rewrite !get_in_keys, get_update. destruct (eqb_spec k0 k) as [E | E].
  - split; [now right | discriminate].
  - tauto.
Qed.

End DictFacts.

(** ** Sums of amounts *)

Lemma fold_left_Qplus (xs : list Q) (a : Q) : fold_left Qplus xs a == a + total_of xs.
Proof.
  revert a. induction xs as [| x r IH]; intro a; simpl.
  - ring.
  - rewrite IH. ring.
Qed.

(** [sum] adds from the left, the sum of mathematics from the right. *)
Lemma sum_total_of (xs : list Q) : sum xs == total_of xs.
Proof. unfold sum. rewrite fold_left_Qplus. ring. Qed.

Lemma nodup_category_totals_from (es : list expense) (acc : PyDict.dict) :
  NoDup (PyDict.keys acc) ->
  NoDup (PyDict.keys (fold_left (fun d e => add_amount (category e) (amount e) d) es acc)).
Proof.
  revert acc. induction es as [| e r IH]; intros acc H; simpl; [exact H |].
  apply IH. unfold add_amount. now apply (nodup_update String.eqb String.eqb_spec).
Qed.

Lemma nodup_category_totals (es : list expense) : NoDup (PyDict.keys (category_totals es)).
Proof. apply nodup_category_totals_from. constructor. Qed.

Lemma divide_ok (x y : Q) (w : world) :
  Qeq_bool y 0 = false -> divide x y w = (Return (x / y)%Q, w).
Proof. intro H. unfold divide. now rewrite H. Qed.

Lemma Qeq_bool_false (y : Q) : ~ y == 0 -> Qeq_bool y 0 = false.
Proof.
  intro H. destruct (Qeq_bool y 0) eqn:E; [| reflexivity].
  apply Qeq_bool_iff in E. contradiction.
Qed.

Lemma inject_Z_nonzero (n : Z) : n <> 0%Z -> Qeq_bool (inject_Z n) 0 = false.
Proof.
  intro H. apply Qeq_bool_false. unfold Qeq, inject_Z. simpl. lia.
Qed.

Lemma for_each_divide {A} (g : A -> Q) (t : Q) (h : A -> Q -> line) (xs : list A) (w : world) :
  Qeq_bool t 0 = false ->
  for_each xs (fun x => q <- divide (g x) t ;; print (h x q)) w
  = (Return tt, emit (map (fun x => h x (g x / t)%Q) xs) w).
Proof.
  intro Ht. revert w. induction xs as [| x r IH]; intro w; simpl.
  - now rewrite emit_nil.
  - unfold bind at 1. unfold bind at 1. rewrite (divide_ok _ _ _ Ht), print_emit, IH, emit_emit.
    reflexivity.
Qed.

Lemma total_of_positive (xs : list Q) :
  xs <> [] -> Forall (fun x => 0 < x)%Q xs -> (0 < total_of xs)%Q.
Proof.
  intros Hne H. induction H as [| x r Hx Hr IH]; [congruence |]. simpl.
  destruct r as [| y r'].
  - simpl. now rewrite Qplus_0_r.
  - assert (0 < total_of (y :: r'))%Q by (apply IH; discriminate).
    apply (Qlt_trans _ (x + 0)); [now rewrite Qplus_0_r |].
    apply Qplus_lt_r. assumption.
Qed.

(** ** The order of text and the order of numbers *)

Lemma code_digit_char (d : Z) : 0 <= d < 10 -> N_of_ascii (PyStr.digit_char d) = Z.to_N (48 + d).
Proof.
  intro H. unfold PyStr.digit_char, PyStr.chr. apply N_ascii_embedding. lia.
Qed.

Lemma compare_digit_char (a b : Z) :
  0 <= a < 10 -> 0 <= b < 10 ->
  Ascii.compare (PyStr.digit_char a) (PyStr.digit_char b) = (a ?= b).
Proof.
  intros Ha Hb. unfold Ascii.compare. rewrite !code_digit_char by assumption.
  rewrite Z2N.inj_compare by lia. apply Z.add_compare_mono_l.
Qed.

Lemma compare_cons (c1 c2 : ascii) (s1 s2 : string) :
  String.compare (String c1 s1) (String c2 s2)
  = match Ascii.compare c1 c2 with
    | Eq => String.compare s1 s2
    | o => o
    end.
Proof. reflexivity. Qed.

Lemma ascii_compare_refl (c : ascii) : Ascii.compare c c = Eq.
Proof. unfold Ascii.compare. apply N.compare_refl. Qed.

Lemma compare_prefix (p s t : string) :
  String.compare (p ++ s) (p ++ t) = String.compare s t.
Proof.
  induction p as [| c r IH]; simpl; [reflexivity |].
  now rewrite ascii_compare_refl.
Qed.

Lemma compare_pad2 (n m : Z) (s t : string) :
  0 <= n < 100 -> 0 <= m < 100 ->
  String.compare (PyStr.pad2 n ++ s) (PyStr.pad2 m ++ t)
  = match n ?= m with
    | Eq => String.compare s t
    | o => o
    end.
Proof.
  intros Hn Hm. unfold PyStr.pad2. simpl append. rewrite !compare_cons.
  rewrite !compare_digit_char by lia.
  destruct (Z.compare_spec (n / 10 mod 10) (m / 10 mod 10));
    destruct (Z.compare_spec (n mod 10) (m mod 10));
    destruct (Z.compare_spec n m); try reflexivity; lia.
Qed.

Lemma pad4_pad2 (n : Z) :
  0 <= n < 10000 -> PyStr.pad4 n = (PyStr.pad2 (n / 100) ++ PyStr.pad2 (n mod 100))%string.
Proof.
  intro H. unfold PyStr.pad4, PyStr.pad2. simpl append.
  replace (n / 100 / 10 mod 10) with (n / 1000 mod 10) by lia.
  replace (n / 100 mod 10) with ((n / 100) mod 10) by reflexivity.
  replace (n mod 100 / 10 mod 10) with (n / 10 mod 10) by lia.
  replace (n mod 100 mod 10) with (n mod 10) by lia.
  reflexivity.
Qed.

Lemma append_assoc (a b c : string) : ((a ++ b) ++ c = a ++ (b ++ c))%string.
Proof. induction a as [| x r IH]; simpl; [reflexivity | now rewrite IH]. Qed.

Lemma compare_pad4 (n m : Z) (s t : string) :
  0 <= n < 10000 -> 0 <= m < 10000 ->
  String.compare (PyStr.pad4 n ++ s) (PyStr.pad4 m ++ t)
  = match n ?= m with
    | Eq => String.compare s t
    | o => o
    end.
Proof.
  intros Hn Hm. rewrite !pad4_pad2 by assumption. rewrite !append_assoc.
  rewrite compare_pad2 by lia. rewrite compare_pad2 by lia.
  destruct (Z.compare_spec (n / 100) (m / 100));
    destruct (Z.compare_spec (n mod 100) (m mod 100));
    destruct (Z.compare_spec n m); try reflexivity; lia.
Qed.

(** ** The calendar *)

Lemma valid_iff (d : Calendar.date) :
  Calendar.valid d = true <->
  1 <= Calendar.year d <= 9999 /\ 1 <= Calendar.month d <= 12 /\
  1 <= Calendar.day d <= Calendar.days_in_month (Calendar.year d) (Calendar.month d).
Proof.
  unfold Calendar.valid. rewrite !andb_true_iff, !Z.leb_le. tauto.
Qed.

Lemma strptime_valid (s : string) (d : Calendar.date) :
  Calendar.strptime s = Some d -> Calendar.valid d = true.
Proof.
  unfold Calendar.strptime.
  destruct (Calendar.read_Y s) as [[y s1] |]; [| discriminate].
  destruct (Calendar.read_dash s1) as [s2 |]; [| discriminate].
  destruct (Calendar.read_m s2) as [[m s3] |]; [| discriminate].
  destruct (Calendar.read_dash s3) as [s4 |]; [| discriminate].
  destruct (Calendar.read_d s4) as [[dd [| c r]] |]; try discriminate.
  destruct (Calendar.valid (Calendar.mkdate y m dd)) eqn:E; [| discriminate].
  now intros [= <-].
Qed.

(** Splits a month between 1 and 12 into its twelve values. *)
Ltac months m :=
  let H := fresh "Hm" in
  assert (H : m = 1 \/ m = 2 \/ m = 3 \/ m = 4 \/ m = 5 \/ m = 6 \/ m = 7 \/ m = 8 \/
              m = 9 \/ m = 10 \/ m = 11 \/ m = 12) by lia;
  destruct H as [-> | [-> | [-> | [-> | [-> | [-> | [-> | [-> | [-> | [-> | [-> | ->]]]]]]]]]]].

Ltac calendar :=
  unfold Calendar.days_before_month, Calendar.days_in_month in *;
  repeat match goal with
         | |- context [Calendar.is_leap ?y] => destruct (Calendar.is_leap y)
         | H : context [Calendar.is_leap ?y] |- _ => destruct (Calendar.is_leap y)
         end;
  repeat match goal with
         | |- context [fold_right Z.add 0 ?l] =>
             let v := eval vm_compute in (fold_right Z.add 0 l) in
             change (fold_right Z.add 0 l) with v
         | H : context [fold_right Z.add 0 ?l] |- _ =>
             let v := eval vm_compute in (fold_right Z.add 0 l) in
             change (fold_right Z.add 0 l) with v in H
         | |- context [if ?c then ?a else ?b] =>
             let v := eval vm_compute in (if c then a else b) in
             change (if c then a else b) with v
         | H : context [if ?c then ?a else ?b] |- _ =>
             let v := eval vm_compute in (if c then a else b) in
             change (if c then a else b) with v in H
         end;
  lia.

Lemma days_in_month_bounds (y m : Z) : 28 <= Calendar.days_in_month y m <= 31.
Proof.
  unfold Calendar.days_in_month.
  destruct (m =? 2); [destruct (Calendar.is_leap y); lia |].
  destruct ((m =? 4) || (m =? 6) || (m =? 9) || (m =? 11)); lia.
Qed.

Lemma year_length (y : Z) :
  Calendar.days_before_year (y + 1)
  = Calendar.days_before_year y + 365 + (if Calendar.is_leap y then 1 else 0).
Proof.
  unfold Calendar.days_before_year, Calendar.is_leap.
  replace (y + 1 - 1) with y by lia.
  destruct ((y mod 4 =? 0) && (negb (y mod 100 =? 0) || (y mod 400 =? 0))) eqn:E; lia.
Qed.

Lemma days_before_year_mono (y y' : Z) :
  y <= y' -> Calendar.days_before_year y <= Calendar.days_before_year y'.
Proof. unfold Calendar.days_before_year. lia. Qed.

(** The number of a day in its year is between 1 and the length of the
    year. *)
Lemma day_of_year_bounds (y m d : Z) :
  1 <= m <= 12 -> 1 <= d <= Calendar.days_in_month y m ->
  1 <= Calendar.days_before_month y m + d <= 365 + (if Calendar.is_leap y then 1 else 0).
Proof. intros Hm Hd. months m; calendar. Qed.

Lemma days_before_month_mono (y m m' : Z) :
  1 <= m -> m < m' -> m' <= 12 ->
  Calendar.days_before_month y m + Calendar.days_in_month y m
  <= Calendar.days_before_month y m'.
Proof. intros H1 H2 H3. months m; months m'; try lia; calendar. Qed.

Lemma days_before_month_step (y m : Z) :
  2 <= m <= 12 ->
  Calendar.days_before_month y m
  = Calendar.days_before_month y (m - 1) + Calendar.days_in_month y (m - 1).
Proof. intro H. months m; try lia; calendar. Qed.

Lemma toordinal_lt_year (d d' : Calendar.date) :
  Calendar.valid d = true -> Calendar.valid d' = true ->
  Calendar.year d < Calendar.year d' -> Calendar.toordinal d < Calendar.toordinal d'.
Proof.
  intros [Hy [Hm Hd]]%valid_iff [Hy' [Hm' Hd']]%valid_iff Hlt.
  unfold Calendar.toordinal.
  pose proof (day_of_year_bounds _ _ _ Hm Hd) as B.
  pose proof (day_of_year_bounds _ _ _ Hm' Hd') as B'.
  pose proof (year_length (Calendar.year d)) as L.
  pose proof (days_before_year_mono (Calendar.year d + 1) (Calendar.year d')) as M.
  lia.
Qed.

Lemma toordinal_lt_month (d d' : Calendar.date) :
  Calendar.valid d = true -> Calendar.valid d' = true ->
  Calendar.year d = Calendar.year d' -> Calendar.month d < Calendar.month d' ->
  Calendar.toordinal d < Calendar.toordinal d'.
Proof.
  intros [Hy [Hm Hd]]%valid_iff [Hy' [Hm' Hd']]%valid_iff E Hlt.
  unfold Calendar.toordinal. rewrite <- E in *.
  pose proof (days_before_month_mono (Calendar.year d) (Calendar.month d) (Calendar.month d')).
  lia.
Qed.

Lemma toordinal_positive (d : Calendar.date) :
  Calendar.valid d = true -> 1 <= Calendar.toordinal d.
Proof.
  intros [Hy [Hm Hd]]%valid_iff. unfold Calendar.toordinal.
  pose proof (day_of_year_bounds _ _ _ Hm Hd).
  pose proof (days_before_year_mono 1 (Calendar.year d)).
  change (Calendar.days_before_year 1) with 0 in *. lia.
Qed.

(** The day before a day of the calendar, the first day apart, is a day of
    the calendar, and its number is one less. *)
Lemma prev_day_toordinal (d : Calendar.date) :
  Calendar.valid d = true -> 1 < Calendar.toordinal d ->
  Calendar.valid (Calendar.prev_day d) = true /\
  Calendar.toordinal (Calendar.prev_day d) = Calendar.toordinal d - 1.
Proof.
  intros Hv Hord. pose proof Hv as [Hy [Hm Hd]]%valid_iff.
  unfold Calendar.prev_day.
  destruct (1 <? Calendar.day d) eqn:E1.
  - split; [apply valid_iff; simpl; lia | unfold Calendar.toordinal; simpl; lia].
  - destruct (1 <? Calendar.month d) eqn:E2.
    + pose proof (days_in_month_bounds (Calendar.year d) (Calendar.month d - 1)).
      pose proof (days_before_month_step (Calendar.year d) (Calendar.month d)).
      split; [apply valid_iff; simpl; lia | unfold Calendar.toordinal; simpl; lia].
    + assert (Calendar.month d = 1) as Em by lia.
      assert (Calendar.day d = 1) as Ed by lia.
      assert (1 < Calendar.year d) as Hy1.
      { destruct (Z.eq_dec (Calendar.year d) 1) as [Ey | Ey]; [| lia].
        unfold Calendar.toordinal in Hord. rewrite Ey, Em, Ed in Hord.
        vm_compute in Hord. discriminate. }
      pose proof (year_length (Calendar.year d - 1)) as L.
      replace (Calendar.year d - 1 + 1) with (Calendar.year d) in L by lia.
      split.
      * apply valid_iff; simpl. unfold Calendar.days_in_month. simpl. lia.
      * unfold Calendar.toordinal. simpl. rewrite Em, Ed.
        change (Calendar.days_before_month (Calendar.year d) 1) with 0.
        assert (Calendar.days_before_month (Calendar.year d - 1) 12 + 31
                = 365 + (if Calendar.is_leap (Calendar.year d - 1) then 1 else 0))
          by calendar.
        lia.
Qed.

Lemma minus_days_toordinal (n : nat) (d : Calendar.date) :
  Calendar.valid d = true -> Z.of_nat n < Calendar.toordinal d ->
  Calendar.valid (Nat.iter n Calendar.prev_day d) = true /\
  Calendar.toordinal (Nat.iter n Calendar.prev_day d) = Calendar.toordinal d - Z.of_nat n.
Proof.
  intros Hv. induction n as [| n IH]; intro Hn.
  - simpl. split; [exact Hv | lia].
  - destruct IH as [IH1 IH2]; [lia |].
    simpl Nat.iter.
    destruct (prev_day_toordinal _ IH1) as [H1 H2]; [lia |].
    split; [exact H1 | lia].
Qed.

(** The Monday of the week of a day. *)
Lemma week_start_facts (d : Calendar.date) :
  Calendar.valid d = true ->
  let ws := Calendar.minus_days d (Calendar.weekday d) in
  Calendar.valid ws = true /\
  Calendar.toordinal ws = Calendar.toordinal d - Calendar.weekday d /\
  Calendar.weekday ws = 0 /\
  0 <= Calendar.weekday d <= 6.
Proof.
  intros Hv ws. pose proof (toordinal_positive d Hv) as Hp.
  assert (Hw : 0 <= Calendar.weekday d <= 6) by (unfold Calendar.weekday; lia).
  destruct (minus_days_toordinal (Z.to_nat (Calendar.weekday d)) d Hv) as [H1 H2].
  { rewrite Z2Nat.id by lia. unfold Calendar.weekday. lia. }
  rewrite Z2Nat.id in H2 by lia.
  split; [exact H1 |]. split; [exact H2 |]. split; [| exact Hw].
  unfold Calendar.weekday at 1. unfold ws, Calendar.minus_days. rewrite H2.
  unfold Calendar.weekday. lia.
Qed.

Lemma ltb_compare (s t : string) : String.ltb s t = true <-> String.compare s t = Lt.
Proof. unfold String.ltb. destruct (String.compare s t); split; congruence. Qed.

Lemma append_nil_r (s : string) : (s ++ "")%string = s.
Proof. induction s as [| c r IH]; simpl; [reflexivity | now rewrite IH]. Qed.

Lemma week_U_bounds (d : Calendar.date) :
  Calendar.valid d = true -> 0 <= Calendar.week_U d <= 53.
Proof.
  intros [Hy [Hm Hd]]%valid_iff. unfold Calendar.week_U.
  pose proof (day_of_year_bounds _ _ _ Hm Hd) as B.
  assert (0 <= (Calendar.weekday d + 1) mod 7 <= 6) by lia.
  destruct (Calendar.is_leap (Calendar.year d)); lia.
Qed.

(** Mondays in the order of their year and week number are in the order of
    the calendar. *)
Lemma monday_order (a b : Calendar.date) :
  Calendar.valid a = true -> Calendar.valid b = true ->
  Calendar.weekday a = 0 -> Calendar.weekday b = 0 ->
  Calendar.year a < Calendar.year b
  \/ (Calendar.year a = Calendar.year b /\ Calendar.week_U a < Calendar.week_U b) ->
  Calendar.toordinal a + 7 <= Calendar.toordinal b.
Proof.
  intros Ha Hb Wa Wb H.
  assert (Hlt : Calendar.toordinal a < Calendar.toordinal b).
  { destruct H as [H | [E H]]; [now apply toordinal_lt_year |].
    unfold Calendar.week_U in H. rewrite Wa, Wb in H.
    change ((0 + 1) mod 7) with 1 in H.
    unfold Calendar.toordinal. rewrite E in *. lia. }
  unfold Calendar.weekday in Wa, Wb. lia.
Qed.

(** A period whose key is larger as text holds the later days. *)
Lemma later_period (choice : string) (d1 d2 : Calendar.date) :
  choice = "1" \/ choice = "2" \/ choice = "3" ->
  Calendar.valid d1 = true -> Calendar.valid d2 = true ->
  String.ltb (fst (period choice d2)) (fst (period choice d1)) = true ->
  Calendar.toordinal d2 < Calendar.toordinal d1.
Proof.
  intros Hc H1 H2 Hlt. apply ltb_compare in Hlt.
  pose proof H1 as [Hy1 [Hm1 Hd1]]%valid_iff.
  pose proof H2 as [Hy2 [Hm2 Hd2]]%valid_iff.
  destruct Hc as [-> | [-> | ->]].
  - change (fst (period "1" d2))
      with (let ws := Calendar.minus_days d2 (Calendar.weekday d2) in
            (PyStr.pad4 (Calendar.year ws) ++ "-W" ++ PyStr.pad2 (Calendar.week_U ws))%string)
      in Hlt.
    change (fst (period "1" d1))
      with (let ws := Calendar.minus_days d1 (Calendar.weekday d1) in
            (PyStr.pad4 (Calendar.year ws) ++ "-W" ++ PyStr.pad2 (Calendar.week_U ws))%string)
      in Hlt.
    cbv zeta in Hlt.
    destruct (week_start_facts d1 H1) as [V1 [O1 [W1 B1]]].
    destruct (week_start_facts d2 H2) as [V2 [O2 [W2 B2]]].
    set (ws1 := Calendar.minus_days d1 (Calendar.weekday d1)) in *.
    set (ws2 := Calendar.minus_days d2 (Calendar.weekday d2)) in *.
    pose proof V1 as [Y1 _]%valid_iff. pose proof V2 as [Y2 _]%valid_iff.
    pose proof (week_U_bounds ws1 V1). pose proof (week_U_bounds ws2 V2).
    rewrite compare_pad4 in Hlt by lia.
    rewrite (compare_prefix "-W") in Hlt.
    rewrite <- (append_nil_r (PyStr.pad2 (Calendar.week_U ws2))) in Hlt.
    rewrite <- (append_nil_r (PyStr.pad2 (Calendar.week_U ws1))) in Hlt.
    rewrite compare_pad2 in Hlt by lia.
    assert (Horder : Calendar.toordinal ws2 + 7 <= Calendar.toordinal ws1).
    { apply monday_order; try assumption.
      destruct (Z.compare_spec (Calendar.year ws2) (Calendar.year ws1));
        [| left; assumption | discriminate].
      right. split; [assumption |].
      destruct (Z.compare_spec (Calendar.week_U ws2) (Calendar.week_U ws1));
        [discriminate | assumption | discriminate]. }
    lia.
  - change (fst (period "2" d2))
      with (PyStr.pad4 (Calendar.year d2) ++ "-" ++ PyStr.pad2 (Calendar.month d2))%string
      in Hlt.
    change (fst (period "2" d1))
      with (PyStr.pad4 (Calendar.year d1) ++ "-" ++ PyStr.pad2 (Calendar.month d1))%string
      in Hlt.
    rewrite compare_pad4 in Hlt by lia.
    rewrite (compare_prefix "-") in Hlt.
    rewrite <- (append_nil_r (PyStr.pad2 (Calendar.month d2))) in Hlt.
    rewrite <- (append_nil_r (PyStr.pad2 (Calendar.month d1))) in Hlt.
    rewrite compare_pad2 in Hlt by lia.
    destruct (Z.compare_spec (Calendar.year d2) (Calendar.year d1));
      [| now apply toordinal_lt_year | discriminate].
    destruct (Z.compare_spec (Calendar.month d2) (Calendar.month d1));
      [discriminate | now apply toordinal_lt_month | discriminate].
  - change (fst (period "3" d2)) with (PyStr.pad4 (Calendar.year d2)) in Hlt.
    change (fst (period "3" d1)) with (PyStr.pad4 (Calendar.year d1)) in Hlt.
    rewrite <- (append_nil_r (PyStr.pad4 (Calendar.year d2))) in Hlt.
    rewrite <- (append_nil_r (PyStr.pad4 (Calendar.year d1))) in Hlt.
    rewrite compare_pad4 in Hlt by lia.
    destruct (Z.compare_spec (Calendar.year d2) (Calendar.year d1));
      [discriminate | now apply toordinal_lt_year | discriminate].
Qed.

(** ** Grouping by period *)

Lemma validate_date_strptime (s : string) :
  validate_date s = true -> exists d, Calendar.strptime s = Some d.
Proof.
  unfold validate_date. destruct (Calendar.strptime s) as [d |]; [| discriminate].
  intros _. now exists d.
Qed.

Lemma group_returns (choice : string) (es : list expense) :
  Forall (fun e => validate_date (date e) = true) es ->
  forall acc, exists sums, group choice es acc = Some sums.
Proof.
  induction 1 as [| e r He Hr IH]; intro acc; simpl.
  - now exists acc.
  - destruct (validate_date_strptime _ He) as [d ->].
    destruct (period choice d) as [key lbl]. apply IH.
Qed.

Lemma group_nodup (choice : string) (es : list expense) :
  forall acc sums, group choice es acc = Some sums ->
    NoDup (PyDict.keys acc) -> NoDup (PyDict.keys sums).
Proof.
  induction es as [| e r IH]; intros acc sums H Hacc; simpl in H.
  - now injection H as <-.
  - destruct (Calendar.strptime (date e)) as [d |]; [| discriminate].
    destruct (period choice d) as [key lbl]. apply (IH _ _ H).
    now apply (nodup_update String.eqb String.eqb_spec).
Qed.

Lemma members_cons (choice key : string) (e : expense) (r : list expense) :
  members choice key (e :: r)
  = match period_key choice e with
    | Some k => if String.eqb k key then e :: members choice key r else members choice key r
    | None => members choice key r
    end.
Proof.
  unfold members. simpl. destruct (period_key choice e) as [k |]; reflexivity.
Qed.

(** What the grouping loop leaves under a key: the entry it found there
    when the period has no expense, and otherwise the entry that the
    expenses of the period, in their order, have been added to. *)
Lemma group_spec (choice : string) (es : list expense) :
  forall acc sums, group choice es acc = Some sums ->
  forall k,
    let ms := members choice k es in
    let s0 := match PyDict.get String.eqb k acc with
              | Some s => s
              | None => empty_summary
              end in
    (ms = [] -> PyDict.get String.eqb k sums = PyDict.get String.eqb k acc) /\
    (ms <> [] ->
     exists s, PyDict.get String.eqb k sums = Some s /\
               total s = fold_left Qplus (map amount ms) (total s0) /\
               count s = count s0 + Z.of_nat (List.length ms) /\
               categories s
               = fold_left (fun d e => add_amount (category e) (amount e) d) ms
                           (categories s0)).
Proof.
  induction es as [| e r IH]; intros acc sums H k; simpl in H.
  - injection H as <-. split; [reflexivity | intro Hne; now elim Hne].
  - rewrite members_cons. unfold period_key.
    destruct (Calendar.strptime (date e)) as [d |]; [| discriminate].
    simpl option_map. destruct (period choice d) as [key lbl] eqn:Ep. simpl fst.
    specialize (IH _ _ H k). cbv zeta in IH.
    rewrite (get_update String.eqb String.eqb_spec) in IH.
    rewrite (String.eqb_sym k key) in IH.
    destruct (String.eqb_spec key k) as [E | E].
    + subst key. destruct IH as [IH0 IH1]. split; [discriminate |]. intros _.
      destruct (members choice k r) as [| e' r'] eqn:Em.
      * rewrite IH0 by reflexivity. eexists. split; [reflexivity |].
        simpl. repeat split; try lia.
      * destruct IH1 as [s [Hs [Ht [Hc Hcat]]]]; [discriminate |].
        exists s. split; [exact Hs |]. simpl in *. repeat split; try assumption; try lia.
    + exact IH.
Qed.

Lemma group_summaries (choice : string) (es : list expense)
    (sums : PyDict.dict (K := string) (V := summary)) (k : string) :
  group choice es [] = Some sums ->
  let ms := members choice k es in
  (In k (PyDict.keys sums) <-> ms <> []) /\
  forall s, PyDict.get String.eqb k sums = Some s ->
    ms <> [] /\
    total s = sum (map amount ms) /\
    count s = Z.of_nat (List.length ms) /\
    categories s = category_totals ms.
Proof.
  intros H ms. destruct (group_spec choice es [] sums H k) as [H0 H1].
  fold ms in H0, H1. simpl in H0, H1. split.
  - rewrite (get_in_keys String.eqb String.eqb_spec). split.
    + intros Hget Hms. now rewrite H0 in Hget.
    + intro Hms. destruct (H1 Hms) as [s [-> _]]. discriminate.
  - intros s Hs.
    assert (Hms : ms <> []) by (intro Hms; rewrite H0 in Hs by exact Hms; discriminate).
    destruct (H1 Hms) as [s' [Hs' [Ht [Hc Hcat]]]].
    assert (s' = s) by congruence. subst s'.
    split; [exact Hms |]. split; [exact Ht |]. split; [exact Hc | exact Hcat].
Qed.

(** ** The order of display *)

Lemma ltb_false_trans (a b c : string) :
  String.ltb a b = false -> String.ltb b c = false -> String.ltb a c = false.
Proof.
  intros H1 H2. destruct (String.ltb a c) eqn:H3; [| reflexivity].
  apply ltb_compare, OrderedTypeEx.String_as_OT.cmp_lt in H3.
  destruct (String.compare b c) eqn:Ebc.
  - apply OrderedTypeEx.String_as_OT.cmp_eq in Ebc. subst c.
    apply OrderedTypeEx.String_as_OT.cmp_lt, ltb_compare in H3. congruence.
  - apply ltb_compare in Ebc. congruence.
  - assert (Hcb : String.compare c b = Lt)
      by (rewrite String.compare_antisym, Ebc; reflexivity).
    apply OrderedTypeEx.String_as_OT.cmp_lt in Hcb.
    pose proof (OrderedTypeEx.String_as_OT.lt_trans _ _ _ H3 Hcb) as Hab.
    apply OrderedTypeEx.String_as_OT.cmp_lt, ltb_compare in Hab. congruence.
Qed.

Lemma ltb_false_neq (a b : string) : String.ltb a b = false -> a <> b -> String.ltb b a = true.
Proof.
  intros H Hne. apply ltb_compare. rewrite String.compare_antisym.
  destruct (String.compare a b) eqn:E.
  - apply OrderedTypeEx.String_as_OT.cmp_eq in E. contradiction.
  - apply ltb_compare in E. congruence.
  - reflexivity.
Qed.

Lemma insert_desc_sorted (x : string) (l : list string) :
  StronglySorted (fun a b => String.ltb a b = false) l ->
  StronglySorted (fun a b => String.ltb a b = false)
                 (PyDict.insert (fun y x => String.ltb x y) x l).
Proof.
  induction 1 as [| y r Hr IH Hy]; simpl.
  - repeat constructor.
  - destruct (String.ltb x y) eqn:E.
    + constructor; [exact IH |].
      apply Forall_forall. intros z Hz.
      apply (Permutation_in _ (insert_perm _ x r)) in Hz. destruct Hz as [<- | Hz].
      * apply ltb_compare in E. unfold String.ltb.
        rewrite String.compare_antisym, E. reflexivity.
      * rewrite Forall_forall in Hy. now apply Hy.
    + constructor; [now constructor |].
      constructor; [exact E |].
      apply Forall_forall. intros z Hz. rewrite Forall_forall in Hy.
      apply (ltb_false_trans x y z); [exact E | now apply Hy].
Qed.

Lemma sorted_strings_desc_sorted (l : list string) :
  StronglySorted (fun a b => String.ltb a b = false) (sorted_strings_desc l).
Proof.
  unfold sorted_strings_desc, PyDict.sorted.
  induction l as [| x r IH]; simpl; [constructor | now apply insert_desc_sorted].
Qed.

Lemma strongly_sorted_split {A} (R : A -> A -> Prop) (l1 l2 l3 : list A) (x y : A) :
  StronglySorted R (l1 ++ x :: l2 ++ y :: l3) -> R x y.
Proof.
  induction l1 as [| z r IH]; simpl; intro H.
  - apply StronglySorted_inv in H as [_ H]. rewrite Forall_forall in H.
    apply H. apply in_or_app. right. now left.
  - apply StronglySorted_inv in H as [H _]. now apply IH.
Qed.

Lemma display_order_keys (sums : PyDict.dict (K := string) (V := summary)) :
  map fst (display_order sums) = sorted_strings_desc (PyDict.keys sums).
Proof.
  unfold display_order.
  assert (H : forall k, In k (sorted_strings_desc (PyDict.keys sums)) ->
                        PyDict.get String.eqb k sums <> None).
  { intros k Hk. apply sorted_in in Hk.
    now apply (get_in_keys String.eqb String.eqb_spec). }
  induction (sorted_strings_desc (PyDict.keys sums)) as [| k r IH]; simpl; [reflexivity |].
  rewrite map_app, IH by (intros; apply H; now right).
  destruct (PyDict.get String.eqb k sums) eqn:E; [reflexivity |].
  exfalso. apply (H k); [now left | exact E].
Qed.

Lemma display_order_in (sums : PyDict.dict (K := string) (V := summary))
    (k : string) (s : summary) :
  In (k, s) (display_order sums) <-> PyDict.get String.eqb k sums = Some s.
Proof.
  unfold display_order. rewrite in_flat_map. split.
  - intros [k' [_ H]]. destruct (PyDict.get String.eqb k' sums) eqn:E; [| destruct H].
    destruct H as [[= <- <-] | []]. exact E.
  - intro H. exists k. split.
    + apply sorted_in. apply (get_in_keys String.eqb String.eqb_spec). congruence.
    + rewrite H. now left.
Qed.

(** The periods are shown with their keys in falling order. *)
Lemma shown_before_key (sums : PyDict.dict (K := string) (V := summary)) (k1 k2 : string) :
  NoDup (PyDict.keys sums) -> shown_before sums k1 k2 -> String.ltb k2 k1 = true.
Proof.
  intros Hnd [l1 [l2 [l3 [s1 [s2 H]]]]].
  pose proof (display_order_keys sums) as Hk. rewrite H in Hk.
  rewrite map_app in Hk. simpl in Hk. rewrite map_app in Hk. simpl in Hk.
  pose proof (sorted_strings_desc_sorted (PyDict.keys sums)) as Hs. rewrite <- Hk in Hs.
  apply ltb_false_neq; [exact (strongly_sorted_split _ _ _ _ _ _ Hs) |].
  assert (Hnd' : NoDup (sorted_strings_desc (PyDict.keys sums))).
  { apply (Permutation_NoDup (l := PyDict.keys sums)); [| exact Hnd].
    symmetry. apply sorted_perm. }
  rewrite <- Hk in Hnd'. apply NoDup_remove_2 in Hnd'.
  intro E. apply Hnd'. subst k2. apply in_or_app. right.
  apply in_or_app. right. now left.
Qed.

(** ** The transcript of the periodic summary *)

Lemma for_each_emit {A} (f : A -> list line) (body : A -> M unit) (xs : list A) :
  (forall x w, In x xs -> body x w = (Return tt, emit (f x) w)) ->
  forall w, for_each xs body w = (Return tt, emit (flat_map f xs) w).
Proof.
  induction xs as [| x r IH]; intros H w; simpl.
  - now rewrite emit_nil.
  - unfold bind. rewrite H by now left.
    rewrite IH by (intros; apply H; now right).
    now rewrite emit_emit.
Qed.

Lemma show_period_lines (s : summary) (w : world) :
  count s <> 0%Z -> ~ total s == 0 ->
  show_period s w = (Return tt, emit (period_lines s) w).
Proof.
  intros Hc Ht. apply Qeq_bool_false in Ht.
  unfold show_period, period_lines.
  unfold bind at 1. rewrite print_emit.
  unfold bind at 1. rewrite print_emit.
  unfold bind at 1. rewrite print_emit.
  unfold bind at 1. rewrite print_emit.
  unfold bind at 1. rewrite divide_ok by (apply inject_Z_nonzero; exact Hc).
  unfold bind at 1. rewrite print_emit.
  rewrite !emit_emit.
  destruct (1 <? Z.of_nat (List.length (categories s))).
  - unfold bind at 1. rewrite print_emit.
    rewrite (for_each_divide snd (total s)
               (fun ca q => Top_row (fst ca) (snd ca) (q * 100)%Q)) by exact Ht.
    rewrite !emit_emit. rewrite <- ?app_assoc. reflexivity.
  - unfold ret. rewrite app_nil_r. reflexivity.
Qed.

Lemma generate_expense_summary_lines (w : world) (l : string) (rest : list string)
    (sums : PyDict.dict (K := string) (V := summary)) :
  expenses w <> [] ->
  stdin w = l :: rest ->
  PyStr.strip l = "1" \/ PyStr.strip l = "2" \/ PyStr.strip l = "3" ->
  group (PyStr.strip l) (PyDict.values (expenses w)) [] = Some sums ->
  (forall k s, In (k, s) (display_order sums) -> count s <> 0%Z /\ ~ total s == 0) ->
  generate_expense_summary w = (Return tt, emit (summary_lines sums) (consume w)).
Proof.
  intros Hne Hin Hc Hg Hs.
  assert (Hemp : is_empty (expenses w) = false)
    by (destruct (expenses w); [congruence | reflexivity]).
  unfold generate_expense_summary, bind at 1, ask. rewrite Hemp.
  unfold bind at 1. rewrite print_emit.
  unfold bind at 1. rewrite print_emit.
  unfold bind at 1. rewrite print_emit.
  unfold bind at 1. rewrite print_emit.
  unfold bind at 1. rewrite (input_stripped_cons _ l rest) by exact Hin.
  replace (negb ((PyStr.strip l =? "1")%string || (PyStr.strip l =? "2")%string
                 || (PyStr.strip l =? "3")%string)) with false
    by (destruct Hc as [-> | [-> | ->]]; reflexivity).
  change (expenses (consume _)) with (expenses w). rewrite Hg.
  unfold bind at 1. rewrite print_emit.
  unfold bind at 1.
  rewrite (for_each_emit (fun ks => period_lines (snd ks)))
    by (intros [k s] w0 Hks; destruct (Hs k s Hks); now apply show_period_lines).
  rewrite print_emit, !consume_emit, !emit_emit.
  unfold summary_lines. rewrite <- ?app_assoc. reflexivity.
Qed.

Lemma keys_category_totals_from (es : list expense) (acc : PyDict.dict) (c : string) :
  In c (PyDict.keys (fold_left (fun d e => add_amount (category e) (amount e) d) es acc))
  <-> In c (PyDict.keys acc) \/ exists e, In e es /\ category e = c.
Proof.
  revert acc. induction es as [| e r IH]; intro acc; simpl.
  - split; [now left | intros [H | [e [[] _]]]; exact H].
  - rewrite IH. unfold add_amount. rewrite (keys_update String.eqb String.eqb_spec).
    split.
    + intros [[H | ->] | [e' [H1 H2]]];
        [now left | right; exists e; split; [now left | reflexivity] | ].
      right. exists e'. split; [now right | exact H2].
    + intros [H | [e' [[<- | H1] H2]]]; [left; now left | left; right; now symmetry |].
      right. now exists e'.
Qed.

(** The categories of [category_totals] are those of the expenses. *)
Lemma keys_category_totals (es : list expense) (c : string) :
  In c (PyDict.keys (category_totals es)) <-> exists e, In e es /\ category e = c.
Proof.
  unfold category_totals. rewrite keys_category_totals_from. simpl. tauto.
Qed.

Lemma two_distinct {A} (l : list A) :
  NoDup l -> ((1 < List.length l)%nat <-> exists a b, In a l /\ In b l /\ a <> b).
Proof.
  intro H. split.
  - destruct l as [| a [| b r]]; simpl; try lia. intros _.
    exists a, b. repeat split; [now left | right; now left |].
    inversion H as [| ? ? Ha _]; subst. intro E. apply Ha. subst. now left.
  - intros [a [b [Ha [Hb Hne]]]].
    destruct l as [| x [| y r]]; simpl in *; try lia; try tauto.
    destruct Ha as [<- | []], Hb as [<- | []]. congruence.
Qed.

Lemma top_categories_shown (s : summary) :
  In (Text "Top categories:") (period_lines s)
  <-> (1 < List.length (categories s))%nat.
Proof.
  unfold period_lines. rewrite in_app_iff.
  destruct (1 <? Z.of_nat (List.length (categories s))) eqn:E.
  - apply Z.ltb_lt in E. split; [lia | intros _; right; now left].
  - apply Z.ltb_ge in E. split; [| lia].
    intros [H | []]. simpl in H.
    destruct H as [H | [H | [H | [H | [H | []]]]]]; discriminate.
Qed.

Lemma members_in (choice key : string) (es : list expense) (e : expense) :
  In e (members choice key es) <-> In e es /\ period_key choice e = Some key.
Proof.
  unfold members. rewrite filter_In.
  destruct (period_key choice e) as [k |].
  - destruct (String.eqb_spec k key) as [E | E].
    + subst. tauto.
    + split; [intros [_ H]; discriminate | intros [_ [= H]]; contradiction].
  - split; intros [_ H]; discriminate.
Qed.

Lemma more_than_one_category (ms : list expense) :
  (1 < List.length (category_totals ms))%nat
  <-> exists e1 e2, In e1 ms /\ In e2 ms /\ category e1 <> category e2.
Proof.
  replace (List.length (category_totals ms))
    with (List.length (PyDict.keys (category_totals ms)))
    by (unfold PyDict.keys; apply length_map).
  rewrite (two_distinct _ (nodup_category_totals ms)). split.
  - intros [a [b [Ha [Hb Hne]]]].
    apply keys_category_totals in Ha as [e1 [H1 <-]].
    apply keys_category_totals in Hb as [e2 [H2 <-]].
    now exists e1, e2.
  - intros [e1 [e2 [H1 [H2 Hne]]]].
    exists (category e1), (category e2).
    repeat split; try assumption; apply keys_category_totals; eauto.
Qed.

(** ** The worked example of the monthly summary *)

Lemma periods_shown_skip (pre rest : list line) :
  forallb (fun l => negb (is_label l)) pre = true ->
  periods_shown (pre ++ rest) = periods_shown rest.
Proof.
  induction pre as [| x r IH]; simpl; [reflexivity |].
  intros [Hx Hr]%andb_prop. destruct x; try discriminate; exact (IH Hr).
Qed.

Lemma period_labels_app (a b : list line) :
  period_labels (a ++ b) = period_labels a ++ period_labels b.
Proof. unfold period_labels. apply flat_map_app. Qed.

Lemma period_labels_skip (pre : list line) :
  forallb (fun l => negb (is_label l)) pre = true -> period_labels pre = [].
Proof.
  induction pre as [| x r IH]; simpl; [reflexivity |].
  intros [Hx Hr]%andb_prop. rewrite (IH Hr). destruct x; try discriminate; reflexivity.
Qed.

Lemma period_tail_no_label (s : summary) :
  forallb (fun l => negb (is_label l))
    (if 1 <? Z.of_nat (List.length (categories s))
     then Text "Top categories:"
          :: map (fun ca => Top_row (fst ca) (snd ca) (snd ca / total s * 100)%Q)
                 (firstn 3 (by_amount_desc (categories s)))
     else []) = true.
Proof.
  destruct (1 <? Z.of_nat (List.length (categories s))); [| reflexivity].
  cbn [forallb is_label negb andb].
  induction (firstn 3 (by_amount_desc (categories s))) as [| x r IH];
    [reflexivity | exact IH].
Qed.

Lemma periods_shown_period (s : summary) (rest : list line) :
  periods_shown (period_lines s ++ rest)
  = (label s, total s, count s, (total s / inject_Z (count s))%Q) :: periods_shown rest.
Proof.
  unfold period_lines. rewrite <- app_assoc.
  change (periods_shown ([?a; ?b; ?c; ?d; ?e] ++ ?r))
    with (periods_shown (a :: b :: c :: d :: e :: r)).
  cbn [periods_shown app]. f_equal.
  apply periods_shown_skip, period_tail_no_label.
Qed.

Lemma period_labels_period (s : summary) : period_labels (period_lines s) = [label s].
Proof.
  unfold period_lines. rewrite period_labels_app.
  rewrite (period_labels_skip _ (period_tail_no_label s)).
  reflexivity.
Qed.

Lemma listed_before_labels (a b : string) (ls : list line) :
  listed_before a b ls -> exists p1 p2 p3, period_labels ls = p1 ++ a :: p2 ++ b :: p3.
Proof.
  intros [l1 [l2 [l3 ->]]].
  exists (period_labels l1), (period_labels l2), (period_labels l3).
  rewrite period_labels_app. simpl. rewrite period_labels_app. reflexivity.
Qed.

Lemma example_run (k1 k2 k3 : Z) (c1 c2 c3 t1 t2 t3 : string) (rest : list string) :
  let w := example_world (example_ledger k1 k2 k3 c1 c2 c3 t1 t2 t3) 4 ("2" :: rest) in
  generate_expense_summary w
  = (Return tt, emit (summary_lines (example_summaries c1 c2 c3)) (consume w)).
Proof.
  intro w.
  apply (generate_expense_summary_lines w "2" rest).
  - discriminate.
  - reflexivity.
  - right. now left.
  - reflexivity.
  - change (display_order (example_summaries c1 c2 c3))
      with [("2024-02", mksummary "2024 February" (0 + 5) (0 + 1) (add_amount c3 5 []));
            ("2024-01", mksummary "2024 January" (0 + 10 + 20) (0 + 1 + 1)
                                  (add_amount c2 20 (add_amount c1 10 [])))].
    intros k s [[= <- <-] | [[= <- <-] | []]]; split; discriminate.
Qed.

(** C3, as amended.  On the ledger of the example, with whatever IDs,
    categories and descriptions, the monthly summary shows exactly two
    periods: first February with total 5, count 1 and average 5, then
    January with total 30, count 2 and average 15. *)
Theorem monthly_summary_example (k1 k2 k3 : Z) (c1 c2 c3 t1 t2 t3 : string)
    (rest : list string) :
  let w := example_world (example_ledger k1 k2 k3 c1 c2 c3 t1 t2 t3) 4 ("2" :: rest) in
  let transcript := stdout (snd (generate_expense_summary w)) in
  fst (generate_expense_summary w) = Return tt /\
  exists average_february average_january,
    periods_shown transcript
    = [("2024 February", 5%Q, 1, average_february);
       ("2024 January", 30%Q, 2, average_january)] /\
    average_february == 5 /\
    average_january == 15 /\
    listed_before "2024 February" "2024 January" transcript.
Proof.
  intros w transcript. unfold transcript. unfold w. rewrite example_run.
  split; [reflexivity |].
  change (stdout (snd (Return tt, emit ?ls ?w0))) with ([] ++ ls).
  cbn [app].
  unfold summary_lines.
  change (display_order (example_summaries c1 c2 c3))
    with [("2024-02", mksummary "2024 February" (0 + 5) (0 + 1) (add_amount c3 5 []));
          ("2024-01", mksummary "2024 January" (0 + 10 + 20) (0 + 1 + 1)
                                (add_amount c2 20 (add_amount c1 10 [])))].
  cbn [flat_map snd]. rewrite app_nil_r.
  eexists _, _. split; [| split; [| split]].
  - rewrite periods_shown_skip by reflexivity.
    rewrite <- !app_assoc. rewrite !periods_shown_period. reflexivity.
  - reflexivity.
  - reflexivity.
  - exists [Text "=== Expense Summary ==="; Text "1. Weekly summary";
            Text "2. Monthly summary"; Text "3. Yearly summary"; Text (rule 80)].
    exists (tl (period_lines
                  (mksummary "2024 February" (0 + 5) (0 + 1) (add_amount c3 5 [])))).
    exists (tl (period_lines
                  (mksummary "2024 January" (0 + 10 + 20) (0 + 1 + 1)
                             (add_amount c2 20 (add_amount c1 10 []))))
            ++ [Text (rule 80)]).
    rewrite <- !app_assoc. reflexivity.
Qed.

(** C3, as stated, fails: January is not listed before February. *)
Lemma january_not_listed_first :
  let w := example_world (example_ledger 1 2 3 "Food" "Transport" "Food" "lunch" "train" "snack")
                         4 ["2"] in
  ~ listed_before "2024 January" "2024 February" (stdout (snd (generate_expense_summary w))).
Proof.
  intros w H. apply listed_before_labels in H as [p1 [p2 [p3 H]]].
  unfold w in H. rewrite example_run in H.
  change (stdout (snd (Return tt, emit ?ls ?w0))) with ([] ++ ls) in H.
  cbn [app] in H. unfold summary_lines in H.
  rewrite !period_labels_app in H.
  change (display_order (example_summaries "Food" "Transport" "Food"))
    with [("2024-02", mksummary "2024 February" (0 + 5) (0 + 1) (add_amount "Food" 5 []));
          ("2024-01", mksummary "2024 January" (0 + 10 + 20) (0 + 1 + 1)
                                (add_amount "Transport" 20 (add_amount "Food" 10 [])))] in H.
  cbn [flat_map snd] in H. rewrite !period_labels_app, !period_labels_period in H.
  cbn [period_labels flat_map app label] in H.
  destruct p1 as [| x [| y p1]]; simpl in H.
  - discriminate.
  - injection H as _ H. destruct p2; discriminate.
  - injection H as _ _ H. destruct p1; discriminate.
Qed.

(** * Part III: further properties of the program *)

(** ** Dates: what [strftime] writes, [strptime] reads *)

Lemma code_of_digit_char (d : Z) : 0 <= d < 10 -> PyStr.code (PyStr.digit_char d) = 48 + d.
Proof.
  intro H. unfold PyStr.code. rewrite code_digit_char by exact H. lia.
Qed.

Lemma is_digit_digit_char (d : Z) : 0 <= d < 10 -> PyStr.is_digit (PyStr.digit_char d) = true.
Proof.
  intro H. unfold PyStr.is_digit. rewrite code_of_digit_char by exact H. lia.
Qed.

Lemma digit_val_digit_char (d : Z) : 0 <= d < 10 -> PyStr.digit_val (PyStr.digit_char d) = d.
Proof.
  intro H. unfold PyStr.digit_val. rewrite code_of_digit_char by exact H. lia.
Qed.

Lemma read_Y_pad4 (y : Z) (r : string) :
  0 <= y < 10000 -> Calendar.read_Y (PyStr.pad4 y ++ r) = Some (y, r).
Proof.
  intro H. unfold PyStr.pad4, PyStr.pad2. simpl append. unfold Calendar.read_Y.
  rewrite !is_digit_digit_char by lia. rewrite !digit_val_digit_char by lia.
  simpl andb. cbv iota. do 2 f_equal. lia.
Qed.

Lemma read_m_pad2 (m : Z) (r : string) :
  1 <= m <= 12 -> Calendar.read_m (PyStr.pad2 m ++ r) = Some (m, r).
Proof. intro H. months m; reflexivity. Qed.

Lemma read_d_pad2 (d : Z) :
  1 <= d <= 31 -> Calendar.read_d (PyStr.pad2 d) = Some (d, EmptyString).
Proof.
  intro H.
  assert (Hd : In d (map Z.of_nat (seq 1 31))).
  { apply in_map_iff. exists (Z.to_nat d). split; [lia |]. apply in_seq. lia. }
  simpl in Hd.
  repeat (destruct Hd as [<- | Hd]; [reflexivity |]). destruct Hd.
Qed.

Lemma read_dash_cons (s : string) : Calendar.read_dash ("-" ++ s) = Some s.
Proof. reflexivity. Qed.

Lemma strptime_isoformat (d : Calendar.date) :
  Calendar.valid d = true -> Calendar.strptime (Calendar.isoformat d) = Some d.
Proof.
  intro Hv. pose proof Hv as [Hy [Hm Hd]]%valid_iff.
  pose proof (days_in_month_bounds (Calendar.year d) (Calendar.month d)) as Hb.
  unfold Calendar.isoformat, Calendar.fmt_Y, Calendar.fmt_m, Calendar.fmt_d.
  unfold Calendar.strptime. rewrite read_Y_pad4 by lia.
  rewrite read_dash_cons. rewrite read_m_pad2 by lia.
  rewrite read_dash_cons. rewrite read_d_pad2 by lia.
  destruct d as [y m dd]. simpl in *. now rewrite Hv.
Qed.

Lemma validate_date_isoformat (d : Calendar.date) :
  Calendar.valid d = true -> validate_date (Calendar.isoformat d) = true.
Proof. intro Hv. unfold validate_date. now rewrite strptime_isoformat. Qed.

(** ** Adding an expense *)

Lemma bind_print {B} (l : line) (k : unit -> M B) (w : world) :
  bind (print l) k w = k tt (emit [l] w).
Proof. reflexivity. Qed.

Lemma bind_ask {A B} (f : world -> A) (k : A -> M B) (w : world) :
  bind (ask f) k w = k (f w) w.
Proof. reflexivity. Qed.

Lemma bind_set_globals {B} (d : PyDict.dict) (c : Z) (k : unit -> M B) (w : world) :
  bind (set_globals d c) k w = k tt (with_ledger d c w).
Proof. reflexivity. Qed.

Lemma bind_input_stripped {B} (k : string -> M B) (w : world) (l : string) (rest : list string) :
  stdin w = l :: rest -> bind input_stripped k w = k (PyStr.strip l) (consume w).
Proof. intro H. unfold bind at 1. now rewrite (input_stripped_cons w l rest H). Qed.

Lemma bind_input_stripped_eof {B} (k : string -> M B) (w : world) :
  stdin w = [] -> bind input_stripped k w = (Raise EOFError, w).
Proof. intro H. unfold input_stripped, input, bind. now rewrite H. Qed.




Lemma validate_amount_refuses (float : string -> option Q) (s : string) :
  float s = None \/ (exists a, float s = Some a /\ Qle_bool a 0 = true) ->
  validate_amount float s = (false, 0%Q).
Proof.
  unfold validate_amount. intros [-> | [a [-> Ha]]]; [reflexivity | now rewrite Ha].
Qed.

Lemma validate_amount_passes (float : string -> option Q) (s : string) (a : Q) :
  float s = Some a -> Qle_bool a 0 = false -> validate_amount float s = (true, a).
Proof. intros H Ha. unfold validate_amount. now rewrite H, Ha. Qed.

(** X2.  [add_expense] stores nothing when the category is empty, when
    [float] raises [ValueError] on the amount or returns a number for which
    the guard [amount <= 0] holds, and when the amount has passed the guard
    and a date is given that [validate_date] refuses: it prints the error,
    returns, and leaves the ledger, the counter and the file as they are.
    The lines typed up to the error are used up, the later ones are not
    read.  The hypotheses on the amount are the tests of the source on what
    [float] returns, [amount <= 0] as it evaluates. *)
Theorem add_expense_rejects (float : string -> option Q) (w : world)
    (l1 l2 l3 : string) (rest : list string) :
  let heading := Text "=== Add New Expense ===" in
  (stdin w = l1 :: rest -> PyStr.strip l1 = "" ->
   add_expense float w
   = (Return tt, emit [heading; Text "Error: Category cannot be empty."] (consume w))) /\
  (stdin w = l1 :: l2 :: rest -> PyStr.strip l1 <> "" ->
   float (PyStr.strip l2) = None
   \/ (exists a, float (PyStr.strip l2) = Some a /\ Qle_bool a 0 = true) ->
   add_expense float w
   = (Return tt, emit [heading; Text "Error: Amount must be a positive number."]
                      (consume (consume w)))) /\
  (stdin w = l1 :: l2 :: l3 :: rest -> PyStr.strip l1 <> "" ->
   (exists a, float (PyStr.strip l2) = Some a /\ Qle_bool a 0 = false) ->
   PyStr.strip l3 <> "" -> validate_date (PyStr.strip l3) = false ->
   add_expense float w
   = (Return tt, emit [heading; Text "Error: Invalid date format. Use YYYY-MM-DD."]
                      (consume (consume (consume w))))).
Proof.
  intro heading. split; [| split].
  - intros Hin Hcat. unfold add_expense. rewrite bind_print.
    rewrite (bind_input_stripped _ _ l1 rest) by exact Hin.
    rewrite Hcat. cbn [String.eqb]. rewrite print_emit, consume_emit, emit_emit. reflexivity.
  - intros Hin Hcat Hamount. unfold add_expense. rewrite bind_print.
    rewrite (bind_input_stripped _ _ l1 (l2 :: rest)) by exact Hin.
    apply String.eqb_neq in Hcat. rewrite Hcat.
    rewrite (bind_input_stripped _ _ l2 rest) by (cbn; now rewrite Hin).
    rewrite (validate_amount_refuses float _ Hamount). cbn [negb].
    rewrite print_emit, !consume_emit, emit_emit. reflexivity.
  - intros Hin Hcat [a [Hfloat Ha]] Hdate Hbad. unfold add_expense. rewrite bind_print.
    rewrite (bind_input_stripped _ _ l1 (l2 :: l3 :: rest)) by exact Hin.
    apply String.eqb_neq in Hcat. rewrite Hcat.
    rewrite (bind_input_stripped _ _ l2 (l3 :: rest)) by (cbn; now rewrite Hin).
    rewrite (validate_amount_passes float _ a Hfloat Ha). cbn [negb].
    rewrite (bind_input_stripped _ _ l3 rest) by (cbn; now rewrite Hin).
    rewrite bind_ask.
    apply String.eqb_neq in Hdate. rewrite Hdate, Hbad. cbn [negb andb].
    rewrite print_emit, !consume_emit, emit_emit. reflexivity.
Qed.

Lemma add_expense_rejects_witness :
  let w := example_world [] 1 ["Food"; "-5"; "2024-01-05"; ""] in
  PyStr.strip "Food" <> "" /\
  (exists a, decimal_float (PyStr.strip "-5") = Some a /\ Qle_bool a 0 = true) /\
  expenses (snd (add_expense decimal_float w)) = [] /\
  expense_counter (snd (add_expense decimal_float w)) = 1.
Proof.
  intro w.
  assert (H1 : PyStr.strip "Food" <> "") by discriminate.
  assert (H2 : exists a, decimal_float (PyStr.strip "-5") = Some a /\ Qle_bool a 0 = true)
    by (exists (-5)%Q; split; reflexivity).
  split; [exact H1 |]. split; [exact H2 |].
  destruct (add_expense_rejects decimal_float w "Food" "-5" "" ["2024-01-05"; ""])
    as [_ [H _]].
  rewrite (H eq_refl H1 (or_intror H2)). split; reflexivity.
Defined.

Lemma save_expenses_returns (w : world) :
  save_expenses w
  = (Return tt,
     emit [if writable w then Saved else Save_error]
          (mkworld (expenses w) (expense_counter w)
                   (if writable w
                    then Some (JsonDoc (document (expenses w) (expense_counter w)))
                    else file w)
                   (readable w) (writable w) (plotting w) (today w) (stdin w) (stdout w))).
Proof.
  unfold save_expenses. destruct (writable w) eqn:E.
  - unfold bind, write_file, print, emit. cbn. now rewrite E.
  - unfold print, emit. cbn. now rewrite E.
Qed.






(** ** The ledger of a session holds checked expenses *)

Lemma inert_ret {A} (a : A) : inert (ret a).
Proof. intro w. split; reflexivity. Qed.

Lemma inert_raise {A} (e : exn) : inert (@raise A e).
Proof. intro w. split; reflexivity. Qed.

Lemma inert_ask {A} (f : world -> A) : inert (ask f).
Proof. intro w. split; reflexivity. Qed.

Lemma inert_print (l : line) : inert (print l).
Proof. intro w. split; reflexivity. Qed.

Lemma inert_input : inert input.
Proof. intro w. unfold input. destruct (stdin w); split; reflexivity. Qed.

Lemma inert_bind {A B} (m : M A) (k : A -> M B) :
  inert m -> (forall a, inert (k a)) -> inert (bind m k).
Proof.
  intros Hm Hk w. unfold bind. specialize (Hm w).
  destruct (m w) as [[a | e |] w1]; simpl in *; try exact Hm.
  destruct (Hk a w1) as [H1 H2]. destruct Hm as [H3 H4]. split; congruence.
Qed.

Lemma inert_try {A} (m handler : M A) (catches : exn -> bool) :
  inert m -> inert handler -> inert (try_except m catches handler).
Proof.
  intros Hm Hh w. unfold try_except. specialize (Hm w).
  destruct (m w) as [[a | e |] w1]; simpl in *; try exact Hm.
  destruct (catches e); [| exact Hm].
  destruct (Hh w1) as [H1 H2]. destruct Hm as [H3 H4]. split; congruence.
Qed.

Lemma inert_for_each {A} (xs : list A) (body : A -> M unit) :
  (forall x, inert (body x)) -> inert (for_each xs body).
Proof.
  intro H. induction xs as [| x r IH]; simpl.
  - apply inert_ret.
  - apply inert_bind; [apply H | intros _; exact IH].
Qed.

Lemma inert_divide (x y : Q) : inert (divide x y).
Proof. unfold divide. destruct (Qeq_bool y 0); [apply inert_raise | apply inert_ret]. Qed.

Lemma inert_input_stripped : inert input_stripped.
Proof. apply inert_bind; [apply inert_input | intro; apply inert_ret]. Qed.

Lemma inert_save : inert save_expenses.
Proof. intro w. rewrite save_expenses_returns. split; reflexivity. Qed.

Ltac inert_auto :=
  repeat lazymatch goal with
    | |- inert (bind _ _) => apply inert_bind; [| intro]
    | |- inert (ret _) => apply inert_ret
    | |- inert (raise _) => apply inert_raise
    | |- inert (ask _) => apply inert_ask
    | |- inert input_stripped => apply inert_input_stripped
    | |- inert input => apply inert_input
    | |- inert save_expenses => apply inert_save
    | |- inert (divide _ _) => apply inert_divide
    | |- inert (print _) => apply inert_print
    | |- inert (for_each _ _) => apply inert_for_each; intro
    | |- inert (if ?b then _ else _) => destruct b
    | |- inert (match ?x with _ => _ end) => destruct x
    end.

Lemma inert_show_period (s : summary) : inert (show_period s).
Proof. unfold show_period. inert_auto. Qed.

Lemma inert_view_all_expenses : inert view_all_expenses.
Proof. unfold view_all_expenses. inert_auto. Qed.

Lemma inert_filter_expenses_by_category : inert filter_expenses_by_category.
Proof. unfold filter_expenses_by_category, select_category. inert_auto. Qed.

Lemma inert_calculate_total_expenses : inert calculate_total_expenses.
Proof. unfold calculate_total_expenses. inert_auto. Qed.

Lemma inert_generate_expense_summary : inert generate_expense_summary.
Proof. unfold generate_expense_summary. inert_auto. apply inert_show_period. Qed.

Lemma inert_visualize_expenses : inert visualize_expenses.
Proof. unfold visualize_expenses, chart. inert_auto. Qed.

Lemma inert_display_menu : inert display_menu.
Proof. unfold display_menu. inert_auto. Qed.

Lemma checked_of_inert (t : Calendar.date) (d : PyDict.dict) {A} (m : M A) :
  inert m -> checked_step t d m.
Proof.
  intros H w Hd Ht. destruct (H w) as [H1 H2]. split; [left |]; congruence.
Qed.

Lemma checked_bind_inert (t : Calendar.date) (d : PyDict.dict) {A B}
    (m : M A) (k : A -> M B) :
  inert m -> (forall a, checked_step t d (k a)) -> checked_step t d (bind m k).
Proof.
  intros Hm Hk w Hd Ht. unfold bind. destruct (Hm w) as [H1 H2].
  destruct (m w) as [[a | e |] w1]; simpl in *;
    try (split; [left |]; congruence).
  apply Hk; congruence.
Qed.

Lemma checked_then_inert (t : Calendar.date) (d : PyDict.dict) {A B}
    (m : M A) (k : A -> M B) :
  checked_step t d m -> (forall a, inert (k a)) -> checked_step t d (bind m k).
Proof.
  intros Hm Hk w Hd Ht. unfold bind. specialize (Hm w Hd Ht).
  destruct (m w) as [[a | e |] w1]; simpl in *; try exact Hm.
  destruct (Hk a w1) as [H1 H2]. rewrite H1, H2. exact Hm.
Qed.

Lemma checked_try (t : Calendar.date) (d : PyDict.dict) {A} (m handler : M A)
    (catches : exn -> bool) :
  checked_step t d m -> inert handler -> checked_step t d (try_except m catches handler).
Proof.
  intros Hm Hh w Hd Ht. unfold try_except. specialize (Hm w Hd Ht).
  destruct (m w) as [[a | e |] w1]; simpl in *; try exact Hm.
  destruct (catches e); [| exact Hm].
  destruct (Hh w1) as [H1 H2]. rewrite H1, H2. exact Hm.
Qed.

Lemma checked_store (t : Calendar.date) (d : PyDict.dict) (e : expense) :
  checked_expense e ->
  checked_step t d
    (d0 <- ask expenses ;;
     c <- ask expense_counter ;;
     set_globals (PyDict.set Z.eqb c e d0) c ;;;
     print (Added c) ;;;
     set_globals (PyDict.set Z.eqb c e d0) (c + 1) ;;;
     save_expenses).
Proof.
  intros He w Hd Ht.
  rewrite !bind_ask, bind_set_globals, bind_print, bind_set_globals.
  rewrite save_expenses_returns.
  cbn [snd expenses today emit with_ledger]. split; [| exact Ht].
  right. right. exists (expense_counter w), e. split; [exact He | now rewrite Hd].
Qed.

Lemma checked_remove (t : Calendar.date) (d : PyDict.dict) (id : Z) :
  checked_step t d
    (c <- ask expense_counter ;;
     set_globals (PyDict.del Z.eqb id d) c ;;;
     print Deleted ;;;
     save_expenses).
Proof.
  intros w Hd Ht.
  rewrite !bind_ask, bind_set_globals, bind_print.
  rewrite save_expenses_returns.
  cbn [snd expenses today emit with_ledger]. split; [| exact Ht].
  right. left. now exists id.
Qed.

Lemma checked_ask_today (t : Calendar.date) (d : PyDict.dict) {B} (k : Calendar.date -> M B) :
  checked_step t d (k t) -> checked_step t d (bind (ask today) k).
Proof. intros H w Hd Ht. rewrite bind_ask, Ht. now apply H. Qed.

Lemma title_not_empty (s : string) : s <> "" -> PyStr.title s <> "".
Proof. destruct s; [congruence | discriminate]. Qed.

Lemma add_expense_checked (float : string -> option Q) (t : Calendar.date) (d : PyDict.dict) :
  Calendar.valid t = true -> checked_step t d (add_expense float).
Proof.
  intro Hvalid. unfold add_expense.
  apply checked_bind_inert; [inert_auto | intros _].
  apply checked_bind_inert; [inert_auto | intro cat].
  destruct (String.eqb_spec cat "") as [Ecat | Ecat];
    [apply checked_of_inert; inert_auto |].
  apply checked_bind_inert; [inert_auto | intro amount_input].
  destruct (validate_amount float amount_input) as [is_valid a] eqn:Ea.
  destruct is_valid; cbn [negb]; [| apply checked_of_inert; inert_auto].
  assert (Ha : Qle_bool a 0 = false).
  { unfold validate_amount in Ea. destruct (float amount_input) as [a' |]; [| discriminate].
    destruct (Qle_bool a' 0) eqn:Ele; [discriminate |]. now injection Ea as <-. }
  apply checked_bind_inert; [inert_auto | intro date_input].
  apply checked_ask_today.
  destruct (String.eqb_spec date_input "") as [Edate | Edate]; cbn [negb andb].
  - apply checked_bind_inert; [inert_auto | intro descr].
    apply checked_store. split; [now apply title_not_empty |]. split; [exact Ha |].
    now apply validate_date_isoformat.
  - destruct (validate_date date_input) eqn:Ev; cbn [negb].
    + apply checked_bind_inert; [inert_auto | intro descr].
      apply checked_store. split; [now apply title_not_empty |].
      split; [exact Ha | exact Ev].
    + apply checked_of_inert. inert_auto.
Qed.

Lemma delete_expense_checked (t : Calendar.date) (w : world) :
  today w = t ->
  checked_change (expenses w) (expenses (snd (delete_expense w))) /\
  today (snd (delete_expense w)) = t.
Proof.
  enough (H : forall d, checked_step t d
    (if is_empty d then print (Text "No expenses to delete.")
     else
       print (Text "=== Delete Expense ===") ;;;
       view_all_expenses ;;;
       try_except
         (id_text <- input_stripped ;;
          match PyStr.int id_text with
          | Some exp_id =>
              match PyDict.get Z.eqb exp_id d with
              | Some e =>
                  print (Text "Expense to delete:") ;;;
                  print (Detail_date (date e)) ;;;
                  print (Detail_category (category e)) ;;;
                  print (Detail_amount (amount e)) ;;;
                  print (Detail_description (description e)) ;;;
                  answer <- input_stripped ;;
                  let confirm := PyStr.lower answer in
                  if (confirm =? "yes")%string || (confirm =? "y")%string
                  then
                    c <- ask expense_counter ;;
                    set_globals (PyDict.del Z.eqb exp_id d) c ;;;
                    print Deleted ;;;
                    save_expenses
                  else print (Text "Deletion cancelled.")
              | None => print (Not_found exp_id)
              end
          | None => raise ValueError
          end)
         is_value_error
         (print (Text "Error: Please enter a valid expense ID (number)."))))
    by exact (H (expenses w) w eq_refl).
  intro d.
  destruct (is_empty d); [apply checked_of_inert; inert_auto |].
  apply checked_bind_inert; [inert_auto | intros _].
  apply checked_bind_inert; [apply inert_view_all_expenses | intros _].
  apply checked_try; [| inert_auto].
  apply checked_bind_inert; [inert_auto | intro id_text].
  destruct (PyStr.int id_text) as [exp_id |]; [| apply checked_of_inert; inert_auto].
  destruct (PyDict.get Z.eqb exp_id d) as [e |]; [| apply checked_of_inert; inert_auto].
  do 5 (apply checked_bind_inert; [inert_auto | intros _]).
  apply checked_bind_inert; [inert_auto | intro answer].
  cbv zeta.
  destruct ((PyStr.lower answer =? "yes")%string || (PyStr.lower answer =? "y")%string).
  - apply checked_remove.
  - apply checked_of_inert; inert_auto.
Qed.

Lemma menu_turn_checked (float : string -> option Q) (t : Calendar.date) (d : PyDict.dict) :
  Calendar.valid t = true -> checked_step t d (menu_turn float).
Proof.
  intro Hvalid. unfold menu_turn.
  apply checked_bind_inert; [apply inert_display_menu | intros _].
  apply checked_bind_inert; [inert_auto | intro choice].
  destruct (choice =? "8")%string; [apply checked_of_inert; inert_auto |].
  apply checked_then_inert; [| intros _; inert_auto].
  destruct (choice =? "1")%string; [now apply add_expense_checked |].
  destruct (choice =? "2")%string; [apply checked_of_inert, inert_view_all_expenses |].
  destruct (choice =? "3")%string;
    [apply checked_of_inert, inert_filter_expenses_by_category |].
  destruct (choice =? "4")%string; [apply checked_of_inert, inert_calculate_total_expenses |].
  destruct (choice =? "5")%string;
    [intros w0 Hd Ht; rewrite <- Hd; now apply delete_expense_checked |].
  destruct (choice =? "6")%string; [apply checked_of_inert, inert_generate_expense_summary |].
  destruct (choice =? "7")%string; [apply checked_of_inert, inert_visualize_expenses |].
  apply checked_of_inert. inert_auto.
Qed.

Lemma forall_values_set {V} (P : V -> Prop) (k : Z) (v : V) (d : PyDict.dict (K := Z) (V := V)) :
  P v -> Forall P (PyDict.values d) -> Forall P (PyDict.values (PyDict.set Z.eqb k v d)).
Proof.
  intros Hv. induction d as [| [k' v'] r IH]; simpl; intro H.
  - now repeat constructor.
  - inversion H; subst. destruct (k =? k'); simpl; constructor; auto.
Qed.

Lemma forall_values_del {V} (P : V -> Prop) (k : Z) (d : PyDict.dict (K := Z) (V := V)) :
  Forall P (PyDict.values d) -> Forall P (PyDict.values (PyDict.del Z.eqb k d)).
Proof.
  induction d as [| [k' v'] r IH]; simpl; intro H; [constructor |].
  inversion H; subst. destruct (k =? k'); simpl; [auto | constructor; auto].
Qed.

Lemma nodup_del {V} (k : Z) (d : PyDict.dict (K := Z) (V := V)) :
  NoDup (PyDict.keys d) -> NoDup (PyDict.keys (PyDict.del Z.eqb k d)).
Proof.
  induction d as [| [k' v'] r IH]; simpl; intro H; [constructor |].
  inversion H; subst. destruct (k =? k'); simpl; [auto |].
  constructor; [| auto]. intro Hin. apply keys_del_subset in Hin. tauto.
Qed.

Lemma checked_change_keeps (w w' : world) :
  checked_ledger w -> today w' = today w ->
  checked_change (expenses w) (expenses w') -> checked_ledger w'.
Proof.
  intros [Hv [Hy [Hnd Hall]]] Ht H. unfold checked_ledger. rewrite Ht.
  split; [exact Hv |]. split; [exact Hy |].
  destruct H as [-> | [[id ->] | [k [e [He ->]]]]].
  - now split.
  - split; [now apply nodup_del | now apply forall_values_del].
  - split; [now apply (nodup_set Z.eqb Z.eqb_spec) | now apply forall_values_set].
Qed.

(** X5.  What [add_expense] checks is an invariant of a session: when the
    ledger has pairwise distinct IDs and every expense in it has a category
    that is not empty, an amount that has passed the guard of
    [validate_amount] ([amount <= 0] is false of it) and a date that
    [validate_date] accepts, the same holds after every turn of the menu,
    whatever is typed.  Nothing but the checks of [add_expense] lets an
    expense in, and an empty date is replaced by the date of today, which
    [validate_date] accepts when the year of the clock has four digits. *)
Theorem session_keeps_checked_ledger (float : string -> option Q)
    (w1 : world) (deleted : list Z) (w : world) :
  session float w1 deleted w -> checked_ledger w1 ->
  checked_ledger w /\
  (forall result w', menu_turn float w = (result, w') -> checked_ledger w').
Proof.
  intros Hs H1.
  assert (Hturn : forall w0 result w', checked_ledger w0 ->
                    menu_turn float w0 = (result, w') -> checked_ledger w').
  { intros w0 result w' H0 Hrun.
    destruct (menu_turn_checked float (today w0) (expenses w0) (proj1 H0) w0 eq_refl eq_refl)
      as [Hc Ht].
    rewrite Hrun in Hc, Ht. apply (checked_change_keeps w0 w' H0 Ht Hc). }
  assert (Hw : checked_ledger w).
  { induction Hs as [| deleted w w' Hs IH Hrun]; [exact H1 |].
    exact (Hturn w (Return true) w' IH Hrun). }
  split; [exact Hw |]. intros result w'. now apply Hturn.
Qed.

Lemma session_keeps_checked_ledger_witness :
  let w1 := snd (startup (add_after_load None)) in
  let w2 := snd (menu_turn decimal_float w1) in
  checked_ledger w1 /\ checked_ledger w2 /\
  PyDict.values (expenses w2) = [mkexpense "Food" (125 # 10) "2024-02-01" "dinner"].
Proof.
  intros w1 w2.
  assert (H1 : checked_ledger w1).
  { split; [reflexivity |]. split; [discriminate |]. split; constructor. }
  assert (Hrun : menu_turn decimal_float w1 = (Return true, w2))
    by (vm_compute; reflexivity).
  split; [exact H1 |].
  split; [| vm_compute; reflexivity].
  exact (proj1 (session_keeps_checked_ledger decimal_float w1 _ w2
                  (session_turn decimal_float w1 [] w1 w2 (session_start _ _) Hrun) H1)).
Defined.

(** ** The order of the rows that are shown *)

Section KeyOrder.
Context {A : Type} (key : A -> string).

Lemma insert_newest_first_sorted (x : A) (l : list A) :
  StronglySorted (fun a b => String.ltb (key a) (key b) = false) l ->
  StronglySorted (fun a b => String.ltb (key a) (key b) = false)
                 (PyDict.insert (fun y x => String.ltb (key x) (key y)) x l).
Proof.
  induction 1 as [| y r Hr IH Hy]; cbn [PyDict.insert].
  - repeat constructor.
  - destruct (String.ltb (key x) (key y)) eqn:E.
    + constructor; [exact IH |].
      apply Forall_forall. intros z Hz.
      apply (Permutation_in _ (insert_perm _ x r)) in Hz.
      destruct Hz as [<- | Hz].
      * destruct (String.ltb (key y) (key x)) eqn:E'; [| reflexivity].
        apply ltb_compare in E, E'. rewrite String.compare_antisym, E' in E. discriminate.
      * rewrite Forall_forall in Hy. now apply Hy.
    + constructor; [now constructor |].
      constructor; [exact E |].
      apply Forall_forall. intros z Hz. rewrite Forall_forall in Hy.
      exact (ltb_false_trans _ _ _ E (Hy z Hz)).
Qed.

Lemma sorted_newest_first (l : list A) :
  StronglySorted (fun a b => String.ltb (key a) (key b) = false)
                 (PyDict.sorted (fun y x => String.ltb (key x) (key y)) l).
Proof.
  unfold PyDict.sorted.
  induction l as [| x r IH]; simpl; [constructor | now apply insert_newest_first_sorted].
Qed.

Lemma filter_insert_newest_first (k : string) (x : A) (l : list A) :
  filter (fun a => String.eqb (key a) k)
         (PyDict.insert (fun y x => String.ltb (key x) (key y)) x l)
  = filter (fun a => String.eqb (key a) k) (x :: l).
Proof.
  induction l as [| y r IH]; [reflexivity |].
  cbn [PyDict.insert].
  destruct (String.ltb (key x) (key y)) eqn:E; [| reflexivity].
  cbn [filter] in *. rewrite IH.
  destruct (String.eqb_spec (key x) k) as [Ex | Ex]; [| reflexivity].
  destruct (String.eqb_spec (key y) k) as [Ey | Ey]; [| reflexivity].
  apply ltb_compare in E. rewrite Ex, Ey in E.
  assert (H : String.compare k k = Eq) by now apply OrderedTypeEx.String_as_OT.cmp_eq.
  congruence.
Qed.

Lemma filter_sorted_newest_first (k : string) (l : list A) :
  filter (fun a => String.eqb (key a) k)
         (PyDict.sorted (fun y x => String.ltb (key x) (key y)) l)
  = filter (fun a => String.eqb (key a) k) l.
Proof.
  unfold PyDict.sorted. induction l as [| x r IH]; [reflexivity |].
  cbn [fold_right]. rewrite filter_insert_newest_first. cbn [filter]. now rewrite IH.
Qed.

End KeyOrder.

Lemma toordinal_lt_day (d d' : Calendar.date) :
  Calendar.year d = Calendar.year d' -> Calendar.month d = Calendar.month d' ->
  Calendar.day d < Calendar.day d' -> Calendar.toordinal d < Calendar.toordinal d'.
Proof. intros E1 E2 H. unfold Calendar.toordinal. rewrite E1, E2. lia. Qed.

(** Dates in the form that [strftime] writes compare as text the way the
    days compare. *)
Lemma isoformat_compare (a b : Calendar.date) :
  Calendar.valid a = true -> Calendar.valid b = true ->
  String.compare (Calendar.isoformat a) (Calendar.isoformat b)
  = (Calendar.toordinal a ?= Calendar.toordinal b).
Proof.
  intros Ha Hb.
  pose proof Ha as [Hy [Hm Hd]]%valid_iff. pose proof Hb as [Hy' [Hm' Hd']]%valid_iff.
  pose proof (days_in_month_bounds (Calendar.year a) (Calendar.month a)).
  pose proof (days_in_month_bounds (Calendar.year b) (Calendar.month b)).
  unfold Calendar.isoformat, Calendar.fmt_Y, Calendar.fmt_m, Calendar.fmt_d.
  rewrite compare_pad4 by lia.
  destruct (Z.compare_spec (Calendar.year a) (Calendar.year b)) as [Ey | Ey | Ey].
  - rewrite (compare_prefix "-"), compare_pad2 by lia.
    destruct (Z.compare_spec (Calendar.month a) (Calendar.month b)) as [Em | Em | Em].
    + rewrite (compare_prefix "-").
      rewrite <- (append_nil_r (PyStr.pad2 (Calendar.day a))).
      rewrite <- (append_nil_r (PyStr.pad2 (Calendar.day b))).
      rewrite compare_pad2 by lia.
      destruct (Z.compare_spec (Calendar.day a) (Calendar.day b)) as [Ed | Ed | Ed].
      * symmetry. apply Z.compare_eq_iff. unfold Calendar.toordinal. now rewrite Ey, Em, Ed.
      * symmetry. apply Z.compare_lt_iff. now apply toordinal_lt_day.
      * symmetry. apply Z.compare_gt_iff. now apply toordinal_lt_day.
    + symmetry. apply Z.compare_lt_iff. now apply toordinal_lt_month.
    + symmetry. apply Z.compare_gt_iff. now apply toordinal_lt_month.
  - symmetry. apply Z.compare_lt_iff. now apply toordinal_lt_year.
  - symmetry. apply Z.compare_gt_iff. now apply toordinal_lt_year.
Qed.

(** X6.  [view_all_expenses] prints one row for every expense of the
    ledger, no more and no fewer, with the date texts falling from row to
    row; expenses of the same date keep the order of the ledger.  For dates
    in the form that the program itself writes for today, zero-padded
    [YYYY-MM-DD], the falling order of the texts is the order of the days:
    a row above another is not of an earlier day. *)
Theorem view_all_expenses_order (w : world) :
  let rows := by_date_desc (expenses w) in
  let row := fun ke => View_row (fst ke) (date (snd ke)) (category (snd ke))
                                (amount (snd ke)) (description (snd ke)) in
  view_all_expenses w = (Return tt, emit (view_lines (expenses w)) w) /\
  filter (fun l => match l with View_row _ _ _ _ _ => true | _ => false end)
         (view_lines (expenses w)) = map row rows /\
  Permutation rows (expenses w) /\
  (forall l1 l2 l3 x y, rows = l1 ++ x :: l2 ++ y :: l3 ->
     String.ltb (date (snd x)) (date (snd y)) = false /\
     forall a b, Calendar.valid a = true -> Calendar.valid b = true ->
       date (snd x) = Calendar.isoformat a -> date (snd y) = Calendar.isoformat b ->
       Calendar.toordinal b <= Calendar.toordinal a) /\
  (forall dt, filter (fun ke => String.eqb (date (snd ke)) dt) rows
              = filter (fun ke => String.eqb (date (snd ke)) dt) (expenses w)).
Proof.
  intros rows row.
  split; [apply view_all_expenses_lines |].
  split; [| split; [apply sorted_perm | split]].
  - unfold view_lines. destruct (expenses w) as [| ke r] eqn:E.
    + reflexivity.
    + cbn [is_empty]. rewrite !filter_app. cbn [filter app].
      rewrite app_nil_r. fold rows. fold row.
      induction rows as [| x xs IH]; [reflexivity |].
      cbn [map filter]. unfold row at 1. now rewrite IH.
  - intros l1 l2 l3 x y Hrows.
    assert (Hs : StronglySorted (fun x y : Z * expense =>
                                   String.ltb (date (snd x)) (date (snd y)) = false) rows)
      by apply (sorted_newest_first (fun ke : Z * expense => date (snd ke))).
    rewrite Hrows in Hs.
    apply strongly_sorted_split in Hs. split; [exact Hs |].
    intros a b Ha Hb Ex Ey. rewrite Ex, Ey in Hs.
    destruct (Z.compare_spec (Calendar.toordinal a) (Calendar.toordinal b)) as [C | C | C];
      try lia.
    apply Z.compare_lt_iff in C. rewrite <- isoformat_compare in C by assumption.
    apply ltb_compare in C. congruence.
  - intro dt.
    apply (filter_sorted_newest_first (fun ke : Z * expense => date (snd ke))).
Qed.

Lemma view_all_expenses_order_witness :
  let w := example_world (example_ledger 1 2 3 "Food" "Rent" "Food" "a" "b" "c") 4 [] in
  by_date_desc (expenses w) = [(3, mkexpense "Food" 5 "2024-02-01" "c");
                               (2, mkexpense "Rent" 20 "2024-01-20" "b");
                               (1, mkexpense "Food" 10 "2024-01-05" "a")] /\
  Calendar.toordinal (Calendar.mkdate 2024 1 20) <= Calendar.toordinal (Calendar.mkdate 2024 2 1).
Proof.
  intro w.
  assert (Hrows : by_date_desc (expenses w)
                  = [] ++ (3, mkexpense "Food" 5 "2024-02-01" "c")
                       :: [] ++ (2, mkexpense "Rent" 20 "2024-01-20" "b")
                       :: [(1, mkexpense "Food" 10 "2024-01-05" "a")]) by reflexivity.
  split; [exact Hrows |].
  destruct (view_all_expenses_order w) as [_ [_ [_ [H _]]]].
  destruct (H _ _ _ _ _ Hrows) as [_ Hdays].
  exact (Hdays (Calendar.mkdate 2024 2 1) (Calendar.mkdate 2024 1 20)
               eq_refl eq_refl eq_refl eq_refl).
Defined.

(** ** Filtering by the name of a category *)

Lemma to_lower_idem (c : ascii) : PyStr.to_lower (PyStr.to_lower c) = PyStr.to_lower c.
Proof. destruct c as [[] [] [] [] [] [] [] []]; reflexivity. Qed.

Lemma to_upper_idem (c : ascii) : PyStr.to_upper (PyStr.to_upper c) = PyStr.to_upper c.
Proof. destruct c as [[] [] [] [] [] [] [] []]; reflexivity. Qed.

Lemma to_upper_to_lower (c : ascii) : PyStr.to_upper (PyStr.to_lower c) = PyStr.to_upper c.
Proof. destruct c as [[] [] [] [] [] [] [] []]; reflexivity. Qed.

Lemma is_cased_to_lower (c : ascii) : PyStr.is_cased (PyStr.to_lower c) = PyStr.is_cased c.
Proof. destruct c as [[] [] [] [] [] [] [] []]; reflexivity. Qed.

Lemma is_cased_to_upper (c : ascii) : PyStr.is_cased (PyStr.to_upper c) = PyStr.is_cased c.
Proof. destruct c as [[] [] [] [] [] [] [] []]; reflexivity. Qed.

Lemma title_from_lower (b : bool) (s : string) :
  PyStr.title_from b (PyStr.lower s) = PyStr.title_from b s.
Proof.
  revert b. induction s as [| c r IH]; intro b; simpl; [reflexivity |].
  rewrite is_cased_to_lower, IH.
  destruct b; [now rewrite to_lower_idem | now rewrite to_upper_to_lower].
Qed.

Lemma title_from_idem (b : bool) (s : string) :
  PyStr.title_from b (PyStr.title_from b s) = PyStr.title_from b s.
Proof.
  revert b. induction s as [| c r IH]; intro b; simpl; [reflexivity |].
  destruct b.
  - now rewrite is_cased_to_lower, to_lower_idem, IH.
  - now rewrite is_cased_to_upper, to_upper_idem, IH.
Qed.

Lemma in_category_spec (c : string) (d : PyDict.dict) (ke : Z * expense) :
  In ke (in_category c d) <-> In ke d /\ category (snd ke) = c.
Proof.
  unfold in_category. rewrite filter_In.
  destruct (String.eqb_spec (category (snd ke)) c); intuition congruence.
Qed.

Lemma filter_expenses_by_category_selected (w : world) (l : string) (rest : list string)
    (c : string) :
  expenses w <> [] -> stdin w = l :: rest ->
  (forall w', select_category (sorted_categories (expenses w)) (PyStr.strip l) w'
              = (Return (Some c), w')) ->
  filter_expenses_by_category w
  = (Return tt,
     emit (category_menu (expenses w) ++ category_lines c (expenses w)) (consume w)).
Proof.
  intros Hne Hin Hsel.
  unfold filter_expenses_by_category, bind at 1, ask.
  assert (Hemp : is_empty (expenses w) = false)
    by (destruct (expenses w); [congruence | reflexivity]).
  rewrite Hemp.
  unfold bind at 1. rewrite print_emit.
  unfold bind at 1. rewrite print_emit.
  unfold bind at 1. rewrite for_each_print.
  unfold bind at 1. rewrite (input_stripped_cons _ l rest) by exact Hin.
  unfold bind at 1. rewrite Hsel.
  rewrite !consume_emit, !emit_emit.
  change ([Text "=== Filter by Category ==="] ++ [Text "Available categories:"]
          ++ map (fun ic => Category_option (fst ic) (snd ic))
                 (enumerate 1 (sorted_categories (expenses w))))
    with (category_menu (expenses w)).
  unfold category_lines.
  destruct (is_empty (in_category _ _)).
  - rewrite print_emit, emit_emit. reflexivity.
  - repeat (unfold bind at 1; rewrite print_emit).
    unfold bind at 1. rewrite for_each_print.
    unfold bind at 1. rewrite print_emit. rewrite print_emit.
    rewrite !emit_emit. rewrite <- ?app_assoc. reflexivity.
Qed.

(** X7.  A choice in ASCII text that is not made of digits is taken as a
    name, in title case.  [filter_expenses_by_category] then shows exactly
    the expenses of the ledger whose category is that name, and the total
    it prints is their amounts added one by one, from 0, in the order of
    the rows; with no
    such expense it says that none was found.  The letter case of what is
    typed does not matter, and a name typed as [add_expense] stored it
    stands for itself. *)
Theorem filter_by_name (w : world) (l : string) (rest : list string) :
  expenses w <> [] -> stdin w = l :: rest ->
  PyStr.is_ascii l = true ->
  PyStr.isdigit (PyStr.strip l) = false ->
  let c := PyStr.title (PyStr.strip l) in
  let d := expenses w in
  let shown := by_date_desc (in_category c d) in
  filter_expenses_by_category w
  = (Return tt, emit (category_menu d ++ category_lines c d) (consume w)) /\
  (forall ke, In ke shown <-> In ke d /\ category (snd ke) = c) /\
  ((forall ke, In ke d -> category (snd ke) <> c) -> category_lines c d = [No_match c]) /\
  (forall ke, In ke d -> category (snd ke) = c ->
     In (Filter_total c (fold_left Qplus (map (fun ke => amount (snd ke)) shown) 0%Q))
        (category_lines c d)) /\
  (forall l', PyStr.is_ascii l' = true ->
              PyStr.lower (PyStr.strip l') = PyStr.lower (PyStr.strip l) ->
              PyStr.title (PyStr.strip l') = c) /\
  PyStr.title c = c.
Proof.
  intros Hne Hin Hascii Hdig c d shown.
  split; [| split; [| split; [| split; [| split]]]].
  - apply (filter_expenses_by_category_selected w l rest c Hne Hin).
    intro w'. unfold select_category. now rewrite Hdig.
  - intro ke. unfold shown, by_date_desc. rewrite sorted_in. apply in_category_spec.
  - intro Hnone. unfold category_lines.
    destruct (in_category c d) as [| ke r] eqn:E; [reflexivity |].
    exfalso. apply (Hnone ke); apply (in_category_spec c d ke); rewrite E; now left.
  - intros ke Hke Hc. unfold category_lines.
    destruct (in_category c d) as [| ke' r] eqn:E.
    + exfalso. assert (H : In ke (in_category c d)) by now apply in_category_spec.
      rewrite E in H. destruct H.
    + cbn [is_empty]. apply in_or_app. right. apply in_or_app. right.
      right. left. reflexivity.
  - intros l' _ Hl. unfold c, PyStr.title.
    rewrite <- (title_from_lower false (PyStr.strip l')), Hl. apply title_from_lower.
  - apply title_from_idem.
Qed.

Lemma filter_by_name_witness :
  let w := example_world (example_ledger 1 2 3 "Food" "Rent" "Food" "a" "b" "c") 4 [" fOOd "] in
  expenses w <> [] /\ PyStr.is_ascii " fOOd " = true /\
  PyStr.isdigit (PyStr.strip " fOOd ") = false /\
  by_date_desc (in_category "Food" (expenses w))
  = [(3, mkexpense "Food" 5 "2024-02-01" "c"); (1, mkexpense "Food" 10 "2024-01-05" "a")] /\
  In (Filter_total "Food" 15) (stdout (snd (filter_expenses_by_category w))).
Proof.
  intro w.
  assert (H1 : expenses w <> []) by discriminate.
  assert (H2 : PyStr.isdigit (PyStr.strip " fOOd ") = false) by reflexivity.
  assert (H3 : PyStr.is_ascii " fOOd " = true) by reflexivity.
  split; [exact H1 |]. split; [exact H3 |]. split; [exact H2 |]. split; [reflexivity |].
  destruct (filter_by_name w " fOOd " [] H1 eq_refl H3 H2) as [Hrun [_ [_ [Htotal _]]]].
  rewrite Hrun. cbn [snd stdout emit consume]. apply in_or_app. right.
  apply in_or_app. right.
  exact (Htotal (1, mkexpense "Food" 10 "2024-01-05" "a") (or_introl eq_refl) eq_refl).
Defined.

(** ** Deleting: what is typed instead of an ID *)

Lemma delete_expense_asks (w : world) :
  expenses w <> [] ->
  delete_expense w
  = try_except
      (id_text <- input_stripped ;;
       match PyStr.int id_text with
       | Some exp_id =>
           match PyDict.get Z.eqb exp_id (expenses w) with
           | Some e =>
               print (Text "Expense to delete:") ;;;
               print (Detail_date (date e)) ;;;
               print (Detail_category (category e)) ;;;
               print (Detail_amount (amount e)) ;;;
               print (Detail_description (description e)) ;;;
               answer <- input_stripped ;;
               let confirm := PyStr.lower answer in
               if (confirm =? "yes")%string || (confirm =? "y")%string
               then
                 c <- ask expense_counter ;;
                 set_globals (PyDict.del Z.eqb exp_id (expenses w)) c ;;;
                 print Deleted ;;;
                 save_expenses
               else print (Text "Deletion cancelled.")
           | None => print (Not_found exp_id)
           end
       | None => raise ValueError
       end)
      is_value_error
      (print (Text "Error: Please enter a valid expense ID (number)."))
      (emit (delete_menu (expenses w)) w).
Proof.
  intro Hne.
  assert (Hemp : is_empty (expenses w) = false)
    by (destruct (expenses w); [congruence | reflexivity]).
  unfold delete_expense, bind at 1, ask. rewrite Hemp.
  unfold bind at 1. rewrite print_emit.
  unfold bind at 1. rewrite view_all_expenses_lines, emit_emit. reflexivity.
Qed.

(** X8.  In [delete_expense], text that [int] does not read as a number is
    caught: the error line is printed and the call returns with the ledger,
    the counter and the file as they were.  The end of the input is not
    caught: at the prompt for the ID and at the prompt for the confirmation
    [EOFError] leaves the function, and nothing has been deleted. *)
Theorem delete_expense_bad_input (w : world) :
  expenses w <> [] ->
  let d := expenses w in
  (forall l rest, stdin w = l :: rest -> PyStr.int (PyStr.strip l) = None ->
     delete_expense w
     = (Return tt,
        emit (delete_menu d ++ [Text "Error: Please enter a valid expense ID (number)."])
             (consume w))) /\
  (stdin w = [] -> delete_expense w = (Raise EOFError, emit (delete_menu d) w)) /\
  (forall l id e, stdin w = [l] -> PyStr.int (PyStr.strip l) = Some id ->
     PyDict.get Z.eqb id d = Some e ->
     delete_expense w = (Raise EOFError, emit (delete_menu d ++ details e) (consume w))).
Proof.
  intros Hne d. split; [| split].
  - intros l rest Hin Hint. rewrite (delete_expense_asks w Hne).
    unfold try_except. rewrite (bind_input_stripped _ _ l rest) by exact Hin.
    rewrite Hint. cbn [raise is_value_error].
    rewrite print_emit, consume_emit, emit_emit. reflexivity.
  - intro Hin. rewrite (delete_expense_asks w Hne).
    unfold try_except. rewrite bind_input_stripped_eof by exact Hin. reflexivity.
  - intros l id e Hin Hint Hget. rewrite (delete_expense_asks w Hne).
    unfold try_except. rewrite (bind_input_stripped _ _ l []) by exact Hin.
    rewrite Hint. fold d. rewrite Hget.
    rewrite !bind_print.
    rewrite bind_input_stripped_eof by (cbn; now rewrite Hin).
    cbn [is_value_error]. rewrite !emit_emit, consume_emit, emit_emit. reflexivity.
Qed.

Lemma delete_expense_bad_input_witness :
  let w := example_world digit_ledger 2 ["one"] in
  expenses w <> [] /\ PyStr.int (PyStr.strip "one") = None /\
  fst (delete_expense w) = Return tt /\ expenses (snd (delete_expense w)) = digit_ledger.
Proof.
  intro w.
  assert (H1 : expenses w <> []) by discriminate.
  split; [exact H1 |]. split; [reflexivity |].
  destruct (delete_expense_bad_input w H1) as [H _].
  rewrite (H "one" [] eq_refl eq_refl). split; reflexivity.
Defined.

(** ** Charts *)










(** ** Leaving the program *)

Lemma menu_turn_ends (float : string -> option Q) (w w' : world) :
  menu_turn float w = (Return false, w') ->
  (writable w' = true ->
   file w' = Some (JsonDoc (document (expenses w') (expense_counter w')))) /\
  exists out, stdout w'
              = out ++ [if writable w' then Saved else Save_error;
                        Text "Thank you for using Expense Tracker! Goodbye!"].
Proof.
  unfold menu_turn. unfold bind at 1.
  destruct (display_menu w) as [[[] | e |] w1]; try discriminate.
  unfold bind at 1.
  destruct (input_stripped w1) as [[choice | e |] w2]; try discriminate.
  destruct (choice =? "8")%string.
  - unfold bind at 1. rewrite save_expenses_returns, bind_print. unfold ret.
    intro H. injection H as <-.
    cbn [writable file expenses expense_counter stdout emit].
    split; [intros ->; reflexivity |].
    exists (stdout w2). now rewrite <- app_assoc.
  - unfold bind at 1.
    match goal with |- context [match ?op w2 with _ => _ end] => destruct (op w2) as [[[] | e |] w3] end;
      try discriminate.
    unfold bind at 1. destruct (input w3) as [[s | e |] w4]; discriminate.
Qed.

Lemma main_loop_returns (float : string -> option Q) (turns : nat) (w w' : world) :
  main_loop float turns w = (Return tt, w') ->
  exists w0, menu_turn float w0 = (Return false, w').
Proof.
  revert w. induction turns as [| n IH]; intros w; [discriminate |].
  cbn [main_loop]. unfold bind at 1.
  destruct (menu_turn float w) as [[[|] | e |] w1] eqn:E.
  - apply IH.
  - unfold ret. intro H. injection H as <-. now exists w.
  - intro H. discriminate H.
  - intro H. discriminate H.
Qed.

Lemma display_menu_returns (w : world) : exists out, display_menu w = (Return tt, emit out w).
Proof.
  unfold display_menu. rewrite !bind_print, print_emit, !emit_emit. now eexists.
Qed.

(** X10.  [main] returns only through the choice 8, which saves first: when
    [main] has returned, the last two lines printed are the line of
    [save_expenses] and the farewell, and a file that can be written holds
    the ledger and the counter of that moment.  When the first choice is 8,
    [main] does return, with the ledger and the counter that [load_expenses]
    set up. *)
Theorem main_saves_on_exit (float : string -> option Q) (w : world) :
  (forall w', main float w = (Return tt, w') ->
     (writable w' = true ->
      file w' = Some (JsonDoc (document (expenses w') (expense_counter w')))) /\
     exists out, stdout w'
                 = out ++ [if writable w' then Saved else Save_error;
                           Text "Thank you for using Expense Tracker! Goodbye!"]) /\
  (forall w1 l rest,
     startup w = (Return tt, w1) -> stdin w1 = l :: rest -> PyStr.strip l = "8" ->
     fst (main float w) = Return tt /\
     expenses (snd (main float w)) = expenses w1 /\
     expense_counter (snd (main float w)) = expense_counter w1 /\
     stdin (snd (main float w)) = rest).
Proof.
  split.
  - intros w'. unfold main. unfold bind at 1.
    destruct (startup w) as [[[] | e |] w1];
      [| intro H; discriminate H | intro H; discriminate H].
    rewrite bind_ask. intros [w0 H]%main_loop_returns.
    apply menu_turn_ends in H as [H1 H2]. now split.
  - intros w1 l rest Hstart Hin Hchoice.
    assert (Hrun : exists w', main float w = (Return tt, w') /\
                     expenses w' = expenses w1 /\
                     expense_counter w' = expense_counter w1 /\ stdin w' = rest).
    { unfold main. unfold bind at 1.
      rewrite Hstart, bind_ask, Hin. cbn [List.length main_loop].
      unfold bind at 1. unfold menu_turn. unfold bind at 1.
      destruct (display_menu_returns w1) as [out ->].
      rewrite (bind_input_stripped _ _ l rest) by exact Hin.
      rewrite Hchoice. cbn [String.eqb Ascii.eqb Bool.eqb].
      unfold bind at 1. rewrite save_expenses_returns, bind_print. unfold ret.
      eexists. split; [reflexivity |].
      cbn [expenses expense_counter stdin emit consume]. rewrite Hin.
      split; [reflexivity |]. split; reflexivity. }
    destruct Hrun as [w' [-> H]]. exact (conj eq_refl H).
Qed.

Lemma main_saves_on_exit_witness :
  let w := start None true true true (Calendar.mkdate 2024 3 1)
                 ["1"; "Food"; "12.5"; ""; "dinner"; ""; " 8 "] in
  fst (main decimal_float w) = Return tt /\
  file (snd (main decimal_float w))
  = Some (JsonDoc (document [(1, mkexpense "Food" (125 # 10) "2024-03-01" "dinner")] 2)).
Proof.
  intro w.
  assert (Hrun : main decimal_float w = (Return tt, snd (main decimal_float w)))
    by (vm_compute; reflexivity).
  assert (Hw : writable (snd (main decimal_float w)) = true) by (vm_compute; reflexivity).
  split; [rewrite Hrun; reflexivity |].
  rewrite (proj1 (proj1 (main_saves_on_exit decimal_float w) _ Hrun) Hw).
  vm_compute. reflexivity.
Defined.

(** ** The periods of a summary share out the ledger *)

Lemma count_of_summaries_set (k : string) (s : summary) (d : PyDict.dict) :
  fold_right Z.add 0 (map count (PyDict.values (PyDict.set String.eqb k s d)))
  = fold_right Z.add 0 (map count (PyDict.values d))
    - match PyDict.get String.eqb k d with Some s0 => count s0 | None => 0 end
    + count s.
Proof.
  induction d as [| [k' s'] r IH]; simpl.
  - lia.
  - destruct (k =? k')%string eqn:E; simpl.
    + lia.
    + rewrite IH. lia.
Qed.

Lemma group_counts (choice : string) (es : list expense) :
  forall acc sums, group choice es acc = Some sums ->
    fold_right Z.add 0 (map count (PyDict.values sums))
    = fold_right Z.add 0 (map count (PyDict.values acc)) + Z.of_nat (List.length es).
Proof.
  induction es as [| e r IH]; intros acc sums H.
  - injection H as <-. simpl. lia.
  - cbn [group] in H. destruct (Calendar.strptime (date e)) as [d |]; [| discriminate].
    destruct (period choice d) as [key lbl].
    rewrite (IH _ _ H). clear H IH.
    unfold PyDict.update.
    destruct (PyDict.get String.eqb key acc) as [s0 |] eqn:E;
      rewrite count_of_summaries_set, E;
      cbn [List.length add_to_summary count empty_summary]; lia.
Qed.

Lemma flat_map_get_keys {V} (d : PyDict.dict (K := string) (V := V)) :
  NoDup (PyDict.keys d) ->
  flat_map (fun k => match PyDict.get String.eqb k d with
                     | Some v => [(k, v)]
                     | None => []
                     end) (PyDict.keys d) = d.
Proof.
  induction d as [| [k v] r IH]; simpl; [reflexivity |].
  intro H. inversion H as [| ? ? Hk Hr]; subst. rewrite String.eqb_refl. simpl. f_equal.
  rewrite <- (IH Hr) at 2. rewrite !flat_map_concat_map. f_equal.
  apply map_ext_in. intros c Hc.
  destruct (String.eqb_spec c k) as [E | E]; [subst; contradiction | reflexivity].
Qed.

Lemma display_order_perm (sums : PyDict.dict (K := string) (V := summary)) :
  NoDup (PyDict.keys sums) -> Permutation (display_order sums) sums.
Proof.
  intro H. rewrite <- (flat_map_get_keys sums H) at 2. unfold display_order.
  apply Permutation_flat_map. apply sorted_perm.
Qed.

Lemma count_of_perm (l l' : list Z) :
  Permutation l l' -> fold_right Z.add 0 l = fold_right Z.add 0 l'.
Proof. induction 1; simpl; lia. Qed.

(** X11.  The periods of a summary share out the ledger: when the grouping
    loop of [generate_expense_summary] has gone through (no date raised),
    no period is shown twice, every period that is shown counts at least
    one expense, and the counts of the periods add up to the number of
    expenses: each expense is counted in one period and in no other. *)
Theorem period_counts_add_up (choice : string) (es : list expense)
    (sums : PyDict.dict (K := string) (V := summary)) :
  group choice es [] = Some sums ->
  NoDup (map fst (display_order sums)) /\
  (forall k s, In (k, s) (display_order sums) ->
     1 <= count s /\ count s = Z.of_nat (List.length (members choice k es))) /\
  fold_right Z.add 0 (map (fun ks => count (snd ks)) (display_order sums))
  = Z.of_nat (List.length es).
Proof.
  intro Hg.
  assert (Hnd : NoDup (PyDict.keys sums)) by (apply (group_nodup _ _ _ _ Hg); constructor).
  pose proof (display_order_perm sums Hnd) as Hp.
  split; [| split].
  - rewrite display_order_keys.
    apply (Permutation_NoDup (l := PyDict.keys sums)); [| exact Hnd].
    symmetry. apply sorted_perm.
  - intros k s Hks. apply display_order_in in Hks.
    destruct (group_summaries choice es sums k Hg) as [_ H].
    destruct (H s Hks) as [Hms [_ [Hc _]]]. split; [| exact Hc].
    rewrite Hc. destruct (members choice k es); [congruence | simpl; lia].
  - rewrite (count_of_perm _ (map (fun ks => count (snd ks)) sums))
      by (apply Permutation_map; exact Hp).
    pose proof (group_counts choice es [] sums Hg) as Hc.
    unfold PyDict.values in Hc. rewrite map_map in Hc. rewrite Hc. simpl. lia.
Qed.

Lemma period_counts_add_up_witness :
  let es := PyDict.values (example_ledger 1 2 3 "Food" "Rent" "Food" "a" "b" "c") in
  group "2" es [] = Some (example_summaries "Food" "Rent" "Food") /\
  map (fun ks => count (snd ks)) (display_order (example_summaries "Food" "Rent" "Food"))
  = [0 + 1; 0 + 1 + 1] /\
  fold_right Z.add 0 [0 + 1; 0 + 1 + 1] = Z.of_nat (List.length es).
Proof.
  intro es.
  assert (Hg : group "2" es [] = Some (example_summaries "Food" "Rent" "Food"))
    by reflexivity.
  split; [exact Hg |]. split; [reflexivity |].
  exact (proj2 (proj2 (period_counts_add_up "2" es _ Hg))).
Defined.

(** ** What the keys of the periods stand for *)

Lemma toordinal_inj (a b : Calendar.date) :
  Calendar.valid a = true -> Calendar.valid b = true ->
  Calendar.toordinal a = Calendar.toordinal b -> a = b.
Proof.
  intros Ha Hb E.
  destruct (Z.lt_trichotomy (Calendar.year a) (Calendar.year b)) as [H | [Ey | H]];
    [pose proof (toordinal_lt_year a b Ha Hb H); lia | |
     pose proof (toordinal_lt_year b a Hb Ha H); lia].
  destruct (Z.lt_trichotomy (Calendar.month a) (Calendar.month b)) as [H | [Em | H]];
    [pose proof (toordinal_lt_month a b Ha Hb Ey H); lia | |
     pose proof (toordinal_lt_month b a Hb Ha (eq_sym Ey) H); lia].
  assert (Ed : Calendar.day a = Calendar.day b)
    by (unfold Calendar.toordinal in E; rewrite Ey, Em in E; lia).
  destruct a, b. simpl in *. congruence.
Qed.

Lemma pad4_key_eq (n m : Z) (s t : string) :
  0 <= n < 10000 -> 0 <= m < 10000 ->
  (PyStr.pad4 n ++ s = PyStr.pad4 m ++ t)%string -> n = m /\ s = t.
Proof.
  intros Hn Hm E. apply OrderedTypeEx.String_as_OT.cmp_eq in E.
  rewrite compare_pad4 in E by assumption.
  destruct (Z.compare_spec n m); try discriminate.
  split; [assumption | now apply OrderedTypeEx.String_as_OT.cmp_eq].
Qed.

Lemma pad2_key_eq (n m : Z) :
  0 <= n < 100 -> 0 <= m < 100 -> PyStr.pad2 n = PyStr.pad2 m -> n = m.
Proof.
  intros Hn Hm E. apply OrderedTypeEx.String_as_OT.cmp_eq in E.
  rewrite <- (append_nil_r (PyStr.pad2 n)), <- (append_nil_r (PyStr.pad2 m)) in E.
  rewrite compare_pad2 in E by assumption.
  now destruct (Z.compare_spec n m).
Qed.

Lemma same_monday (y a b : Z) :
  (y + a + 6) mod 7 = 0 -> (y + b + 6) mod 7 = 0 ->
  (a - 1 + 7 - 1) / 7 = (b - 1 + 7 - 1) / 7 -> y + a = y + b.
Proof. lia. Qed.

Lemma string_app_inv_head (p s t : string) : (p ++ s = p ++ t)%string -> s = t.
Proof. induction p as [| c r IH]; simpl; [auto | intros [= H]; auto]. Qed.

Lemma monday_key_eq (a b : Calendar.date) :
  Calendar.valid a = true -> Calendar.valid b = true ->
  Calendar.weekday a = 0 -> Calendar.weekday b = 0 ->
  ((PyStr.pad4 (Calendar.year a) ++ "-W" ++ PyStr.pad2 (Calendar.week_U a))%string
   = (PyStr.pad4 (Calendar.year b) ++ "-W" ++ PyStr.pad2 (Calendar.week_U b))%string
   <-> Calendar.toordinal a = Calendar.toordinal b).
Proof.
  intros Va Vb Wa Wb.
  pose proof Va as [Ya _]%valid_iff. pose proof Vb as [Yb _]%valid_iff.
  pose proof (week_U_bounds a Va) as Ua. pose proof (week_U_bounds b Vb) as Ub.
  split.
  - intro E. apply pad4_key_eq in E as [Ey E]; [| lia | lia].
    apply (string_app_inv_head "-W") in E. apply pad2_key_eq in E; [| lia | lia].
    unfold Calendar.week_U in E. rewrite Wa, Wb in E.
    change ((0 + 1) mod 7) with 1 in E.
    assert (A : forall d, Calendar.toordinal d
              = Calendar.days_before_year (Calendar.year d)
                + (Calendar.days_before_month (Calendar.year d) (Calendar.month d)
                   + Calendar.day d))
      by (intro d; unfold Calendar.toordinal; ring).
    unfold Calendar.weekday in Wa, Wb. rewrite A in Wa, Wb. rewrite !A.
    rewrite Ey in Wa, E |- *.
    exact (same_monday _ _ _ Wa Wb E).
  - intro E. now rewrite (toordinal_inj a b Va Vb E).
Qed.

(** X12.  What the period keys of [generate_expense_summary] stand for.  Two
    days have the same weekly key exactly when they lie in the same week
    from Monday to Sunday, the same monthly key exactly when they lie in the
    same month of the same year, and the same yearly key exactly when they
    lie in the same year. *)
Theorem period_keys_meaning (d1 d2 : Calendar.date) :
  Calendar.valid d1 = true -> Calendar.valid d2 = true ->
  (fst (period "1" d1) = fst (period "1" d2) <->
   Calendar.toordinal d1 - Calendar.weekday d1 = Calendar.toordinal d2 - Calendar.weekday d2) /\
  (fst (period "2" d1) = fst (period "2" d2) <->
   Calendar.year d1 = Calendar.year d2 /\ Calendar.month d1 = Calendar.month d2) /\
  (fst (period "3" d1) = fst (period "3" d2) <-> Calendar.year d1 = Calendar.year d2).
Proof.
  intros H1 H2.
  pose proof H1 as [Hy1 [Hm1 Hd1]]%valid_iff.
  pose proof H2 as [Hy2 [Hm2 Hd2]]%valid_iff.
  split; [| split].
  - destruct (week_start_facts d1 H1) as [V1 [O1 [W1 _]]].
    destruct (week_start_facts d2 H2) as [V2 [O2 [W2 _]]].
    rewrite <- O1, <- O2.
    exact (monday_key_eq _ _ V1 V2 W1 W2).
  - change (fst (period "2" d1))
      with (PyStr.pad4 (Calendar.year d1) ++ "-" ++ PyStr.pad2 (Calendar.month d1))%string.
    change (fst (period "2" d2))
      with (PyStr.pad4 (Calendar.year d2) ++ "-" ++ PyStr.pad2 (Calendar.month d2))%string.
    split.
    + intro E. apply pad4_key_eq in E as [Ey E]; [| lia | lia].
      apply (string_app_inv_head "-") in E. apply pad2_key_eq in E; [| lia | lia].
      now split.
    + intros [-> ->]. reflexivity.
  - change (fst (period "3" d1)) with (PyStr.pad4 (Calendar.year d1)).
    change (fst (period "3" d2)) with (PyStr.pad4 (Calendar.year d2)).
    split.
    + intro E. rewrite <- (append_nil_r (PyStr.pad4 (Calendar.year d1))) in E.
      rewrite <- (append_nil_r (PyStr.pad4 (Calendar.year d2))) in E.
      apply pad4_key_eq in E as [Ey _]; [exact Ey | lia | lia].
    + intros ->. reflexivity.
Qed.

Lemma period_keys_meaning_witness :
  Calendar.valid (Calendar.mkdate 2024 12 30) = true /\
  Calendar.valid (Calendar.mkdate 2025 1 5) = true /\
  fst (period "1" (Calendar.mkdate 2024 12 30)) = "2024-W52" /\
  fst (period "1" (Calendar.mkdate 2025 1 5)) = fst (period "1" (Calendar.mkdate 2024 12 30)).
Proof.
  split; [reflexivity |]. split; [reflexivity |]. split; [reflexivity |].
  apply (proj1 (period_keys_meaning (Calendar.mkdate 2025 1 5) (Calendar.mkdate 2024 12 30)
                  eq_refl eq_refl)).
  reflexivity.
Defined.

(** ** Loading: a missing file, a broken file, missing fields *)

(** X13.  [load_expenses] without a file says so and leaves the two globals
    as they are.  The handler catches [IOError] and [JSONDecodeError] and
    nothing else: a file that cannot be opened, or whose text [json.load]
    rejects with [JSONDecodeError], is reported, and the ledger is empty and
    the counter 1 afterwards; bytes that do not decode as text raise
    [UnicodeDecodeError], a text nested too deep raises [RecursionError],
    and both leave the function with the globals as they were.  In a JSON
    object the two fields are optional: without [expenses] the ledger is
    empty, without [counter] the counter is 1, whatever IDs the ledger
    holds (IDs of at most 4300 digits, which [int] reads). *)
Theorem load_expenses_fallbacks (w : world) :
  (file w = None ->
   load_expenses w
   = (Return tt, emit [Text "No saved expenses found. Starting fresh."] w)) /\
  (file w <> None -> readable w = false \/ file w = Some NotJson ->
   load_expenses w = (Return tt, with_ledger [] 1 (emit [Load_warning] w))) /\
  (readable w = true ->
   (file w = Some NotText -> load_expenses w = (Raise UnicodeDecodeError, w)) /\
   (file w = Some TooDeep -> load_expenses w = (Raise RecursionError, w))) /\
  (forall fields c, readable w = true -> file w = Some (JsonDoc (JObj fields)) ->
     PyDict.get String.eqb "expenses" fields = None ->
     get_default "counter" (JInt 1) fields = JInt c ->
     load_expenses w = (Return tt, emit [Loaded_from_file 0] (with_ledger [] c w))) /\
  (forall d, readable w = true -> NoDup (PyDict.keys d) ->
     (forall k, In k (PyDict.keys d) -> Z.abs k < 10 ^ 4300) ->
     file w
     = Some (JsonDoc (JObj [("expenses",
                             JObj (map (fun ke => (PyStr.str (fst ke),
                                                   json_of_expense (snd ke))) d))])) ->
     load_expenses w
     = (Return tt, emit [Loaded_from_file (List.length d)] (with_ledger d 1 w))).
Proof.
  split; [| split; [| split; [| split]]].
  - intro H. unfold load_expenses. now rewrite H.
  - intros Hf H. unfold load_expenses.
    destruct (file w) as [content |]; [| congruence].
    destruct H as [-> | [= ->]]; [reflexivity |]. now destruct (readable w).
  - intro Hr. unfold load_expenses. rewrite Hr. split; intros ->; reflexivity.
  - intros fields c Hr Hf He Hc. unfold load_expenses. rewrite Hf, Hr.
    unfold read_document. unfold get_default at 1. rewrite He.
    cbn [int_keys PyDict.of_items fold_left expenses_of_json]. rewrite Hc. reflexivity.
  - intros d Hr Hnd _ Hf. unfold load_expenses. rewrite Hf, Hr.
    unfold read_document.
    change (get_default "expenses" (JObj []) _)
      with (JObj (map (fun ke => (PyStr.str (fst ke), json_of_expense (snd ke))) d)).
    cbv beta iota. rewrite int_keys_document.
    rewrite of_items_nodup
      by (unfold PyDict.keys in *; rewrite map_map; simpl; exact Hnd).
    rewrite expenses_of_json_document.
    change (get_default "counter" (JInt 1) _) with (JInt 1).
    reflexivity.
Qed.

Lemma load_expenses_fallbacks_witness :
  let w := start (Some (JsonDoc (JObj [("counter", JInt 7)]))) true true true
                 (Calendar.mkdate 2024 3 1) [] in
  expenses (snd (load_expenses w)) = [] /\ expense_counter (snd (load_expenses w)) = 7.
Proof.
  intro w.
  destruct (load_expenses_fallbacks w) as [_ [_ [_ [H _]]]].
  rewrite (H [("counter", JInt 7)] 7 eq_refl eq_refl eq_refl eq_refl).
  split; reflexivity.
Defined.

(** ** The periodic summary: what goes wrong *)

Lemma group_raises (choice : string) (es : list expense) :
  Exists (fun e => validate_date (date e) = false) es ->
  forall acc, group choice es acc = None.
Proof.
  induction 1 as [e r H | e r H IH]; intro acc; cbn [group].
  - unfold validate_date in H. now destruct (Calendar.strptime (date e)).
  - destruct (Calendar.strptime (date e)) as [d |]; [| reflexivity].
    destruct (period choice d). apply IH.
Qed.

(** X14.  [generate_expense_summary] answers a choice other than 1, 2 and 3
    with an error line and returns.  With a valid choice, an expense whose
    date [strptime] does not read makes it raise [ValueError] once the
    choice has been made, before any period is printed: the function has no
    handler for it.  [add_expense] lets no such date in, so only a file can
    bring one. *)
Theorem generate_expense_summary_errors (w : world) (l : string) (rest : list string) :
  expenses w <> [] -> stdin w = l :: rest ->
  let choice := PyStr.strip l in
  let header := [Text "=== Expense Summary ==="; Text "1. Weekly summary";
                 Text "2. Monthly summary"; Text "3. Yearly summary"] in
  (choice <> "1" -> choice <> "2" -> choice <> "3" ->
   generate_expense_summary w
   = (Return tt, emit (header ++ [Text "Error: Invalid choice."]) (consume w))) /\
  (choice = "1" \/ choice = "2" \/ choice = "3" ->
   Exists (fun e => validate_date (date e) = false) (PyDict.values (expenses w)) ->
   generate_expense_summary w = (Raise ValueError, emit header (consume w))).
Proof.
  intros Hne Hin choice header.
  assert (Hemp : is_empty (expenses w) = false)
    by (destruct (expenses w); [congruence | reflexivity]).
  split.
  - intros N1 N2 N3. unfold generate_expense_summary. rewrite bind_ask, Hemp, !bind_print.
    rewrite (bind_input_stripped _ _ l rest) by exact Hin. fold choice.
    apply String.eqb_neq in N1, N2, N3. rewrite N1, N2, N3. cbn [orb negb].
    rewrite print_emit, !consume_emit, !emit_emit. reflexivity.
  - intros Hc Hbad. unfold generate_expense_summary. rewrite bind_ask, Hemp, !bind_print.
    rewrite (bind_input_stripped _ _ l rest) by exact Hin. fold choice.
    replace ((choice =? "1")%string || (choice =? "2")%string || (choice =? "3")%string)
      with true by (destruct Hc as [-> | [-> | ->]]; reflexivity).
    cbn [negb]. rewrite (group_raises choice _ Hbad).
    rewrite !consume_emit, !emit_emit. reflexivity.
Qed.

Lemma generate_expense_summary_errors_witness :
  let w := example_world [(1, mkexpense "Food" 10 "2024-02-30" "a")] 2 ["2"] in
  expenses w <> [] /\
  Exists (fun e => validate_date (date e) = false) (PyDict.values (expenses w)) /\
  fst (generate_expense_summary w) = Raise ValueError.
Proof.
  intro w.
  assert (H1 : expenses w <> []) by discriminate.
  assert (H2 : Exists (fun e => validate_date (date e) = false) (PyDict.values (expenses w)))
    by (left; reflexivity).
  split; [exact H1 |]. split; [exact H2 |].
  destruct (generate_expense_summary_errors w "2" [] H1 eq_refl) as [_ H].
  rewrite (H (or_intror (or_introl eq_refl)) H2). reflexivity.
Defined.

(** ** The file keeps in step with the ledger *)

Lemma steady_ret {A} (a : A) : steady (ret a).
Proof. intro w. repeat split. Qed.

Lemma steady_raise {A} (e : exn) : steady (@raise A e).
Proof. intro w. repeat split. Qed.

Lemma steady_ask {A} (f : world -> A) : steady (ask f).
Proof. intro w. repeat split. Qed.

Lemma steady_print (l : line) : steady (print l).
Proof. intro w. repeat split. Qed.

Lemma steady_input : steady input.
Proof. intro w. unfold input. destruct (stdin w); repeat split. Qed.

Lemma steady_bind {A B} (m : M A) (k : A -> M B) :
  steady m -> (forall a, steady (k a)) -> steady (bind m k).
Proof.
  intros Hm Hk w. unfold bind. specialize (Hm w).
  destruct (m w) as [[a | e |] w1]; simpl in *; try exact Hm.
  destruct (Hk a w1) as [H1 [H2 [H3 H4]]]. destruct Hm as [H5 [H6 [H7 H8]]].
  repeat split; congruence.
Qed.

Lemma steady_for_each {A} (xs : list A) (body : A -> M unit) :
  (forall x, steady (body x)) -> steady (for_each xs body).
Proof.
  intro H. induction xs as [| x r IH]; simpl.
  - apply steady_ret.
  - apply steady_bind; [apply H | intros _; exact IH].
Qed.

Lemma steady_divide (x y : Q) : steady (divide x y).
Proof. unfold divide. destruct (Qeq_bool y 0); [apply steady_raise | apply steady_ret]. Qed.

Lemma steady_input_stripped : steady input_stripped.
Proof. apply steady_bind; [apply steady_input | intro; apply steady_ret]. Qed.

Ltac steady_auto :=
  repeat lazymatch goal with
    | |- steady (bind _ _) => apply steady_bind; [| intro]
    | |- steady (ret _) => apply steady_ret
    | |- steady (raise _) => apply steady_raise
    | |- steady (ask _) => apply steady_ask
    | |- steady input_stripped => apply steady_input_stripped
    | |- steady input => apply steady_input
    | |- steady (divide _ _) => apply steady_divide
    | |- steady (print _) => apply steady_print
    | |- steady (for_each _ _) => apply steady_for_each; intro
    | |- steady (if ?b then _ else _) => destruct b
    | |- steady (match ?x with _ => _ end) => destruct x
    end.

Lemma steady_show_period (s : summary) : steady (show_period s).
Proof. unfold show_period. steady_auto. Qed.

Lemma steady_view_all_expenses : steady view_all_expenses.
Proof. unfold view_all_expenses. steady_auto. Qed.

Lemma steady_filter_expenses_by_category : steady filter_expenses_by_category.
Proof. unfold filter_expenses_by_category, select_category. steady_auto. Qed.

Lemma steady_calculate_total_expenses : steady calculate_total_expenses.
Proof. unfold calculate_total_expenses. steady_auto. Qed.

Lemma steady_generate_expense_summary : steady generate_expense_summary.
Proof. unfold generate_expense_summary. steady_auto. apply steady_show_period. Qed.

Lemma steady_visualize_expenses : steady visualize_expenses.
Proof. unfold visualize_expenses, chart. steady_auto. Qed.

Lemma steady_display_menu : steady display_menu.
Proof. unfold display_menu. steady_auto. Qed.

Lemma keeps_of_steady {A} (m : M A) : steady m -> keeps_in_step m.
Proof.
  intros H w [Hw Hs]. destruct (H w) as [H1 [H2 [H3 H4]]].
  unfold in_step. rewrite H1, H2, H3, H4. now split.
Qed.

Lemma keeps_bind {A B} (m : M A) (k : A -> M B) :
  keeps_in_step m -> (forall a, keeps_in_step (k a)) -> keeps_in_step (bind m k).
Proof.
  intros Hm Hk w Hw. unfold bind. specialize (Hm w Hw).
  destruct (m w) as [[a | e |] w1]; simpl in *; try exact Hm.
  now apply Hk.
Qed.

Lemma keeps_try {A} (m handler : M A) (catches : exn -> bool) :
  keeps_in_step m -> keeps_in_step handler -> keeps_in_step (try_except m catches handler).
Proof.
  intros Hm Hh w Hw. unfold try_except. specialize (Hm w Hw).
  destruct (m w) as [[a | e |] w1]; simpl in *; try exact Hm.
  destruct (catches e); [now apply Hh | exact Hm].
Qed.

Lemma keeps_save : keeps_in_step save_expenses.
Proof.
  intros w [Hw _]. rewrite save_expenses_returns, Hw.
  split; [reflexivity | right; reflexivity].
Qed.

(** Whatever is bound to the globals, a save that follows brings the file
    in step. *)
Lemma keeps_set_save (d d' : PyDict.dict) (c c' : Z) (l : line) :
  keeps_in_step (set_globals d c ;;; print l ;;; set_globals d' c' ;;; save_expenses).
Proof.
  intros w [Hw _].
  rewrite bind_set_globals, bind_print, bind_set_globals, save_expenses_returns.
  cbn [writable emit with_ledger]. rewrite Hw.
  split; [reflexivity | right; reflexivity].
Qed.

Lemma keeps_del_save (d : PyDict.dict) (c : Z) (l : line) :
  keeps_in_step (set_globals d c ;;; print l ;;; save_expenses).
Proof.
  intros w [Hw _].
  rewrite bind_set_globals, bind_print, save_expenses_returns.
  cbn [writable emit with_ledger]. rewrite Hw.
  split; [reflexivity | right; reflexivity].
Qed.

Lemma add_expense_keeps (float : string -> option Q) : keeps_in_step (add_expense float).
Proof.
  unfold add_expense.
  apply keeps_bind; [apply keeps_of_steady; steady_auto | intros _].
  apply keeps_bind; [apply keeps_of_steady; steady_auto | intro cat].
  destruct (cat =? "")%string; [apply keeps_of_steady; steady_auto |].
  apply keeps_bind; [apply keeps_of_steady; steady_auto | intro amount_input].
  destruct (validate_amount float amount_input) as [is_valid a].
  destruct is_valid; cbn [negb]; [| apply keeps_of_steady; steady_auto].
  apply keeps_bind; [apply keeps_of_steady; steady_auto | intro date_input].
  apply keeps_bind; [apply keeps_of_steady; steady_auto | intro now].
  destruct (negb (date_input =? "")%string && negb (validate_date date_input));
    [apply keeps_of_steady; steady_auto |].
  cbv zeta.
  apply keeps_bind; [apply keeps_of_steady; steady_auto | intro descr].
  apply keeps_bind; [apply keeps_of_steady; steady_auto | intro d].
  apply keeps_bind; [apply keeps_of_steady; steady_auto | intro c].
  apply keeps_set_save.
Qed.

Lemma delete_expense_keeps : keeps_in_step delete_expense.
Proof.
  unfold delete_expense.
  apply keeps_bind; [apply keeps_of_steady; steady_auto | intro d].
  destruct (is_empty d); [apply keeps_of_steady; steady_auto |].
  apply keeps_bind; [apply keeps_of_steady; steady_auto | intros _].
  apply keeps_bind; [apply keeps_of_steady, steady_view_all_expenses | intros _].
  apply keeps_try; [| apply keeps_of_steady; steady_auto].
  apply keeps_bind; [apply keeps_of_steady; steady_auto | intro id_text].
  destruct (PyStr.int id_text) as [exp_id |]; [| apply keeps_of_steady; steady_auto].
  destruct (PyDict.get Z.eqb exp_id d) as [e |]; [| apply keeps_of_steady; steady_auto].
  do 5 (apply keeps_bind; [apply keeps_of_steady; steady_auto | intros _]).
  apply keeps_bind; [apply keeps_of_steady; steady_auto | intro answer].
  cbv zeta.
  destruct ((PyStr.lower answer =? "yes")%string || (PyStr.lower answer =? "y")%string).
  - apply keeps_bind; [apply keeps_of_steady; steady_auto | intro c].
    apply keeps_del_save.
  - apply keeps_of_steady; steady_auto.
Qed.

Lemma menu_turn_keeps (float : string -> option Q) : keeps_in_step (menu_turn float).
Proof.
  unfold menu_turn.
  apply keeps_bind; [apply keeps_of_steady, steady_display_menu | intros _].
  apply keeps_bind; [apply keeps_of_steady; steady_auto | intro choice].
  destruct (choice =? "8")%string.
  - apply keeps_bind; [apply keeps_save | intros _]. apply keeps_of_steady; steady_auto.
  - apply keeps_bind; [| intros _; apply keeps_of_steady; steady_auto].
    destruct (choice =? "1")%string; [apply add_expense_keeps |].
    destruct (choice =? "2")%string; [apply keeps_of_steady, steady_view_all_expenses |].
    destruct (choice =? "3")%string;
      [apply keeps_of_steady, steady_filter_expenses_by_category |].
    destruct (choice =? "4")%string;
      [apply keeps_of_steady, steady_calculate_total_expenses |].
    destruct (choice =? "5")%string; [apply delete_expense_keeps |].
    destruct (choice =? "6")%string;
      [apply keeps_of_steady, steady_generate_expense_summary |].
    destruct (choice =? "7")%string; [apply keeps_of_steady, steady_visualize_expenses |].
    apply keeps_of_steady. steady_auto.
Qed.

Lemma turn_keeps_nodup (w w' : world) :
  turn_effect w w' -> NoDup (PyDict.keys (expenses w)) -> NoDup (PyDict.keys (expenses w')).
Proof.
  intros [out [_ [[-> _] | [[e [-> _]] | [id [-> _]]]]]] H.
  - exact H.
  - now apply (nodup_set Z.eqb Z.eqb_spec).
  - now apply nodup_del.
Qed.

(** X15.  Nothing that a session has stored or deleted is lost when the
    program stops between two turns.  Start where the file can be written
    and is in step with the ledger, as it is when there is no file yet or
    right after a save.  Then after every turn of the menu the file is in
    step again: [add_expense] and [delete_expense] save at once, and nothing
    else changes the ledger.  A fresh process that reads that file comes up
    with the same ledger and the same counter. *)
Theorem session_file_in_step (float : string -> option Q)
    (w1 : world) (deleted : list Z) (w : world) :
  session float w1 deleted w ->
  in_step w1 -> NoDup (PyDict.keys (expenses w1)) ->
  in_step w /\ NoDup (PyDict.keys (expenses w)) /\
  forall later,
    file later = file w -> readable later = true ->
    expenses later = [] -> expense_counter later = 1 ->
    fst (load_expenses later) = Return tt /\
    expenses (snd (load_expenses later)) = expenses w /\
    expense_counter (snd (load_expenses later)) = expense_counter w.
Proof.
  intros Hs H1 Hnd1.
  assert (H : in_step w /\ NoDup (PyDict.keys (expenses w))).
  { induction Hs as [| deleted w w' Hs IH Hrun]; [now split |].
    destruct IH as [IH1 IH2]. split.
    - pose proof (menu_turn_keeps float w IH1) as H. now rewrite Hrun in H.
    - pose proof (menu_turn_effect float w) as H. rewrite Hrun in H.
      exact (turn_keeps_nodup w w' H IH2). }
  destruct H as [[Hw Hstep] Hnd]. split; [now split |]. split; [exact Hnd |].
  intros later Hfile Hr He Hc. unfold load_expenses. rewrite Hfile.
  destruct Hstep as [[-> [-> ->]] | ->].
  - cbn [fst snd print]. now rewrite He, Hc.
  - rewrite Hr, read_document_of_saved by exact Hnd. repeat split.
Qed.

Lemma session_file_in_step_witness :
  let w1 := snd (startup (add_after_load None)) in
  let w2 := snd (menu_turn decimal_float w1) in
  let later := start (file w2) true true true (Calendar.mkdate 2024 3 2) [] in
  in_step w1 /\
  expenses (snd (load_expenses later))
  = [(1, mkexpense "Food" (125 # 10) "2024-02-01" "dinner")] /\
  expense_counter (snd (load_expenses later)) = 2.
Proof.
  intros w1 w2 later.
  assert (H1 : in_step w1) by (split; [reflexivity | left; repeat split]).
  assert (Hnd : NoDup (PyDict.keys (expenses w1))) by constructor.
  assert (Hrun : menu_turn decimal_float w1 = (Return true, w2))
    by (vm_compute; reflexivity).
  assert (E2 : expenses w2 = [(1, mkexpense "Food" (125 # 10) "2024-02-01" "dinner")])
    by (vm_compute; reflexivity).
  assert (C2 : expense_counter w2 = 2) by (vm_compute; reflexivity).
  split; [exact H1 |].
  assert (Hf : file later = file w2) by reflexivity.
  assert (Hr : readable later = true) by reflexivity.
  assert (He : expenses later = []) by reflexivity.
  assert (Hc : expense_counter later = 1) by reflexivity.
  pose proof (session_file_in_step decimal_float w1 _ w2
              (session_turn decimal_float w1 [] w1 w2 (session_start _ _) Hrun) H1 Hnd)
    as [_ [_ H]].
  destruct (H later Hf Hr He Hc) as [_ [Hl1 Hl2]].
  rewrite Hl1, Hl2. split; assumption.
Defined.

(** ** The top categories of a period *)

Lemma Qlt_bool_true (x y : Q) : Qlt_bool x y = true -> (x <= y)%Q.
Proof.
  unfold Qlt_bool. intro H. apply negb_true_iff in H.
  apply Qlt_le_weak, Qnot_le_lt. intro Hle. apply Qle_bool_iff in Hle. congruence.
Qed.

Lemma Qlt_bool_false (x y : Q) : Qlt_bool x y = false -> (y <= x)%Q.
Proof.
  unfold Qlt_bool. intro H. apply negb_false_iff in H. now apply Qle_bool_iff.
Qed.

Lemma insert_by_amount_sorted (x : string * Q) (l : list (string * Q)) :
  StronglySorted (fun a b => snd b <= snd a)%Q l ->
  StronglySorted (fun a b => snd b <= snd a)%Q
                 (PyDict.insert (fun y x => Qlt_bool (snd x) (snd y)) x l).
Proof.
  induction 1 as [| y r Hr IH Hy]; cbn [PyDict.insert].
  - repeat constructor.
  - destruct (Qlt_bool (snd x) (snd y)) eqn:E.
    + constructor; [exact IH |].
      apply Forall_forall. intros z Hz.
      apply (Permutation_in _ (insert_perm _ x r)) in Hz.
      destruct Hz as [<- | Hz]; [now apply Qlt_bool_true |].
      rewrite Forall_forall in Hy. now apply Hy.
    + apply Qlt_bool_false in E.
      constructor; [now constructor |].
      constructor; [exact E |].
      apply Forall_forall. intros z Hz. rewrite Forall_forall in Hy.
      exact (Qle_trans _ _ _ (Hy z Hz) E).
Qed.

Lemma by_amount_desc_sorted (l : list (string * Q)) :
  StronglySorted (fun a b => snd b <= snd a)%Q (by_amount_desc l).
Proof.
  unfold by_amount_desc, PyDict.sorted.
  induction l as [| x r IH]; simpl; [constructor | now apply insert_by_amount_sorted].
Qed.

Lemma strongly_sorted_app {A} (R : A -> A -> Prop) (l1 l2 : list A) :
  StronglySorted R (l1 ++ l2) ->
  StronglySorted R l1 /\ forall x y, In x l1 -> In y l2 -> R x y.
Proof.
  induction l1 as [| a r IH]; simpl; intro H.
  - split; [constructor | intros x y []].
  - apply StronglySorted_inv in H as [H Ha]. destruct (IH H) as [H1 H2].
    rewrite Forall_forall in Ha. split.
    + constructor; [exact H1 |]. apply Forall_forall. intros z Hz.
      apply Ha. apply in_or_app. now left.
    + intros x y [<- | Hx] Hy; [| now apply H2].
      apply Ha. apply in_or_app. now right.
Qed.



(** ** The periodic summary of a checked ledger *)

Lemma filter_top_rows (t : Q) (rows : list (string * Q)) :
  filter (fun l => match l with Top_row _ _ _ => true | _ => false end)
         (map (fun ca => Top_row (fst ca) (snd ca) (snd ca / t * 100)%Q) rows)
  = map (fun ca => Top_row (fst ca) (snd ca) (snd ca / t * 100)%Q) rows.
Proof.
  induction rows as [| x xs IH]; [reflexivity |]. cbn [map filter]. now rewrite IH.
Qed.

(** C7, as amended.  Take a ledger with entries whose dates [validate_date]
    accepts, in years after 1000 (from which on [%Y] writes four digits
    wherever the program runs), and whose amounts are positive, and a
    granularity 1, 2 or 3.  Then [generate_expense_summary] returns, and
    what it prints is the header and, for each period in the order of
    display, the lines of that period.  Every expense is in a period that
    is shown.  When one period is shown before another, every expense of
    the first is on a later day than every expense of the second.  The
    total of a period is the amounts of its expenses added one by one in
    the order of the ledger, its count is their number, and its average
    line shows the total divided by the count.
    The line that opens the top categories is printed exactly when two
    expenses of the period differ in category.  Then the rows that follow
    it are two or three of the categories of the period, each with the
    amount added up for it, the largest amount first, and no category that
    is left out has a larger amount than one that is listed; when all
    expenses of the period have the same category, no such row is
    printed. *)
Theorem periodic_summary_presentation (w : world) (l : string) (rest : list string) :
  let choice := PyStr.strip l in
  let es := PyDict.values (expenses w) in
  expenses w <> [] ->
  stdin w = l :: rest ->
  choice = "1" \/ choice = "2" \/ choice = "3" ->
  Forall (fun e => validate_date (date e) = true) es ->
  Forall (fun e => 1000 < year_number e) es ->
  Forall (fun e => 0 < amount e)%Q es ->
  exists sums,
    group choice es [] = Some sums /\
    generate_expense_summary w = (Return tt, emit (summary_lines sums) (consume w)) /\
    (forall e, In e es ->
       exists k s, period_key choice e = Some k /\ In (k, s) (display_order sums)) /\
    (forall k1 k2 e1 e2,
       shown_before sums k1 k2 -> In e1 es -> In e2 es ->
       period_key choice e1 = Some k1 -> period_key choice e2 = Some k2 ->
       day_number e2 < day_number e1) /\
    (forall k s, In (k, s) (display_order sums) ->
       let ms := members choice k es in
       let rows := firstn 3 (by_amount_desc (categories s)) in
       let top := filter (fun l => match l with Top_row _ _ _ => true | _ => false end)
                         (period_lines s) in
       ms <> [] /\
       total s = fold_left Qplus (map amount ms) 0%Q /\
       count s = Z.of_nat (List.length ms) /\
       In (Average_expense (total s / inject_Z (count s))) (period_lines s) /\
       (In (Text "Top categories:") (period_lines s) <->
        exists e1 e2, In e1 ms /\ In e2 ms /\ category e1 <> category e2) /\
       ((exists e1 e2, In e1 ms /\ In e2 ms /\ category e1 <> category e2) ->
        top = map (fun ca => Top_row (fst ca) (snd ca) (snd ca / total s * 100)%Q) rows /\
        (2 <= List.length rows <= 3)%nat /\
        (forall ca, In ca rows -> In ca (category_totals ms)) /\
        StronglySorted (fun a b => snd b <= snd a)%Q rows /\
        (forall x y, In x rows -> In y (category_totals ms) -> ~ In y rows ->
                     (snd y <= snd x)%Q)) /\
       ((forall e1 e2, In e1 ms -> In e2 ms -> category e1 = category e2) -> top = [])).
Proof.
  intros choice es Hne Hin Hc Hdates _ Hpos.
  destruct (group_returns choice es Hdates []) as [sums Hg].
  assert (Hnd : NoDup (PyDict.keys sums)) by (apply (group_nodup _ _ _ _ Hg); constructor).
  assert (Hshown : forall k s, In (k, s) (display_order sums) ->
            let ms := members choice k es in
            ms <> [] /\ total s = sum (map amount ms) /\
            count s = Z.of_nat (List.length ms) /\ categories s = category_totals ms).
  { intros k s Hks. apply display_order_in in Hks.
    destruct (group_summaries choice es sums k Hg) as [_ H]. exact (H s Hks). }
  exists sums. split; [exact Hg |]. split; [| split; [| split]].
  - apply (generate_expense_summary_lines w l rest sums Hne Hin Hc Hg).
    intros k s Hks. destruct (Hshown k s Hks) as [Hms [Ht [Hcount _]]]. split.
    + rewrite Hcount. destruct (members choice k es); [congruence | simpl; lia].
    + rewrite Ht, sum_total_of. intro Hz.
      assert (H : (0 < total_of (map amount (members choice k es)))%Q).
      { apply total_of_positive.
        - destruct (members choice k es); [congruence | discriminate].
        - apply Forall_map. apply Forall_forall. intros e He.
          apply members_in in He as [He _]. rewrite Forall_forall in Hpos. now apply Hpos. }
      rewrite Hz in H. now apply Qlt_irrefl in H.
  - intros e He. rewrite Forall_forall in Hdates.
    destruct (validate_date_strptime _ (Hdates e He)) as [d Hd].
    assert (Hk : period_key choice e = Some (fst (period choice d)))
      by (unfold period_key; now rewrite Hd).
    assert (Hm : members choice (fst (period choice d)) es <> []).
    { intro E. assert (Hin' : In e (members choice (fst (period choice d)) es))
        by (apply members_in; now split).
      rewrite E in Hin'. destruct Hin'. }
    destruct (group_summaries choice es sums (fst (period choice d)) Hg) as [Hkeys _].
    apply Hkeys in Hm. apply (get_in_keys String.eqb String.eqb_spec) in Hm.
    destruct (PyDict.get String.eqb (fst (period choice d)) sums) as [s |] eqn:Es;
      [| congruence].
    exists (fst (period choice d)), s. split; [exact Hk | now apply display_order_in].
  - intros k1 k2 e1 e2 Hbefore _ _ H1 H2.
    pose proof (shown_before_key sums k1 k2 Hnd Hbefore) as Hlt.
    unfold period_key in H1, H2. unfold day_number.
    destruct (Calendar.strptime (date e1)) as [d1 |] eqn:E1; [| discriminate].
    destruct (Calendar.strptime (date e2)) as [d2 |] eqn:E2; [| discriminate].
    injection H1 as <-. injection H2 as <-.
    apply (later_period choice d1 d2 Hc); try assumption;
      eapply strptime_valid; eassumption.
  - intros k s Hks ms rows top. destruct (Hshown k s Hks) as [Hms [Ht [Hcount Hcat]]].
    split; [exact Hms |]. split; [exact Ht |]. split; [exact Hcount |]. split; [| split].
    + unfold period_lines. apply in_or_app. left. simpl. tauto.
    + rewrite top_categories_shown, Hcat. apply more_than_one_category.
    + fold ms in Hcat. split.
      * intro Htwo. apply more_than_one_category in Htwo. rewrite <- Hcat in Htwo.
        pose proof (by_amount_desc_sorted (categories s)) as Hs.
        rewrite <- (firstn_skipn 3 (by_amount_desc (categories s))) in Hs.
        apply strongly_sorted_app in Hs as [Hs1 Hs2].
        assert (Hl : List.length (by_amount_desc (categories s))
                     = List.length (categories s)) by apply sorted_length.
        assert (Hsub : forall ca, In ca rows -> In ca (category_totals ms)).
        { intros ca Hca. rewrite <- Hcat. apply (sorted_in (fun y x => Qlt_bool (snd x) (snd y))).
          fold (by_amount_desc (categories s)).
          rewrite <- (firstn_skipn 3 (by_amount_desc (categories s))).
          apply in_or_app. now left. }
        split; [| split; [| split; [exact Hsub | split; [exact Hs1 |]]]].
        -- unfold top, period_lines.
           replace (1 <? Z.of_nat (List.length (categories s))) with true
             by (symmetry; apply Z.ltb_lt; lia).
           cbn [app filter]. apply filter_top_rows.
        -- unfold rows. rewrite length_firstn, Hl. lia.
        -- intros x y Hx Hy Hn. apply Hs2; [exact Hx |]. rewrite <- Hcat in Hy.
           assert (H : In y (by_amount_desc (categories s))) by now apply sorted_in.
           rewrite <- (firstn_skipn 3 (by_amount_desc (categories s))) in H.
           apply in_app_or in H as [H | H]; [contradiction | exact H].
      * intro Hone. unfold top, period_lines.
        replace (1 <? Z.of_nat (List.length (categories s))) with false; [reflexivity |].
        symmetry. apply Z.ltb_ge.
        destruct (Nat.lt_ge_cases 1 (List.length (categories s))) as [Hlt | Hge]; [| lia].
        rewrite Hcat in Hlt. apply more_than_one_category in Hlt as [e1 [e2 [H1 [H2 Hd]]]].
        exfalso. apply Hd. now apply Hone.
Qed.

Lemma periodic_summary_presentation_witness :
  let w := example_world (example_ledger 1 2 3 "Food" "Transport" "Food" "" "" "") 4 [" 1 "] in
  expenses w <> [] /\
  Forall (fun e => validate_date (date e) = true) (PyDict.values (expenses w)) /\
  Forall (fun e => 1000 < year_number e) (PyDict.values (expenses w)) /\
  Forall (fun e => 0 < amount e)%Q (PyDict.values (expenses w)) /\
  fst (generate_expense_summary w) = Return tt.
Proof.
  intro w.
  assert (Hne : expenses w <> []) by discriminate.
  assert (Hd : Forall (fun e => validate_date (date e) = true) (PyDict.values (expenses w)))
    by (repeat constructor).
  assert (Hy : Forall (fun e => 1000 < year_number e) (PyDict.values (expenses w)))
    by (repeat constructor).
  assert (Hp : Forall (fun e => 0 < amount e)%Q (PyDict.values (expenses w)))
    by (repeat constructor).
  split; [exact Hne |]. split; [exact Hd |]. split; [exact Hy |]. split; [exact Hp |].
  destruct (periodic_summary_presentation w " 1 " [] Hne eq_refl (or_introl eq_refl) Hd Hy Hp)
    as [sums [_ [Hrun _]]].
  rewrite Hrun. reflexivity.
Defined.

(** C7, as stated, fails.  A ledger holds what its file brings.  On the
    expenses 5 and -5 of one month, in two categories, the monthly summary
    prints the line that opens the top categories and then raises
    [ZeroDivisionError] on the first percentage: no row of the breakdown is
    shown for a period with two categories, and the call does not return.
    On one expense whose date names no day, the yearly summary raises
    [ValueError] before any period is shown. *)
Lemma summary_fails_on_loaded_ledger :
  let w := example_world [(1, mkexpense "Food" 5 "2024-01-05" "lunch");
                          (2, mkexpense "Rent" (-5) "2024-01-20" "refund")] 3 ["2"] in
  let v := example_world [(1, mkexpense "Food" 5 "2024-13-45" "lunch")] 2 ["3"] in
  (expenses w <> [] /\
   (exists e1 e2, In e1 (PyDict.values (expenses w)) /\ In e2 (PyDict.values (expenses w)) /\
                  period_key "2" e1 = period_key "2" e2 /\ category e1 <> category e2) /\
   fst (generate_expense_summary w) = Raise ZeroDivisionError /\
   In (Text "Top categories:") (stdout (snd (generate_expense_summary w))) /\
   forall c a p, ~ In (Top_row c a p) (stdout (snd (generate_expense_summary w)))) /\
  (expenses v <> [] /\
   fst (generate_expense_summary v) = Raise ValueError /\
   forall lbl, ~ In (Period_label lbl) (stdout (snd (generate_expense_summary v)))).
Proof.
  intros w v. split.
  - split; [discriminate |]. split; [| split; [| split]].
    + exists (mkexpense "Food" 5 "2024-01-05" "lunch"),
             (mkexpense "Rent" (-5) "2024-01-20" "refund").
      split; [now left |]. split; [right; now left |]. split; [reflexivity | discriminate].
    + vm_compute. reflexivity.
    + vm_compute. tauto.
    + intros c a p H. vm_compute in H.
      repeat (destruct H as [H | H]; [discriminate H |]). exact H.
  - split; [discriminate |]. split.
    + vm_compute. reflexivity.
    + intros lbl H. vm_compute in H.
      repeat (destruct H as [H | H]; [discriminate H |]). exact H.
Qed.
